(** * Coupon validation, redemption and referral registration of [core]

    A shallow embedding of the coupon and affiliate code of
    [core/models.py], [core/views.py] and [core/serializers.py], and the
    properties of it that the specification states.

    Conventions.
    - A Python [str] value is the [string] of the bytes of its UTF-8
      encoding. [Py.len] counts its characters and [Py.strip] removes the
      whitespace of Unicode; [Py.upper] and the [iexact] lookup change the
      case of ASCII letters only, as Python does on ASCII text and SQLite
      on any text.
    - A [DecimalField(max_digits=10, decimal_places=2)] value is the integer
      number of hundredths it denotes ([2.00] is [200]).
    - A [DateTimeField] value is an integer instant.
    - A database table is the list of its rows; a model instance is a
      record that was read from a row and lives on its own afterwards. *)

From Stdlib Require Import List String Ascii ZArith NArith QArith Lia Bool.
From Stdlib.Strings Require Import Byte.
From Stdlib Require Import DecimalString.
Import ListNotations.
Open Scope string_scope.

(** ** Python string operations *)

Module Py.

Definition is_lower (c : ascii) : bool :=
  (N.leb 97 (N_of_ascii c) && N.leb (N_of_ascii c) 122)%bool.

Definition is_upper (c : ascii) : bool :=
  (N.leb 65 (N_of_ascii c) && N.leb (N_of_ascii c) 90)%bool.

Definition is_digit (c : ascii) : bool :=
  (N.leb 48 (N_of_ascii c) && N.leb (N_of_ascii c) 57)%bool.

(** What "uppercase alphanumeric" asks of one character. *)
Definition is_upper_alnum (c : ascii) : bool := (is_upper c || is_digit c)%bool.

Definition upper_char (c : ascii) : ascii :=
  if is_lower c then ascii_of_N (N_of_ascii c - 32) else c.

(** [s.upper()] *)
Fixpoint upper (s : string) : string :=
  match s with
  | EmptyString => EmptyString
  | String c r => String (upper_char c) (upper r)
  end.

(** [s.replace(x, '')] for a one-character [x] *)
Fixpoint remove_char (x : ascii) (s : string) : string :=
  match s with
  | EmptyString => EmptyString
  | String c r =>
      if Ascii.eqb c x then remove_char x r else String c (remove_char x r)
  end.

(** [s[:n]] *)
Fixpoint take (n : nat) (s : string) : string :=
  match n, s with
  | S k, String c r => String c (take k r)
  | _, _ => EmptyString
  end.

Fixpoint all_chars (p : ascii -> bool) (s : string) : bool :=
  match s with
  | EmptyString => true
  | String c r => (p c && all_chars p r)%bool
  end.

Fixpoint count_char (x : ascii) (s : string) : nat :=
  match s with
  | EmptyString => 0
  | String c r => (if Ascii.eqb c x then 1 else 0) + count_char x r
  end.

(** The characters [str.strip()] removes are those [str.isspace()] holds
    of: U+0009 to U+000D, U+001C to U+0020, U+0085, U+00A0, U+1680, U+2000
    to U+200A, U+2028, U+2029, U+202F, U+205F and U+3000. The first ones
    take one byte, the next two take two bytes and the others three. *)
Definition is_space (c : ascii) : bool :=
  let n := N_of_ascii c in
  ((N.leb 9 n && N.leb n 13) || (N.leb 28 n && N.leb n 32))%bool.

Definition is_space2 (c d : ascii) : bool :=
  (N.eqb (N_of_ascii c) 194
   && (N.eqb (N_of_ascii d) 133 || N.eqb (N_of_ascii d) 160))%bool.

Definition is_space3 (c d e : ascii) : bool :=
  let c := N_of_ascii c in
  let d := N_of_ascii d in
  let e := N_of_ascii e in
  ((N.eqb c 225 && N.eqb d 154 && N.eqb e 128)
   || (N.eqb c 226 && N.eqb d 128
       && ((N.leb 128 e && N.leb e 138)
           || N.eqb e 168 || N.eqb e 169 || N.eqb e 175))
   || (N.eqb c 226 && N.eqb d 129 && N.eqb e 159)
   || (N.eqb c 227 && N.eqb d 128 && N.eqb e 128))%bool.

(** [s.lstrip()] *)
Fixpoint lstrip (s : string) : string :=
  match s with
  | EmptyString => EmptyString
  | String c r =>
      if is_space c then lstrip r
      else
        match r with
        | String d r2 =>
            if is_space2 c d then lstrip r2
            else
              match r2 with
              | String e r3 => if is_space3 c d e then lstrip r3 else s
              | EmptyString => s
              end
        | EmptyString => s
        end
  end.

(** The bytes of [s] from the last to the first, added in front of
    [acc]. *)
Fixpoint reverse_onto (s acc : string) : string :=
  match s with
  | EmptyString => acc
  | String c r => reverse_onto r (String c acc)
  end.

(** [lstrip] on the bytes read from the end: a character of several bytes
    shows its last byte first. *)
Fixpoint lstrip_reversed (s : string) : string :=
  match s with
  | EmptyString => EmptyString
  | String e r =>
      if is_space e then lstrip_reversed r
      else
        match r with
        | String d r2 =>
            if is_space2 d e then lstrip_reversed r2
            else
              match r2 with
              | String c r3 => if is_space3 c d e then lstrip_reversed r3 else s
              | EmptyString => s
              end
        | EmptyString => s
        end
  end.

(** [s.rstrip()] *)
Definition rstrip (s : string) : string :=
  reverse_onto (lstrip_reversed (reverse_onto s EmptyString)) EmptyString.

(** [s.strip()] *)
Definition strip (s : string) : string := rstrip (lstrip s).

(** A byte that continues a character of more than one byte. *)
Definition is_continuation (c : ascii) : bool :=
  let n := N_of_ascii c in (N.leb 128 n && N.leb n 191)%bool.

(** [len(s)]: the number of characters, one for every byte that starts
    one. *)
Fixpoint len (s : string) : nat :=
  match s with
  | EmptyString => 0
  | String c r => (if is_continuation c then 0 else 1) + len r
  end.

(** [x in s] for a one-character [x] *)
Fixpoint contains (x : ascii) (s : string) : bool :=
  match s with
  | EmptyString => false
  | String c r => (Ascii.eqb c x || contains x r)%bool
  end.

End Py.

(** ** [secrets.token_urlsafe] *)

Module Secrets.

Definition urlsafe_alphabet : string :=
  "ABCDEFGHIJKLMNOPQRSTUVWXYZabcdefghijklmnopqrstuvwxyz0123456789-_".

(** The character of a six-bit value. *)
Definition b64_char (i : N) : ascii :=
  match String.get (N.to_nat (N.land i 63)) urlsafe_alphabet with
  | Some c => c
  | None => "A"%char
  end.

Definition sextet (n : N) (shift : N) : ascii := b64_char (N.shiftr n shift).

(** [base64.urlsafe_b64encode(bs).rstrip(b'=')]: three bytes give four
    characters, a last group of two bytes three, of one byte two. *)
Fixpoint urlsafe_b64encode_nopad (bs : list byte) : string :=
  match bs with
  | [] => EmptyString
  | [a] =>
      let n := (Byte.to_N a * 65536)%N in
      String (sextet n 18) (String (sextet n 12) EmptyString)
  | [a; b] =>
      let n := (Byte.to_N a * 65536 + Byte.to_N b * 256)%N in
      String (sextet n 18) (String (sextet n 12) (String (sextet n 6) EmptyString))
  | a :: b :: c :: rest =>
      let n := (Byte.to_N a * 65536 + Byte.to_N b * 256 + Byte.to_N c)%N in
      String (sextet n 18) (String (sextet n 12) (String (sextet n 6)
        (String (sextet n 0) (urlsafe_b64encode_nopad rest))))
  end.

(** [secrets.token_urlsafe(nbytes)], given the [nbytes] bytes that the
    operating system's random source returned. *)
Definition token_urlsafe (entropy : list byte) : string :=
  urlsafe_b64encode_nopad entropy.

End Secrets.

(** ** [models.generate_unique_referral_code]

    [secrets.token_urlsafe(8).upper().replace('-', '').replace('_', '')[:10]];
    [entropy] is the eight random bytes of this call. *)

Definition generate_unique_referral_code (entropy : list byte) : string :=
  Py.take 10
    (Py.remove_char "_" (Py.remove_char "-" (Py.upper (Secrets.token_urlsafe entropy)))).

(** ** Rows of the tables ([core/models.py])

    Every record lists the columns of its model in the order of the source;
    a foreign key is the primary key it holds. *)

Module Promotion.
Record t := {
  id : Z;
  name : string;
  description : string;
  discount_type : string;
  discount_value : Z;
  start_date : Z;
  end_date : option Z;
  is_active : bool;
  max_uses : option Z;
  total_uses_count : Z;
  max_uses_per_user : option Z;
  created_at : Z;
  updated_at : Z }.

Definition with_total_uses_count (n : Z) (p : t) : t :=
  {| id := id p; name := name p; description := description p;
     discount_type := discount_type p; discount_value := discount_value p;
     start_date := start_date p; end_date := end_date p;
     is_active := is_active p; max_uses := max_uses p;
     total_uses_count := n;
     max_uses_per_user := max_uses_per_user p;
     created_at := created_at p; updated_at := updated_at p |}.
End Promotion.

Module CouponCode.
Record row := {
  id : Z;
  promotion_id : Z;
  code : string;
  is_active : bool;
  uses_count : Z;
  max_uses : option Z;
  valid_from : option Z;
  valid_to : option Z;
  user_specific_id : option Z;
  created_at : Z;
  updated_at : Z }.

Definition with_uses_count (n : Z) (r : row) : row :=
  {| id := id r; promotion_id := promotion_id r; code := code r;
     is_active := is_active r;
     uses_count := n;
     max_uses := max_uses r; valid_from := valid_from r;
     valid_to := valid_to r; user_specific_id := user_specific_id r;
     created_at := created_at r; updated_at := updated_at r |}.

(** A [CouponCode] instance as [select_related('promotion')] returns it:
    the columns of its row and the [Promotion] instance read with it,
    which [self.promotion] then yields without another query. *)
Record t := { fields : row; promotion : Promotion.t }.
End CouponCode.

Coercion CouponCode.fields : CouponCode.t >-> CouponCode.row.

(** A Python number that reaches a [DecimalField]: a [Decimal] of so many
    hundredths, or a [float] of the given value. *)
Inductive number :=
| Decimal (hundredths : Z)
| Float (value : Q).

Module AffiliateProfile.
Record t := {
  id : Z;
  user_id : Z;
  referral_code : string;
  balance : Z;
  total_earned : Z;
  is_active : bool;
  paypal_email : option string;
  created_at : Z;
  updated_at : Z }.

Definition with_balances (b e : Z) (a : t) : t :=
  {| id := id a; user_id := user_id a; referral_code := referral_code a;
     balance := b; total_earned := e;
     is_active := is_active a; paypal_email := paypal_email a;
     created_at := created_at a; updated_at := updated_at a |}.
End AffiliateProfile.

Module Referral.
Record t := {
  id : Z;
  referred_user_id : Z;
  referral_code_used : string;
  affiliate_profile_id : option Z;
  timestamp : Z;
  commission_earned : option number;
  status : string;
  created_at : Z;
  updated_at : Z }.

Definition with_commission (c : option number) (st : string) (r : t) : t :=
  {| id := id r; referred_user_id := referred_user_id r;
     referral_code_used := referral_code_used r;
     affiliate_profile_id := affiliate_profile_id r;
     timestamp := timestamp r;
     commission_earned := c; status := st;
     created_at := created_at r; updated_at := updated_at r |}.
End Referral.

(** A value of the JSON payload of an event. *)
Inductive json :=
| JInt (n : Z)
| JStr (s : string)
| JFloat (value : Q).

Module TrackedEvent.
Record t := {
  id : Z;
  event_type : string;
  user_id : option Z;
  timestamp : Z;
  session_id : option string;
  ip_address : option string;
  user_agent : option string;
  data : list (string * json) }.
End TrackedEvent.

(** ** The database and the world a request runs in *)

Record Store := {
  promotions : list Promotion.t;
  coupons : list CouponCode.row;
  affiliates : list AffiliateProfile.t;
  referrals : list Referral.t;
  events : list TrackedEvent.t }.

(** [clock k] is what the [k]-th call of [timezone.now()] returns; [reads]
    counts the calls made so far. *)
Record World := {
  db : Store;
  clock : nat -> Z;
  reads : nat }.

Definition with_db (s : Store) (w : World) : World :=
  {| db := s; clock := clock w; reads := reads w |}.

Definition with_promotions (ps : list Promotion.t) (s : Store) : Store :=
  {| promotions := ps; coupons := coupons s; affiliates := affiliates s;
     referrals := referrals s; events := events s |}.

Definition with_coupons (cs : list CouponCode.row) (s : Store) : Store :=
  {| promotions := promotions s; coupons := cs; affiliates := affiliates s;
     referrals := referrals s; events := events s |}.

Definition with_affiliates (l : list AffiliateProfile.t) (s : Store) : Store :=
  {| promotions := promotions s; coupons := coupons s; affiliates := l;
     referrals := referrals s; events := events s |}.

Definition with_referrals (l : list Referral.t) (s : Store) : Store :=
  {| promotions := promotions s; coupons := coupons s; affiliates := affiliates s;
     referrals := l; events := events s |}.

Definition with_events (l : list TrackedEvent.t) (s : Store) : Store :=
  {| promotions := promotions s; coupons := coupons s; affiliates := affiliates s;
     referrals := referrals s; events := l |}.

(** ** Exceptions and the monad of request code *)

Inductive exn :=
| NameError (name : string)
| TypeError (message : string)
| DoesNotExist
| MultipleObjectsReturned
| IntegrityError
| DatabaseError (message : string).

Inductive outcome (A : Type) :=
| Return (a : A)
| Raise (e : exn).
Arguments Return {A} a.
Arguments Raise {A} e.

(** A computation reads and writes the world and returns or raises. What
    it wrote before raising stays in the world: only [atomic] undoes it. *)
Definition M (A : Type) : Type := World -> outcome A * World.

Definition ret {A} (a : A) : M A := fun w => (Return a, w).

Definition raise {A} (e : exn) : M A := fun w => (Raise e, w).

Definition bind {A B} (m : M A) (k : A -> M B) : M B :=
  fun w =>
    match m w with
    | (Return a, w') => k a w'
    | (Raise e, w') => (Raise e, w')
    end.

Declare Scope py_scope.
Delimit Scope py_scope with py.
Notation "x <- m ;; k" := (bind m (fun x => k))
  (at level 61, m at next level, right associativity) : py_scope.
Notation "m ;; k" := (bind m (fun _ => k))
  (at level 61, right associativity) : py_scope.
Open Scope py_scope.

(** [try: m  except e: h] for the exceptions [handles] selects. *)
Definition try_except {A} (m : M A) (handles : exn -> bool) (h : M A) : M A :=
  fun w =>
    match m w with
    | (Raise e, w') => if handles e then h w' else (Raise e, w')
    | r => r
    end.

(** [timezone.now()] *)
Definition timezone_now : M Z :=
  fun w => (Return (clock w (reads w)),
            {| db := db w; clock := clock w; reads := S (reads w) |}).

(** [@transaction.atomic] around the outermost block: the writes of a body
    that raises are rolled back, those of a body that returns are
    committed, whatever response it returns. *)
Definition atomic {A} (m : M A) : M A :=
  fun w =>
    match m w with
    | (Return a, w') => (Return a, w')
    | (Raise e, w') => (Raise e, with_db (db w) w')
    end.

(** ** Model methods ([core/models.py]) *)

Open Scope Z_scope.

(** [x is not None and p(x)], and [x and p(x)] for a value that is true
    whenever it is set (a datetime, a model instance). *)
Definition set_and {A} (x : option A) (p : A -> bool) : bool :=
  match x with
  | Some a => p a
  | None => false
  end.

(** [Promotion.is_currently_active] *)
Definition Promotion_is_currently_active (self : Promotion.t) : M bool :=
  if negb (Promotion.is_active self) then ret false
  else
    now <- timezone_now ;;
    if Promotion.start_date self >? now then ret false
    else if set_and (Promotion.end_date self) (fun e => e <? now) then ret false
    else if set_and (Promotion.max_uses self)
              (fun m => Promotion.total_uses_count self >=? m) then ret false
    else ret true.

(** [CouponCode.is_currently_valid]; [user] is the primary key of the user
    passed in, [None] for the default. Two model instances are equal when
    their primary keys are. The last [if] of the source only holds [pass]. *)
Definition CouponCode_is_currently_valid
    (self : CouponCode.t) (user : option Z) : M bool :=
  inactive <-
    (if negb (CouponCode.is_active self) then ret true
     else
       active <- Promotion_is_currently_active (CouponCode.promotion self) ;;
       ret (negb active)) ;;
  if inactive : bool then ret false
  else
    now <- timezone_now ;;
    if set_and (CouponCode.valid_from self) (fun f => f >? now) then ret false
    else if set_and (CouponCode.valid_to self) (fun t => t <? now) then ret false
    else if set_and (CouponCode.max_uses self)
              (fun m => CouponCode.uses_count self >=? m) then ret false
    else if set_and (CouponCode.user_specific_id self)
              (fun u => negb (match user with
                              | Some v => u =? v
                              | None => false
                              end)) then ret false
    else ret true.

(** [instance.save(update_fields=[...])]: an [UPDATE] of the named columns
    of the row with the instance's primary key; it raises when no row has
    it. Columns outside [update_fields] keep their value, [updated_at]
    included. *)
Definition CouponCode_save_uses_count (self : CouponCode.t) : M unit :=
  fun w =>
    let hit (r : CouponCode.row) := CouponCode.id r =? CouponCode.id self in
    if existsb hit (coupons (db w)) then
      (Return tt,
       with_db (with_coupons
                  (map (fun r => if hit r
                                 then CouponCode.with_uses_count
                                        (CouponCode.uses_count self) r
                                 else r)
                       (coupons (db w)))
                  (db w)) w)
    else (Raise (DatabaseError "Save with update_fields did not affect any rows."), w).

Definition Promotion_save_total_uses_count (self : Promotion.t) : M unit :=
  fun w =>
    let hit (p : Promotion.t) := Promotion.id p =? Promotion.id self in
    if existsb hit (promotions (db w)) then
      (Return tt,
       with_db (with_promotions
                  (map (fun p => if hit p
                                 then Promotion.with_total_uses_count
                                        (Promotion.total_uses_count self) p
                                 else p)
                       (promotions (db w)))
                  (db w)) w)
    else (Raise (DatabaseError "Save with update_fields did not affect any rows."), w).

(** [CouponCode.increment_usage]: both counters are incremented on the
    instances in memory, then written. The result is the instance as the
    method leaves it. *)
Definition CouponCode_increment_usage (self : CouponCode.t) : M CouponCode.t :=
  let self' :=
    {| CouponCode.fields :=
         CouponCode.with_uses_count (CouponCode.uses_count self + 1) self;
       CouponCode.promotion :=
         Promotion.with_total_uses_count
           (Promotion.total_uses_count (CouponCode.promotion self) + 1)
           (CouponCode.promotion self) |} in
  CouponCode_save_uses_count self' ;;
  Promotion_save_total_uses_count (CouponCode.promotion self') ;;
  ret self'.

(** ** Queries *)

(** The [iexact] lookup: equal up to the case of letters. *)
Definition iexact (column value : string) : bool :=
  String.eqb (Py.upper column) (Py.upper value).

(** The rows of [CouponCode.objects.select_related('promotion')]: every
    coupon joined with the promotion its foreign key names. *)
Definition CouponCode_select_related (s : Store) : list CouponCode.t :=
  flat_map
    (fun r =>
       match find (fun p => Promotion.id p =? CouponCode.promotion_id r)
                  (promotions s) with
       | Some p => [ {| CouponCode.fields := r; CouponCode.promotion := p |} ]
       | None => []
       end)
    (coupons s).

(** [queryset.get()] on the rows a query selects. *)
Definition queryset_get {A} (rows : list A) : M A :=
  match rows with
  | [] => raise DoesNotExist
  | [x] => ret x
  | _ => raise MultipleObjectsReturned
  end.

(** The coupons [code__iexact=code_str] selects. *)
Definition matching_coupons (code_str : string) (s : Store) : list CouponCode.t :=
  filter (fun c : CouponCode.t => iexact (CouponCode.code c) code_str)
         (CouponCode_select_related s).

(** [CouponCode.objects.select_related('promotion').get(code__iexact=code_str)] *)
Definition CouponCode_get_code_iexact (code_str : string) : M CouponCode.t :=
  fun w => queryset_get (matching_coupons code_str (db w)) w.

(** ** Requests, responses and serializers ([core/serializers.py]) *)

Module Request.
(** An authenticated request: the primary key of [request.user] and the
    string fields of the JSON body. *)
Record t := { user : Z; data : list (string * string) }.
End Request.

(** The fields of [CouponValidationResponseSerializer]; [None] is JSON
    [null]. *)
Record CouponValidation := {
  valid : bool;
  message : string;
  discount_type : option string;
  discount_value : option Z;
  coupon_id : option Z;
  promotion_id : option Z }.

Inductive body :=
| ValidationBody (d : CouponValidation)
| ErrorBody (error : string)
| FieldErrors (errors : list (string * string))
| ReferralBody (referral : Referral.t) (affiliate : AffiliateProfile.t).

Module Response.
Record t := { data : body; status : Z }.
End Response.

Definition HTTP_200_OK : Z := 200.
Definition HTTP_201_CREATED : Z := 201.
Definition HTTP_400_BAD_REQUEST : Z := 400.

Inductive validated (A : Type) :=
| Valid (a : A)
| Invalid (errors : list (string * string)).
Arguments Valid {A} a.
Arguments Invalid {A} errors.

Definition dict_get (key : string) (d : list (string * string)) : option string :=
  option_map snd (find (fun kv => String.eqb (fst kv) key) d).

Definition is_blank (s : string) : bool := String.eqb (Py.strip s) "".

(** The null character, which [ProhibitNullCharactersValidator] refuses. *)
Definition NUL : ascii := Ascii.zero.

(** The validators of a [CharField] on the trimmed value: the
    [MaxLengthValidator] of [max_length], when there is one, then the
    [ProhibitNullCharactersValidator]; the errors of both are collected. *)
Definition CharField_validators (max_length : option nat) (name value : string)
    : list (string * string) :=
  ((match max_length with
    | Some n =>
        if Nat.ltb n (Py.len value)
        then [(name, ("Ensure this field has no more than "
                      ++ NilEmpty.string_of_uint (Nat.to_uint n)
                      ++ " characters.")%string)]
        else []
    | None => []
    end)
   ++ (if Py.contains NUL value
       then [(name, "Null characters are not allowed.")] else []))%list.

(** [serializers.CharField(max_length=n)] as the one field [name] of a
    serializer: required, not blank, trimmed, at most [n] characters and
    free of null characters. *)
Definition CharField (max_length : nat) (name : string)
    (data : list (string * string)) : validated string :=
  match dict_get name data with
  | None => Invalid [(name, "This field is required.")]
  | Some s =>
      if is_blank s then Invalid [(name, "This field may not be blank.")]
      else
        match CharField_validators (Some max_length) name (Py.strip s) with
        | [] => Valid (Py.strip s)
        | errors => Invalid errors
        end
  end.

(** [CouponValidationRequestSerializer]: [code = CharField(max_length=50)] *)
Definition CouponValidationRequestSerializer := CharField 50 "code".

(** [CreateReferralSerializer]:
    [referral_code = CharField(max_length=20, required=True)] *)
Definition CreateReferralSerializer := CharField 20 "referral_code".

(** [CouponValidationResponseSerializer(data=d)]: [message] is a
    [CharField], [discount_type] a nullable one, [discount_value] a nullable
    [DecimalField(max_digits=10, decimal_places=2)]; the boolean and the two
    nullable integers accept what the view passes. *)
Definition CouponValidationResponseSerializer (d : CouponValidation)
    : validated CouponValidation :=
  let CharField_errors (name value : string) :=
    if is_blank value then [(name, "This field may not be blank.")]
    else CharField_validators None name (Py.strip value) in
  let errors :=
    (CharField_errors "message" (message d)
     ++ (match discount_type d with
         | Some value => CharField_errors "discount_type" value
         | None => []
         end)
     ++ (if set_and (discount_value d) (fun v => 10 ^ 10 <=? Z.abs v)
         then [("discount_value", "Ensure that there are no more than 10 digits in total.")]
         else []))%list in
  match errors with
  | [] => Valid {| valid := valid d;
                   message := Py.strip (message d);
                   discount_type := option_map Py.strip (discount_type d);
                   discount_value := discount_value d;
                   coupon_id := coupon_id d;
                   promotion_id := promotion_id d |}
  | _ => Invalid errors
  end.

(** ** [ValidateCouponView] ([core/views.py]) *)

(** [serializer.is_valid(raise_exception=True)] and the response built
    from [serializer.validated_data]; the framework answers a validation
    error with the errors and status 400. *)
Definition validation_response (d : CouponValidation) : M Response.t :=
  match CouponValidationResponseSerializer d with
  | Valid v => ret {| Response.data := ValidationBody v; Response.status := HTTP_200_OK |}
  | Invalid errors =>
      ret {| Response.data := FieldErrors errors;
             Response.status := HTTP_400_BAD_REQUEST |}
  end.

Definition is_DoesNotExist (e : exn) : bool :=
  match e with
  | DoesNotExist => true
  | _ => false
  end.

(** The [if]/[elif] chain of the [else] branch. Each [timezone.now()] of
    the source is one reading of the clock, made only when its condition is
    evaluated. *)
Definition invalid_message (coupon : CouponCode.t) (user : Z) : M string :=
  let promo := CouponCode.promotion coupon in
  if (negb (CouponCode.is_active coupon) || negb (Promotion.is_active promo))%bool
  then ret "Coupon code is not active."
  else
    now1 <- timezone_now ;;
    if Promotion.start_date promo >? now1 then ret "Promotion has not started yet."
    else
      expired <- match Promotion.end_date promo with
                 | Some e => now2 <- timezone_now ;; ret (e <? now2)
                 | None => ret false
                 end ;;
      if expired : bool then ret "Promotion has expired."
      else
        early <- match CouponCode.valid_from coupon with
                 | Some f => now3 <- timezone_now ;; ret (f >? now3)
                 | None => ret false
                 end ;;
        if early : bool then ret "Coupon is not yet valid."
        else
          late <- match CouponCode.valid_to coupon with
                  | Some t => now4 <- timezone_now ;; ret (t <? now4)
                  | None => ret false
                  end ;;
          if late : bool then ret "Coupon has expired."
          else if set_and (CouponCode.max_uses coupon)
                    (fun m => CouponCode.uses_count coupon >=? m)
          then ret "Coupon has reached its usage limit."
          else if set_and (CouponCode.user_specific_id coupon)
                    (fun u => negb (u =? user))
          then ret "Coupon is not valid for this user."
          else ret "Coupon code cannot be applied.".

(** [ValidateCouponView.post] *)
Definition ValidateCouponView_post (request : Request.t) : M Response.t :=
  match CouponValidationRequestSerializer (Request.data request) with
  | Invalid errors =>
      ret {| Response.data := FieldErrors errors;
             Response.status := HTTP_400_BAD_REQUEST |}
  | Valid code_str =>
      found <- try_except
                 (coupon <- CouponCode_get_code_iexact code_str ;; ret (Some coupon))
                 is_DoesNotExist
                 (ret None) ;;
      match found with
      | None =>
          validation_response
            {| valid := false; message := "Invalid coupon code.";
               discount_type := None; discount_value := None;
               coupon_id := None; promotion_id := None |}
      | Some coupon =>
          ok <- CouponCode_is_currently_valid coupon (Some (Request.user request)) ;;
          if ok : bool then
            let promo := CouponCode.promotion coupon in
            validation_response
              {| valid := true; message := "Coupon is valid.";
                 discount_type := Some (Promotion.discount_type promo);
                 discount_value := Some (Promotion.discount_value promo);
                 coupon_id := Some (CouponCode.id coupon);
                 promotion_id := Some (Promotion.id promo) |}
          else
            msg <- invalid_message coupon (Request.user request) ;;
            validation_response
              {| valid := false; message := msg;
                 discount_type := None; discount_value := None;
                 coupon_id := Some (CouponCode.id coupon);
                 promotion_id := Some (Promotion.id (CouponCode.promotion coupon)) |}
      end
  end.

(** ** Affiliate and referral queries *)

(** The primary key an [INSERT] assigns: one past the largest in use. *)
Definition next_id (ids : list Z) : Z := 1 + fold_right Z.max 0 ids.

(** [Referral.objects.filter(referred_user=user).exists()] *)
Definition Referral_exists_for (user : Z) : M bool :=
  fun w =>
    ret (existsb (fun r => Referral.referred_user_id r =? user) (referrals (db w))) w.

(** [AffiliateProfile.objects.get(referral_code__iexact=code)] *)
Definition AffiliateProfile_get_referral_code_iexact (code : string)
    : M AffiliateProfile.t :=
  fun w =>
    queryset_get
      (filter (fun a => iexact (AffiliateProfile.referral_code a) code)
              (affiliates (db w)))
      w.

(** [Referral.objects.create(referred_user=.., referral_code_used=..,
    affiliate_profile=.., status=..)]: [timestamp] takes its default
    [timezone.now], [created_at] and [updated_at] are set on the insert,
    and [unique_together] holds of the table. *)
Definition Referral_objects_create (referred_user : Z) (referral_code_used : string)
    (affiliate_profile : AffiliateProfile.t) (status : string) : M Referral.t :=
  timestamp <- timezone_now ;;
  created_at <- timezone_now ;;
  updated_at <- timezone_now ;;
  fun w =>
    let same (r : Referral.t) :=
      ((Referral.referred_user_id r =? referred_user)
       && set_and (Referral.affiliate_profile_id r)
            (fun a => a =? AffiliateProfile.id affiliate_profile))%bool in
    if existsb same (referrals (db w)) then (Raise IntegrityError, w)
    else
      let referral :=
        {| Referral.id := next_id (map Referral.id (referrals (db w)));
           Referral.referred_user_id := referred_user;
           Referral.referral_code_used := referral_code_used;
           Referral.affiliate_profile_id := Some (AffiliateProfile.id affiliate_profile);
           Referral.timestamp := timestamp;
           Referral.commission_earned := None;
           Referral.status := status;
           Referral.created_at := created_at;
           Referral.updated_at := updated_at |} in
      (Return referral,
       with_db (with_referrals (referrals (db w) ++ [referral]) (db w)) w).

(** [affiliate_profile.save(update_fields=['balance', 'total_earned'])] *)
Definition AffiliateProfile_save_balances (self : AffiliateProfile.t) : M unit :=
  fun w =>
    let hit (a : AffiliateProfile.t) := AffiliateProfile.id a =? AffiliateProfile.id self in
    if existsb hit (affiliates (db w)) then
      (Return tt,
       with_db (with_affiliates
                  (map (fun a => if hit a
                                 then AffiliateProfile.with_balances
                                        (AffiliateProfile.balance self)
                                        (AffiliateProfile.total_earned self) a
                                 else a)
                       (affiliates (db w)))
                  (db w)) w)
    else (Raise (DatabaseError "Save with update_fields did not affect any rows."), w).

(** [referral.save(update_fields=['commission_earned', 'status'])] *)
Definition Referral_save_commission (self : Referral.t) : M unit :=
  fun w =>
    let hit (r : Referral.t) := Referral.id r =? Referral.id self in
    if existsb hit (referrals (db w)) then
      (Return tt,
       with_db (with_referrals
                  (map (fun r => if hit r
                                 then Referral.with_commission
                                        (Referral.commission_earned self)
                                        (Referral.status self) r
                                 else r)
                       (referrals (db w)))
                  (db w)) w)
    else (Raise (DatabaseError "Save with update_fields did not affect any rows."), w).

(** [TrackedEvent.objects.create(event_type=.., user=.., data=..)] *)
Definition TrackedEvent_objects_create (event_type : string) (user : Z)
    (data : list (string * json)) : M TrackedEvent.t :=
  timestamp <- timezone_now ;;
  fun w =>
    let event :=
      {| TrackedEvent.id := next_id (map TrackedEvent.id (events (db w)));
         TrackedEvent.event_type := event_type;
         TrackedEvent.user_id := Some user;
         TrackedEvent.timestamp := timestamp;
         TrackedEvent.session_id := None;
         TrackedEvent.ip_address := None;
         TrackedEvent.user_agent := None;
         TrackedEvent.data := data |} in
    (Return event, with_db (with_events (events (db w) ++ [event]) (db w)) w).

(** ** Python numbers in the commission code *)

(** [n > 0] *)
Definition number_gt_zero (n : number) : bool :=
  match n with
  | Decimal h => 0 <? h
  | Float q => match (0 ?= q)%Q with
               | Lt => true
               | _ => false
               end
  end.

(** [d += n] for a [Decimal] attribute [d], the value of every
    [DecimalField] of an instance read from the database: Python adds two
    Decimals and refuses to add a float to one. *)
Definition Decimal_iadd (d : Z) (n : number) : M Z :=
  match n with
  | Decimal h => ret (d + h)
  | Float _ =>
      raise (TypeError "unsupported operand type(s) for +=: 'decimal.Decimal' and 'float'")
  end.

(** [float(c or 0.0)] *)
Definition float_or_zero (c : option number) : Q :=
  match c with
  | None => 0%Q
  | Some (Decimal h) => Qred (h # 100)
  | Some (Float q) => q
  end.

(** [django.conf.settings], as far as the referral code reads it: the
    attribute is [None] when the project's settings do not define it. *)
Record Settings := { AFFILIATE_SIGNUP_COMMISSION : option number }.

(** ** [RegisterReferralView] ([core/views.py]) *)

(** The names bound at the top level of [core/views.py]: what its
    [import] statements bring in (lines 1 to 16), [User], and the classes
    the module defines. A name the body of a method evaluates is looked up
    here (and among the builtins, which hold [getattr] and [float] but
    neither [settings] nor [TrackedEvent]). *)
Definition views_globals : list string :=
  [ "authenticate"; "login"; "logout"; "get_user_model";
    "status"; "views"; "permissions"; "viewsets";
    "Response";
    "FirebaseLoginSerializer"; "UserSerializer"; "UserProfileSerializer";
    "VideoSerializer"; "MarketingPageSerializer"; "BlogPostSerializer";
    "PromotionSerializer"; "CouponCodeSerializer";
    "CouponValidationRequestSerializer"; "CouponValidationResponseSerializer";
    "AffiliateProfileSerializer"; "ReferralSerializer"; "CreateReferralSerializer";
    "UserProfile"; "Video"; "MarketingPage"; "BlogPost"; "Promotion";
    "CouponCode"; "AffiliateProfile"; "Referral";
    "get_object_or_404"; "timezone"; "transaction";
    "User";
    "FirebaseLoginView"; "UserLogoutView"; "UserDetailView"; "UserProfileView";
    "IsUploaderOrReadOnly"; "VideoViewSet"; "IsAuthorOrAdminOrReadOnly";
    "BaseContentViewSet"; "MarketingPageViewSet"; "BlogPostViewSet";
    "PromotionViewSet"; "CouponCodeViewSet"; "ValidateCouponView";
    "AffiliateProfileDetailView"; "RegisterReferralView";
    "AffiliateProfileAdminViewSet"; "ReferralAdminViewSet" ].

Section RegisterReferral.

(** The global names of the module the method runs in, and the
    project's settings. *)
Variable globals : list string.
Variable settings : Settings.

(** Evaluating a global name: a [NameError] when it is not bound. *)
Definition global (name : string) : M unit :=
  if existsb (String.eqb name) globals then ret tt else raise (NameError name).

(** [Response({"error": msg}, status=status.HTTP_400_BAD_REQUEST)] *)
Definition error_response (msg : string) : M Response.t :=
  global "Response" ;;
  global "status" ;;
  ret {| Response.data := ErrorBody msg; Response.status := HTTP_400_BAD_REQUEST |}.

(** The [if signup_commission > 0:] block, on the two instances. *)
Definition award_commission (signup_commission : number)
    (referral : Referral.t) (affiliate_profile : AffiliateProfile.t)
    : M (Referral.t * AffiliateProfile.t) :=
  if number_gt_zero signup_commission then
    let referral :=
      Referral.with_commission (Some signup_commission)
        (Referral.status referral) referral in
    balance <- Decimal_iadd (AffiliateProfile.balance affiliate_profile)
                 signup_commission ;;
    total_earned <- Decimal_iadd (AffiliateProfile.total_earned affiliate_profile)
                      signup_commission ;;
    let affiliate_profile :=
      AffiliateProfile.with_balances balance total_earned affiliate_profile in
    let referral :=
      Referral.with_commission (Referral.commission_earned referral)
        "commission_awarded" referral in
    AffiliateProfile_save_balances affiliate_profile ;;
    Referral_save_commission referral ;;
    ret (referral, affiliate_profile)
  else ret (referral, affiliate_profile).

(** The body of [RegisterReferralView.post]. *)
Definition RegisterReferralView_post_body (request : Request.t) : M Response.t :=
  global "Referral" ;;
  already <- Referral_exists_for (Request.user request) ;;
  if already : bool then
    error_response "This user has already been processed for a referral."
  else
    global "CreateReferralSerializer" ;;
    match CreateReferralSerializer (Request.data request) with
    | Invalid errors =>
        global "Response" ;;
        global "status" ;;
        ret {| Response.data := FieldErrors errors;
               Response.status := HTTP_400_BAD_REQUEST |}
    | Valid referral_code_used =>
        found <- try_except
                   (global "AffiliateProfile" ;;
                    a <- AffiliateProfile_get_referral_code_iexact referral_code_used ;;
                    ret (Some a))
                   is_DoesNotExist
                   (ret None) ;;
        match found with
        | None => error_response "Invalid referral code."
        | Some affiliate_profile =>
            if AffiliateProfile.user_id affiliate_profile =? Request.user request
            then error_response "Cannot refer yourself."
            else
              global "Referral" ;;
              referral <- Referral_objects_create (Request.user request)
                            (Py.upper referral_code_used) affiliate_profile "pending" ;;
              global "settings" ;;
              let signup_commission :=
                match AFFILIATE_SIGNUP_COMMISSION settings with
                | Some n => n
                | None => Float 1
                end in
              awarded <- award_commission signup_commission referral affiliate_profile ;;
              let (referral, affiliate_profile) :=
                awarded : Referral.t * AffiliateProfile.t in
              global "TrackedEvent" ;;
              TrackedEvent_objects_create "user_referred" (Request.user request)
                [ ("referral_id", JInt (Referral.id referral));
                  ("referral_code", JStr referral_code_used);
                  ("affiliate_user_id", JInt (AffiliateProfile.user_id affiliate_profile));
                  ("commission_earned",
                   JFloat (float_or_zero (Referral.commission_earned referral))) ] ;;
              global "Response" ;;
              global "ReferralSerializer" ;;
              global "status" ;;
              ret {| Response.data := ReferralBody referral affiliate_profile;
                     Response.status := HTTP_201_CREATED |}
        end
    end.

(** [RegisterReferralView.post]: the body under [@transaction.atomic]. *)
Definition RegisterReferralView_post_in (request : Request.t) : M Response.t :=
  atomic (RegisterReferralView_post_body request).

End RegisterReferral.

(** [RegisterReferralView.post] as [core/views.py] has it. *)
Definition RegisterReferralView_post (settings : Settings) (request : Request.t)
    : M Response.t :=
  RegisterReferralView_post_in views_globals settings request.

(** ** Redemptions that overlap

    Two requests redeem the coupon [code_str] names: each reads its own
    instance, then each calls [increment_usage] on the instance it holds.
    The result is the two instances as the calls leave them. *)
Definition redeem_twice_overlapping (code_str : string)
    : M (CouponCode.t * CouponCode.t) :=
  first <- CouponCode_get_code_iexact code_str ;;
  second <- CouponCode_get_code_iexact code_str ;;
  first <- CouponCode_increment_usage first ;;
  second <- CouponCode_increment_usage second ;;
  ret (first, second).

(** The same two redemptions one after the other. *)
Definition redeem_twice_in_turn (code_str : string)
    : M (CouponCode.t * CouponCode.t) :=
  first <- CouponCode_get_code_iexact code_str ;;
  first <- CouponCode_increment_usage first ;;
  second <- CouponCode_get_code_iexact code_str ;;
  second <- CouponCode_increment_usage second ;;
  ret (first, second).

(** [n] redemptions one after the other: each request reads the coupon and
    calls [increment_usage] on the instance it read before the next one
    starts. *)
Fixpoint redeem_in_turn (n : nat) (code_str : string) : M unit :=
  match n with
  | O => ret tt
  | S k =>
      coupon <- CouponCode_get_code_iexact code_str ;;
      CouponCode_increment_usage coupon ;;
      redeem_in_turn k code_str
  end.

(** [n] redemptions that overlap: every request has read its instance
    before any of them calls [increment_usage]. *)
Fixpoint read_instances (n : nat) (code_str : string) : M (list CouponCode.t) :=
  match n with
  | O => ret []
  | S k =>
      coupon <- CouponCode_get_code_iexact code_str ;;
      rest <- read_instances k code_str ;;
      ret (coupon :: rest)
  end.

Fixpoint increment_each (instances : list CouponCode.t) : M unit :=
  match instances with
  | [] => ret tt
  | coupon :: rest => CouponCode_increment_usage coupon ;; increment_each rest
  end.

Definition redeem_overlapping (n : nat) (code_str : string) : M unit :=
  instances <- read_instances n code_str ;;
  increment_each instances.

(** ** Reading the tables *)

Definition coupon_row (pk : Z) (s : Store) : option CouponCode.row :=
  find (fun r => CouponCode.id r =? pk) (coupons s).

Definition promotion_row (pk : Z) (s : Store) : option Promotion.t :=
  find (fun p => Promotion.id p =? pk) (promotions s).

Definition affiliate_row (pk : Z) (s : Store) : option AffiliateProfile.t :=
  find (fun a => AffiliateProfile.id a =? pk) (affiliates s).

(** Primary keys are unique in the tables the counters live in. *)
Definition pk_unique (s : Store) : Prop :=
  NoDup (map CouponCode.id (coupons s)) /\ NoDup (map Promotion.id (promotions s)).

(** A computation that leaves the database and the clock as they are; it
    may read the clock. *)
Definition read_only {A} (m : M A) : Prop :=
  forall w, db (snd (m w)) = db w /\ clock (snd (m w)) = clock w.

(** A request that did not end in [201 Created]. *)
Definition failed (r : outcome Response.t) : bool :=
  match r with
  | Return resp => negb (Response.status resp =? HTTP_201_CREATED)
  | Raise _ => true
  end.

(** Worlds of the examples: a database, and a clock that stands still. *)
Definition world_at (now : Z) (s : Store) : World :=
  {| db := s; clock := fun _ => now; reads := 0 |}.

Definition empty_store : Store :=
  {| promotions := []; coupons := []; affiliates := []; referrals := [];
     events := [] |}.

(** The body of a coupon validation answer, when the request ended in one. *)
Definition validation_of (r : outcome Response.t) : option CouponValidation :=
  match r with
  | Return {| Response.data := ValidationBody d |} => Some d
  | _ => None
  end.

(** The messages of the [else] branch of [ValidateCouponView.post]. *)
Definition invalid_messages : list string :=
  [ "Coupon code is not active.";
    "Promotion has not started yet.";
    "Promotion has expired.";
    "Coupon is not yet valid.";
    "Coupon has expired.";
    "Coupon has reached its usage limit.";
    "Coupon is not valid for this user.";
    "Coupon code cannot be applied." ].

(** What the view answers for a coupon it found and refused. *)
Definition refusal (msg : string) (coupon : CouponCode.t) : Response.t :=
  {| Response.data :=
       ValidationBody
         {| valid := false; message := msg;
            discount_type := None; discount_value := None;
            coupon_id := Some (CouponCode.id coupon);
            promotion_id := Some (Promotion.id (CouponCode.promotion coupon)) |};
     Response.status := HTTP_200_OK |}.

(** What the view answers for a code no coupon has, with [msg] as the
    message. *)
Definition no_match (msg : string) : Response.t :=
  {| Response.data :=
       ValidationBody
         {| valid := false; message := msg;
            discount_type := None; discount_value := None;
            coupon_id := None; promotion_id := None |};
     Response.status := HTTP_200_OK |}.

(** The two characters the generator removes from a token. *)
Definition is_separator (x : ascii) : Prop := x = "-"%char \/ x = "_"%char.

(** An uppercase letter, a digit, a dash or an underscore. *)
Definition upper_alnum_or_sep (c : ascii) : bool :=
  (Py.is_upper_alnum c || Ascii.eqb c "-" || Ascii.eqb c "_")%bool.

(** What [increment_usage] leaves of an instance. *)
Definition incremented (coupon : CouponCode.t) : CouponCode.t :=
  {| CouponCode.fields :=
       CouponCode.with_uses_count (CouponCode.uses_count coupon + 1) coupon;
     CouponCode.promotion :=
       Promotion.with_total_uses_count
         (Promotion.total_uses_count (CouponCode.promotion coupon) + 1)
         (CouponCode.promotion coupon) |}.

(** ** Data of the examples *)

Definition promo_summer : Promotion.t :=
  {| Promotion.id := 7; Promotion.name := "Summer"; Promotion.description := "";
     Promotion.discount_type := "percentage"; Promotion.discount_value := 1000;
     Promotion.start_date := 100; Promotion.end_date := None;
     Promotion.is_active := true; Promotion.max_uses := None;
     Promotion.total_uses_count := 0; Promotion.max_uses_per_user := None;
     Promotion.created_at := 50; Promotion.updated_at := 50 |}.

Definition coupon_row_of (pk : Z) (code : string) (active : bool) (cap : option Z)
    : CouponCode.row :=
  {| CouponCode.id := pk; CouponCode.promotion_id := 7; CouponCode.code := code;
     CouponCode.is_active := active; CouponCode.uses_count := 0;
     CouponCode.max_uses := cap; CouponCode.valid_from := None;
     CouponCode.valid_to := None; CouponCode.user_specific_id := None;
     CouponCode.created_at := 60; CouponCode.updated_at := 60 |}.

Definition coupon_save10 : CouponCode.t :=
  {| CouponCode.fields := coupon_row_of 3 "SAVE10" true None;
     CouponCode.promotion := promo_summer |}.

Definition coupon_off5 : CouponCode.t :=
  {| CouponCode.fields := coupon_row_of 4 "OFF5" false None;
     CouponCode.promotion := promo_summer |}.

Definition coupon_used : CouponCode.t :=
  {| CouponCode.fields := coupon_row_of 5 "USED" true (Some 0);
     CouponCode.promotion := promo_summer |}.

Definition shop : Store :=
  {| promotions := [promo_summer];
     coupons := [CouponCode.fields coupon_save10; CouponCode.fields coupon_off5;
                 CouponCode.fields coupon_used];
     affiliates := []; referrals := []; events := [] |}.

Definition validate_request (user : Z) (code : string) : Request.t :=
  {| Request.user := user; Request.data := [("code", code)] |}.

(** The shop with two more coupons whose codes are those of OFF5 and of
    USED in another case: [code] is unique as it is stored, not up to
    case. *)
Definition coupon_off5_twin : CouponCode.t :=
  {| CouponCode.fields := coupon_row_of 8 "off5" false None;
     CouponCode.promotion := promo_summer |}.

Definition coupon_used_twin : CouponCode.t :=
  {| CouponCode.fields := coupon_row_of 9 "Used" true (Some 0);
     CouponCode.promotion := promo_summer |}.

Definition shop_with_twins : Store :=
  with_coupons
    (coupons shop ++ [CouponCode.fields coupon_off5_twin;
                      CouponCode.fields coupon_used_twin])%list
    shop.

Definition affiliate_a : AffiliateProfile.t :=
  {| AffiliateProfile.id := 1; AffiliateProfile.user_id := 10;
     AffiliateProfile.referral_code := "REF123XY";
     AffiliateProfile.balance := 0; AffiliateProfile.total_earned := 0;
     AffiliateProfile.is_active := true; AffiliateProfile.paypal_email := None;
     AffiliateProfile.created_at := 70; AffiliateProfile.updated_at := 70 |}.

(** One affiliate, nobody referred yet. *)
Definition referral_store : Store :=
  {| promotions := []; coupons := []; affiliates := [affiliate_a];
     referrals := []; events := [] |}.

Definition referral_of (user : Z) (commission : option number) (status : string)
    : Referral.t :=
  {| Referral.id := 1; Referral.referred_user_id := user;
     Referral.referral_code_used := "REF123XY";
     Referral.affiliate_profile_id := Some 1; Referral.timestamp := 500;
     Referral.commission_earned := commission; Referral.status := status;
     Referral.created_at := 500; Referral.updated_at := 500 |}.

(** The same, after user 20 was referred. *)
Definition referred_store : Store :=
  with_referrals [referral_of 20 None "pending"] referral_store.

Definition register_request (user : Z) (code : string) : Request.t :=
  {| Request.user := user; Request.data := [("referral_code", code)] |}.

Definition commission_2_00 : Settings :=
  {| AFFILIATE_SIGNUP_COMMISSION := Some (Decimal 200) |}.

Definition commission_unset : Settings :=
  {| AFFILIATE_SIGNUP_COMMISSION := None |}.

(** [core/views.py] with [settings] and [TrackedEvent] imported as well. *)
Definition views_globals_completed : list string :=
  "settings" :: "TrackedEvent" :: views_globals.

(** The answer to a user who was referred before. *)
Definition already_referred : Response.t :=
  {| Response.data := ErrorBody "This user has already been processed for a referral.";
     Response.status := HTTP_400_BAD_REQUEST |}.

(** The global names [RegisterReferralView.post] evaluates. *)
Definition register_names : list string :=
  [ "Referral"; "CreateReferralSerializer"; "AffiliateProfile"; "settings";
    "TrackedEvent"; "Response"; "ReferralSerializer"; "status" ].

(** ** Predicates on computations *)

(** Whatever [m] returns satisfies [P]; it may raise. *)
Definition returns_only {A} (P : A -> Prop) (m : M A) : Prop :=
  forall w,
    match fst (m w) with
    | Return a => P a
    | Raise _ => True
    end.

(** When [m] returns, either its response satisfies [P] or the database is
    as [m] found it. *)
Definition unchanged_unless (P : Response.t -> Prop) (m : M Response.t) : Prop :=
  forall w,
    match m w with
    | (Return r, w') => P r \/ db w' = db w
    | (Raise _, _) => True
    end.

Definition is_created (r : Response.t) : Prop :=
  Response.status r = HTTP_201_CREATED.

Definition is_bad_request (r : Response.t) : Prop :=
  Response.status r = HTTP_400_BAD_REQUEST.

(** * The rest of the coupon, referral and content code *)

(** ** Conditions of a valid coupon *)

(** The clock stands still at [now] while the request runs. *)
Definition still_clock (now : Z) (w : World) : Prop :=
  forall k, clock w k = now.

(** The promotion is switched on, has started and has not ended. *)
Definition Promotion_running (now : Z) (p : Promotion.t) : Prop :=
  Promotion.is_active p = true
  /\ Promotion.start_date p <= now
  /\ (forall e, Promotion.end_date p = Some e -> now <= e).

Definition Promotion_has_uses_left (p : Promotion.t) : Prop :=
  forall m, Promotion.max_uses p = Some m -> Promotion.total_uses_count p < m.

(** The coupon is switched on and [now] lies in its own window. *)
Definition CouponCode_in_window (now : Z) (c : CouponCode.t) : Prop :=
  CouponCode.is_active c = true
  /\ (forall f, CouponCode.valid_from c = Some f -> f <= now)
  /\ (forall t, CouponCode.valid_to c = Some t -> now <= t).

Definition CouponCode_has_uses_left (c : CouponCode.t) : Prop :=
  forall m, CouponCode.max_uses c = Some m -> CouponCode.uses_count c < m.

Definition CouponCode_open_to (user : Z) (c : CouponCode.t) : Prop :=
  forall u, CouponCode.user_specific_id c = Some u -> u = user.

(** What the view answers for a coupon it accepts. *)
Definition acceptance (coupon : CouponCode.t) : Response.t :=
  let promo := CouponCode.promotion coupon in
  {| Response.data :=
       ValidationBody
         {| valid := true; message := "Coupon is valid.";
            discount_type := Some (Py.strip (Promotion.discount_type promo));
            discount_value := Some (Promotion.discount_value promo);
            coupon_id := Some (CouponCode.id coupon);
            promotion_id := Some (Promotion.id promo) |};
     Response.status := HTTP_200_OK |}.

(** [Promotion.is_currently_active] and [CouponCode.is_currently_valid]
    when every reading of the clock gives [now]. *)
Definition Promotion_active_at (now : Z) (p : Promotion.t) : bool :=
  (Promotion.is_active p
   && negb (Promotion.start_date p >? now)
   && negb (set_and (Promotion.end_date p) (fun e => e <? now))
   && negb (set_and (Promotion.max_uses p)
              (fun m => Promotion.total_uses_count p >=? m)))%bool.

Definition CouponCode_valid_at (now : Z) (user : Z) (c : CouponCode.t) : bool :=
  (CouponCode.is_active c
   && Promotion_active_at now (CouponCode.promotion c)
   && negb (set_and (CouponCode.valid_from c) (fun f => f >? now))
   && negb (set_and (CouponCode.valid_to c) (fun t => t <? now))
   && negb (set_and (CouponCode.max_uses c)
              (fun m => CouponCode.uses_count c >=? m))
   && negb (set_and (CouponCode.user_specific_id c)
              (fun u => negb (u =? user))))%bool.

(** The message of the [else] branch of the view at a clock that stands
    still. *)
Definition message_at (now : Z) (user : Z) (c : CouponCode.t) : string :=
  let promo := CouponCode.promotion c in
  if (negb (CouponCode.is_active c) || negb (Promotion.is_active promo))%bool
  then "Coupon code is not active."
  else if Promotion.start_date promo >? now then "Promotion has not started yet."
  else if set_and (Promotion.end_date promo) (fun e => e <? now)
  then "Promotion has expired."
  else if set_and (CouponCode.valid_from c) (fun f => f >? now)
  then "Coupon is not yet valid."
  else if set_and (CouponCode.valid_to c) (fun t => t <? now)
  then "Coupon has expired."
  else if set_and (CouponCode.max_uses c) (fun m => CouponCode.uses_count c >=? m)
  then "Coupon has reached its usage limit."
  else if set_and (CouponCode.user_specific_id c) (fun u => negb (u =? user))
  then "Coupon is not valid for this user."
  else "Coupon code cannot be applied.".

(** ** More data of the examples *)

(** A promotion whose hundred uses are all taken. *)
Definition promo_capped : Promotion.t :=
  {| Promotion.id := 8; Promotion.name := "Launch"; Promotion.description := "";
     Promotion.discount_type := "fixed_amount"; Promotion.discount_value := 500;
     Promotion.start_date := 100; Promotion.end_date := Some 900;
     Promotion.is_active := true; Promotion.max_uses := Some 100;
     Promotion.total_uses_count := 100; Promotion.max_uses_per_user := None;
     Promotion.created_at := 50; Promotion.updated_at := 50 |}.

(** A promotion that starts at 900 and one that ended at 400. *)
Definition promo_future : Promotion.t :=
  {| Promotion.id := 9; Promotion.name := "Winter"; Promotion.description := "";
     Promotion.discount_type := "percentage"; Promotion.discount_value := 2000;
     Promotion.start_date := 900; Promotion.end_date := None;
     Promotion.is_active := true; Promotion.max_uses := None;
     Promotion.total_uses_count := 0; Promotion.max_uses_per_user := None;
     Promotion.created_at := 50; Promotion.updated_at := 50 |}.

Definition promo_past : Promotion.t :=
  {| Promotion.id := 10; Promotion.name := "Spring"; Promotion.description := "";
     Promotion.discount_type := "percentage"; Promotion.discount_value := 1500;
     Promotion.start_date := 100; Promotion.end_date := Some 400;
     Promotion.is_active := true; Promotion.max_uses := None;
     Promotion.total_uses_count := 0; Promotion.max_uses_per_user := Some 0;
     Promotion.created_at := 50; Promotion.updated_at := 50 |}.

Definition coupon_of (pk : Z) (promo : Promotion.t) (code : string)
    (uses : Z) (cap : option Z) (user : option Z) : CouponCode.t :=
  {| CouponCode.fields :=
       {| CouponCode.id := pk; CouponCode.promotion_id := Promotion.id promo;
          CouponCode.code := code; CouponCode.is_active := true;
          CouponCode.uses_count := uses; CouponCode.max_uses := cap;
          CouponCode.valid_from := None; CouponCode.valid_to := None;
          CouponCode.user_specific_id := user;
          CouponCode.created_at := 60; CouponCode.updated_at := 60 |};
     CouponCode.promotion := promo |}.

Definition coupon_capped : CouponCode.t := coupon_of 11 promo_capped "LAUNCH" 3 None None.
Definition coupon_for_bob : CouponCode.t := coupon_of 12 promo_summer "FORBOB" 0 None (Some 2).
Definition coupon_soon : CouponCode.t := coupon_of 13 promo_future "SOON" 0 None None.
Definition coupon_late : CouponCode.t := coupon_of 14 promo_past "LATE" 0 None None.
Definition coupon_last : CouponCode.t := coupon_of 15 promo_summer "LAST" 4 (Some 5) None.

Definition market : Store :=
  {| promotions := [promo_summer; promo_capped; promo_future; promo_past];
     coupons := map CouponCode.fields
                  [coupon_save10; coupon_capped; coupon_for_bob; coupon_soon;
                   coupon_late; coupon_last];
     affiliates := []; referrals := []; events := [] |}.

(** One affiliate whose code two profiles share up to case. *)
Definition affiliate_b : AffiliateProfile.t :=
  {| AffiliateProfile.id := 2; AffiliateProfile.user_id := 11;
     AffiliateProfile.referral_code := "ref123xy";
     AffiliateProfile.balance := 0; AffiliateProfile.total_earned := 0;
     AffiliateProfile.is_active := true; AffiliateProfile.paypal_email := None;
     AffiliateProfile.created_at := 71; AffiliateProfile.updated_at := 71 |}.

Definition twin_store : Store :=
  with_affiliates [affiliate_a; affiliate_b] referral_store.

(** The answer of the registrar to a refused request. *)
Definition bad_request (msg : string) : Response.t :=
  {| Response.data := ErrorBody msg; Response.status := HTTP_400_BAD_REQUEST |}.

(** The user of the request has no Referral yet. *)
Definition not_yet_referred (user : Z) (s : Store) : Prop :=
  forall r, In r (referrals s) -> Referral.referred_user_id r <> user.

(** The affiliate profiles [referral_code__iexact=code] selects. *)
Definition matching_affiliates (code : string) (s : Store) : list AffiliateProfile.t :=
  filter (fun a => iexact (AffiliateProfile.referral_code a) code) (affiliates s).

(** ** [ReferralAdmin]'s actions ([core/admin.py])

    The queryset an action is given holds the rows ticked in the change
    list; [selected] lists their primary keys. [message_user] shows the
    text the action ends with, which the model returns. *)

(** [str(n)] of an integer. *)
Definition str_of_int (n : Z) : string := NilZero.string_of_int (Z.to_int n).

(** [queryset.update(status=status)]: one [UPDATE] of the selected rows that
    sets [status] and no other column ([updated_at] is [auto_now], which
    [update()] does not refresh); it returns the number of rows matched. *)
Definition Referral_queryset_update_status (selected : list Z) (status : string)
    : M Z :=
  fun w =>
    let hit (r : Referral.t) := existsb (Z.eqb (Referral.id r)) selected in
    (Return (Z.of_nat (List.length (filter hit (referrals (db w))))),
     with_db (with_referrals
                (map (fun r => if hit r
                               then Referral.with_commission
                                      (Referral.commission_earned r) status r
                               else r)
                     (referrals (db w)))
                (db w)) w).

Definition ReferralAdmin_mark_confirmed (selected : list Z) : M string :=
  updated_count <- Referral_queryset_update_status selected "confirmed" ;;
  ret (str_of_int updated_count ++ " referrals marked as confirmed.")%string.

Definition ReferralAdmin_mark_commission_awarded (selected : list Z) : M string :=
  updated_count <- Referral_queryset_update_status selected "commission_awarded" ;;
  ret (str_of_int updated_count ++ " referrals marked as Commission Awarded.")%string.

Definition ReferralAdmin_mark_paid_out (selected : list Z) : M string :=
  updated_count <- Referral_queryset_update_status selected "paid_out" ;;
  ret (str_of_int updated_count ++ " referrals marked as Paid Out.")%string.

Definition ReferralAdmin_mark_cancelled (selected : list Z) : M string :=
  updated_count <- Referral_queryset_update_status selected "cancelled" ;;
  ret (str_of_int updated_count ++ " referrals marked as Cancelled.")%string.

(** The four actions with the status each one sets and the end of its
    message. *)
Definition ReferralAdmin_actions : list ((list Z -> M string) * string * string) :=
  [ (ReferralAdmin_mark_confirmed, "confirmed", " referrals marked as confirmed.");
    (ReferralAdmin_mark_commission_awarded, "commission_awarded",
     " referrals marked as Commission Awarded.");
    (ReferralAdmin_mark_paid_out, "paid_out", " referrals marked as Paid Out.");
    (ReferralAdmin_mark_cancelled, "cancelled", " referrals marked as Cancelled.") ].

(** What an action of [ReferralAdmin] that sets [status] leaves of a run
    from [w] that ended in [w'] with the message [msg]. *)
Definition only_status_changed (selected : list Z) (status label : string)
    (w w' : World) (msg : string) : Prop :=
  let ticked (r : Referral.t) := In (Referral.id r) selected in
  promotions (db w') = promotions (db w)
  /\ coupons (db w') = coupons (db w)
  /\ affiliates (db w') = affiliates (db w)
  /\ events (db w') = events (db w)
  /\ reads w' = reads w
  /\ Forall2 (fun r r' => r' = Referral.with_commission
                                 (Referral.commission_earned r) (Referral.status r') r)
       (referrals (db w)) (referrals (db w'))
  /\ (forall r', In r' (referrals (db w')) -> ticked r' -> Referral.status r' = status)
  /\ (forall r, In r (referrals (db w)) -> ~ ticked r -> In r (referrals (db w')))
  /\ exists n : nat,
       msg = (str_of_int (Z.of_nat n) ++ label)%string
       /\ n = List.length (filter (fun r => existsb (Z.eqb (Referral.id r)) selected)
                             (referrals (db w))).

(** A referral whose commission was awarded, and the affiliate it paid. *)
Definition affiliate_paid : AffiliateProfile.t :=
  AffiliateProfile.with_balances 200 200 affiliate_a.

Definition awarded_store : Store :=
  with_referrals
    [ referral_of 20 (Some (Decimal 200)) "commission_awarded";
      Referral.with_commission None "pending"
        {| Referral.id := 2; Referral.referred_user_id := 21;
           Referral.referral_code_used := "REF123XY";
           Referral.affiliate_profile_id := Some 1; Referral.timestamp := 450;
           Referral.commission_earned := None; Referral.status := "pending";
           Referral.created_at := 450; Referral.updated_at := 450 |} ]
    (with_affiliates [affiliate_paid] referral_store).

(** ** [AffiliateProfileDetailView.get] ([core/views.py])

    [entropy] is the eight bytes the random source returns if the default
    of [referral_code] is evaluated during the request. *)

Definition is_IntegrityError (e : exn) : bool :=
  match e with IntegrityError => true | _ => false end.

(** [AffiliateProfile.objects.get(user=user)] *)
Definition AffiliateProfile_get_user (user : Z) : M AffiliateProfile.t :=
  fun w =>
    queryset_get
      (filter (fun a => AffiliateProfile.user_id a =? user) (affiliates (db w))) w.

(** [AffiliateProfile.objects.create(user=user)]: [referral_code] takes its
    default [generate_unique_referral_code()], [balance] and [total_earned]
    theirs (the column stores 0.00), [is_active] is true and [paypal_email]
    null; [created_at] and [updated_at] are set on the insert. [user] is
    one-to-one and [referral_code] unique: the insert of a second row with
    either value raises [IntegrityError]. *)
Definition AffiliateProfile_objects_create (user : Z) (entropy : list byte)
    : M AffiliateProfile.t :=
  let referral_code := generate_unique_referral_code entropy in
  created_at <- timezone_now ;;
  updated_at <- timezone_now ;;
  fun w =>
    let clash (a : AffiliateProfile.t) :=
      ((AffiliateProfile.user_id a =? user)
       || String.eqb (AffiliateProfile.referral_code a) referral_code)%bool in
    if existsb clash (affiliates (db w)) then (Raise IntegrityError, w)
    else
      let profile :=
        {| AffiliateProfile.id := next_id (map AffiliateProfile.id (affiliates (db w)));
           AffiliateProfile.user_id := user;
           AffiliateProfile.referral_code := referral_code;
           AffiliateProfile.balance := 0;
           AffiliateProfile.total_earned := 0;
           AffiliateProfile.is_active := true;
           AffiliateProfile.paypal_email := None;
           AffiliateProfile.created_at := created_at;
           AffiliateProfile.updated_at := updated_at |} in
      (Return profile,
       with_db (with_affiliates (affiliates (db w) ++ [profile]) (db w)) w).

(** [AffiliateProfile.objects.get_or_create(user=user)], as Django's
    [QuerySet.get_or_create] does it: [get]; on [DoesNotExist], [create]
    inside [transaction.atomic]; on [IntegrityError], [get] once more and,
    if the row is still missing, raise the [IntegrityError] again. *)
Definition AffiliateProfile_get_or_create (user : Z) (entropy : list byte)
    : M (AffiliateProfile.t * bool) :=
  try_except
    (profile <- AffiliateProfile_get_user user ;; ret (profile, false))
    is_DoesNotExist
    (try_except
       (atomic (profile <- AffiliateProfile_objects_create user entropy ;;
                ret (profile, true)))
       is_IntegrityError
       (try_except
          (profile <- AffiliateProfile_get_user user ;; ret (profile, false))
          is_DoesNotExist
          (raise IntegrityError))).

(** What [Response(serializer.data, status=..)] carries for a profile. *)
Module ProfileResponse.
Record t := { data : AffiliateProfile.t; status : Z }.
End ProfileResponse.

(** [get], in a module whose global names are [globals]. The names are
    evaluated in the order of the source: in the call of
    [TrackedEvent.objects.create] the callee comes before its arguments. *)
Definition AffiliateProfileDetailView_get_in (globals : list string)
    (entropy : list byte) (request : Request.t) : M ProfileResponse.t :=
  global globals "AffiliateProfile" ;;
  found <- AffiliateProfile_get_or_create (Request.user request) entropy ;;
  let (affiliate_profile, created) := found : AffiliateProfile.t * bool in
  global globals "AffiliateProfileSerializer" ;;
  if created then
    global globals "TrackedEvent" ;;
    TrackedEvent_objects_create "affiliate_profile_created" (Request.user request)
      [ ("affiliate_profile_id", JInt (AffiliateProfile.id affiliate_profile));
        ("referral_code", JStr (AffiliateProfile.referral_code affiliate_profile)) ] ;;
    global globals "Response" ;;
    global globals "status" ;;
    ret {| ProfileResponse.data := affiliate_profile;
           ProfileResponse.status := HTTP_201_CREATED |}
  else
    global globals "Response" ;;
    global globals "status" ;;
    ret {| ProfileResponse.data := affiliate_profile;
           ProfileResponse.status := HTTP_200_OK |}.

(** The method in [core/views.py] as it stands. *)
Definition AffiliateProfileDetailView_get := AffiliateProfileDetailView_get_in views_globals.

(** The rows of [user] and the rows with [code] in the table of profiles. *)
Definition profiles_of (user : Z) (s : Store) : list AffiliateProfile.t :=
  filter (fun a => AffiliateProfile.user_id a =? user) (affiliates s).

Definition code_taken (code : string) (s : Store) : bool :=
  existsb (fun a => String.eqb (AffiliateProfile.referral_code a) code) (affiliates s).

(** The row the first [get] of [user] inserts when the clock reads
    [created_at] and then [updated_at]. *)
Definition new_profile (user : Z) (entropy : list byte) (created_at updated_at : Z)
    (s : Store) : AffiliateProfile.t :=
  {| AffiliateProfile.id := next_id (map AffiliateProfile.id (affiliates s));
     AffiliateProfile.user_id := user;
     AffiliateProfile.referral_code := generate_unique_referral_code entropy;
     AffiliateProfile.balance := 0;
     AffiliateProfile.total_earned := 0;
     AffiliateProfile.is_active := true;
     AffiliateProfile.paypal_email := None;
     AffiliateProfile.created_at := created_at;
     AffiliateProfile.updated_at := updated_at |}.

Definition get_request (user : Z) : Request.t :=
  {| Request.user := user; Request.data := [] |}.

(** Eight zero bytes: the token is "AAAAAAAAAAA" and the code its first ten
    characters. *)
Definition entropy_zero : list byte :=
  [ "000"%byte; "000"%byte; "000"%byte; "000"%byte;
    "000"%byte; "000"%byte; "000"%byte; "000"%byte ].

(** A store whose one profile already has the code of [entropy_zero]. *)
Definition affiliate_aaa : AffiliateProfile.t :=
  {| AffiliateProfile.id := 3; AffiliateProfile.user_id := 12;
     AffiliateProfile.referral_code := "AAAAAAAAAA";
     AffiliateProfile.balance := 0; AffiliateProfile.total_earned := 0;
     AffiliateProfile.is_active := true; AffiliateProfile.paypal_email := None;
     AffiliateProfile.created_at := 80; AffiliateProfile.updated_at := 80 |}.

Definition taken_store : Store := with_affiliates [affiliate_aaa] referral_store.

(** * Content and videos ([core/models.py], [core/views.py], [core/admin.py]) *)

(** [request.user]: [AnonymousUser], or a row of [User] with its primary
    key and its [is_staff]. *)
Inductive request_user :=
| AnonymousUser
| AuthenticatedUser (pk : Z) (staff : bool).

Definition is_authenticated (user : request_user) : bool :=
  match user with AnonymousUser => false | AuthenticatedUser _ _ => true end.

Definition is_staff (user : request_user) : bool :=
  match user with AnonymousUser => false | AuthenticatedUser _ staff => staff end.

(** [obj.author == request.user] for a nullable foreign key to [User]:
    two model instances are equal when their primary keys are; [None] and
    [AnonymousUser] are equal to no user. *)
Definition is_user (fk : option Z) (user : request_user) : bool :=
  match fk, user with
  | Some k, AuthenticatedUser pk _ => k =? pk
  | _, _ => false
  end.

(** A row of [MarketingPage] or of [BlogPost]: the columns of
    [ContentBase]. *)
Module Content.
Record t := {
  id : Z;
  title : string;
  slug : string;
  content : string;
  author_id : option Z;
  status : string;
  created_at : Z;
  updated_at : Z;
  published_at : option Z;
  meta_description : string;
  meta_keywords : string }.

Definition with_id (k : Z) (c : t) : t :=
  {| id := k; title := title c; slug := slug c; content := content c;
     author_id := author_id c; status := status c;
     created_at := created_at c; updated_at := updated_at c;
     published_at := published_at c;
     meta_description := meta_description c; meta_keywords := meta_keywords c |}.

Definition with_author_id (a : option Z) (c : t) : t :=
  {| id := id c; title := title c; slug := slug c; content := content c;
     author_id := a; status := status c;
     created_at := created_at c; updated_at := updated_at c;
     published_at := published_at c;
     meta_description := meta_description c; meta_keywords := meta_keywords c |}.

Definition with_status (s : string) (c : t) : t :=
  {| id := id c; title := title c; slug := slug c; content := content c;
     author_id := author_id c; status := s;
     created_at := created_at c; updated_at := updated_at c;
     published_at := published_at c;
     meta_description := meta_description c; meta_keywords := meta_keywords c |}.

Definition with_created_at (n : Z) (c : t) : t :=
  {| id := id c; title := title c; slug := slug c; content := content c;
     author_id := author_id c; status := status c;
     created_at := n; updated_at := updated_at c;
     published_at := published_at c;
     meta_description := meta_description c; meta_keywords := meta_keywords c |}.

Definition with_updated_at (n : Z) (c : t) : t :=
  {| id := id c; title := title c; slug := slug c; content := content c;
     author_id := author_id c; status := status c;
     created_at := created_at c; updated_at := n;
     published_at := published_at c;
     meta_description := meta_description c; meta_keywords := meta_keywords c |}.

Definition with_published_at (p : option Z) (c : t) : t :=
  {| id := id c; title := title c; slug := slug c; content := content c;
     author_id := author_id c; status := status c;
     created_at := created_at c; updated_at := updated_at c;
     published_at := p;
     meta_description := meta_description c; meta_keywords := meta_keywords c |}.
End Content.

(** The [validated_data] of a content serializer: the writable fields
    ([id], [author], [created_at], [updated_at] and [published_at] are
    read-only), each present or not. *)
Module ContentData.
Record t := {
  title : option string;
  slug : option string;
  content : option string;
  status : option string;
  meta_description : option string;
  meta_keywords : option string }.
End ContentData.

Module Video.
Record t := {
  id : Z;
  uploader_id : option Z;
  title : string;
  description : option string;
  video_url : string;
  storage_path : option string;
  thumbnail_url : option string;
  duration : option Z;
  status : string;
  uploaded_at : Z;
  updated_at : Z }.
End Video.

(** [permissions.SAFE_METHODS] *)
Definition SAFE_METHODS : list string := ["GET"; "HEAD"; "OPTIONS"].

Definition method_in (method : string) (methods : list string) : bool :=
  existsb (String.eqb method) methods.

(** [IsUploaderOrReadOnly.has_object_permission] *)
Definition IsUploaderOrReadOnly_has_object_permission (method : string)
    (user : request_user) (obj : Video.t) : bool :=
  if method_in method SAFE_METHODS then true
  else is_user (Video.uploader_id obj) user.

(** [IsAuthorOrAdminOrReadOnly.has_object_permission] *)
Definition IsAuthorOrAdminOrReadOnly_has_object_permission (method : string)
    (user : request_user) (obj : Content.t) : bool :=
  if method_in method SAFE_METHODS then
    if String.eqb (Content.status obj) "published" then true
    else is_authenticated user && (is_user (Content.author_id obj) user || is_staff user)
  else if negb (is_authenticated user) then false
  else is_user (Content.author_id obj) user || is_staff user.

(** [permissions.IsAuthenticatedOrReadOnly.has_permission], the first
    class of both view sets. *)
Definition IsAuthenticatedOrReadOnly_has_permission (method : string)
    (user : request_user) : bool :=
  method_in method SAFE_METHODS || is_authenticated user.

(** ** Ordering

    What the database is free to choose when it sorts: where the nulls of
    a descending column go (first on PostgreSQL, last on SQLite and MySQL)
    and, of two rows whose keys are equal, which one comes first. *)
Record Backend := {
  nulls_first : bool;
  content_ties : Content.t -> Content.t -> bool;
  video_ties : Video.t -> Video.t -> bool }.

(** [order_by] sorts the rows a query selects: [before a b] tells that the
    keys put [a] strictly before [b], and [ties a b] that the database puts
    [a] first when the keys decide nothing. *)
Fixpoint insert_row {A} (before ties : A -> A -> bool) (x : A) (l : list A)
    : list A :=
  match l with
  | [] => [x]
  | y :: rest =>
      if before y x || (negb (before x y) && ties y x)
      then y :: insert_row before ties x rest
      else x :: y :: rest
  end.

Definition order_by {A} (before ties : A -> A -> bool) (rows : list A) : list A :=
  fold_right (insert_row before ties) [] rows.

(** Descending order on a nullable timestamp. *)
Definition desc_nullable (nulls_first : bool) (a b : option Z) : bool :=
  match a, b with
  | Some x, Some y => x >? y
  | None, Some _ => nulls_first
  | Some _, None => negb nulls_first
  | None, None => false
  end.

(** [order_by('-status', '-updated_at')], strings compared by their
    characters. *)
Definition by_status_then_updated (a b : Content.t) : bool :=
  String.ltb (Content.status b) (Content.status a)
  || (String.eqb (Content.status a) (Content.status b)
      && (Content.updated_at a >? Content.updated_at b)).

(** [order_by('-published_at')] *)
Definition by_published (nulls_first : bool) (a b : Content.t) : bool :=
  desc_nullable nulls_first (Content.published_at a) (Content.published_at b).

(** [order_by('-uploaded_at')] *)
Definition by_uploaded (a b : Video.t) : bool :=
  Video.uploaded_at a >? Video.uploaded_at b.

(** ** The query sets of the view sets

    [exclude(author=user)] on a nullable column keeps the rows whose author
    is null; [a | b] selects the rows of either query, each once, so that
    [distinct()] removes nothing; [select_related] only fetches the authors
    with the rows. *)

(** [BaseContentViewSet.get_queryset], on the table of the model. *)
Definition BaseContentViewSet_get_queryset (backend : Backend)
    (user : request_user) (table : list Content.t) : list Content.t :=
  let queryset := table in
  if is_authenticated user && is_staff user then
    order_by by_status_then_updated (content_ties backend) queryset
  else if is_authenticated user then
    let user_content (c : Content.t) := is_user (Content.author_id c) user in
    let published_content (c : Content.t) :=
      String.eqb (Content.status c) "published"
      && negb (is_user (Content.author_id c) user) in
    order_by by_status_then_updated (content_ties backend)
      (filter (fun c => user_content c || published_content c) queryset)
  else
    order_by (by_published (nulls_first backend)) (content_ties backend)
      (filter (fun c => String.eqb (Content.status c) "published") queryset).

(** [VideoViewSet.get_queryset] *)
Definition VideoViewSet_get_queryset (backend : Backend) (user : request_user)
    (table : list Video.t) : list Video.t :=
  if is_authenticated user then
    let user_videos (v : Video.t) := is_user (Video.uploader_id v) user in
    let published_videos (v : Video.t) :=
      String.eqb (Video.status v) "published"
      && negb (is_user (Video.uploader_id v) user) in
    order_by by_uploaded (video_ties backend)
      (filter (fun v => user_videos v || published_videos v) table)
  else
    order_by by_uploaded (video_ties backend)
      (filter (fun v => String.eqb (Video.status v) "published") table).

(** The posts of the set-up of [BlogPostAPITests] ([core/tests.py]): user 1
    is [api_user], user 2 the staff user. [objects.create] leaves
    [published_at] null, also for the published post. *)
Definition post_of (pk : Z) (title slug : string) (author : Z) (status : string)
    : Content.t :=
  {| Content.id := pk; Content.title := title; Content.slug := slug;
     Content.content := "Content"; Content.author_id := Some author;
     Content.status := status; Content.created_at := 100 + pk;
     Content.updated_at := 100 + pk; Content.published_at := None;
     Content.meta_description := ""; Content.meta_keywords := "" |}.

Definition published_post : Content.t :=
  post_of 1 "Published API Post" "published-api-post" 1 "published".

Definition draft_post_by_user : Content.t :=
  post_of 2 "Draft API Post by User" "draft-api-post-user" 1 "draft".

Definition draft_post_by_staff : Content.t :=
  post_of 3 "Draft API Post by Staff" "draft-api-post-staff" 2 "draft".

Definition blog : list Content.t :=
  [published_post; draft_post_by_user; draft_post_by_staff].

Definition api_user : request_user := AuthenticatedUser 1 false.
Definition staff_user : request_user := AuthenticatedUser 2 true.

Definition video_of (pk : Z) (uploader : option Z) (status : string) : Video.t :=
  {| Video.id := pk; Video.uploader_id := uploader; Video.title := "Clip";
     Video.description := None; Video.video_url := "https://cdn.example/clip.mp4";
     Video.storage_path := None; Video.thumbnail_url := None;
     Video.duration := None; Video.status := status;
     Video.uploaded_at := 200 + pk; Video.updated_at := 200 + pk |}.

Definition videos : list Video.t :=
  [ video_of 1 (Some 1) "published"; video_of 2 (Some 1) "pending";
    video_of 3 (Some 2) "processing"; video_of 4 None "published" ].

(** ** Saving content

    The table of the model is passed to each operation and returned with
    its result; the clock is that of the world. *)

(** [d.get(key, default)] on a field of the validated data. *)
Definition get_or {A} (field : option A) (default : A) : A :=
  match field with Some x => x | None => default end.

(** The unique index on [slug]: a row other than [pk] has the slug. *)
Definition slug_taken (slug : string) (pk : option Z) (table : list Content.t) : bool :=
  existsb (fun r => String.eqb (Content.slug r) slug
                    && negb (set_and pk (fun k => Content.id r =? k)))
          table.

(** The [INSERT] of [Model.save()]: [created_at] and [updated_at] are set,
    the primary key is assigned unless the instance has one. *)
Definition Content_insert (pk : option Z) (obj : Content.t) (table : list Content.t)
    : M (Content.t * list Content.t) :=
  created_at <- timezone_now ;;
  updated_at <- timezone_now ;;
  let row :=
    Content.with_id (get_or pk (next_id (map Content.id table)))
      (Content.with_created_at created_at (Content.with_updated_at updated_at obj)) in
  if slug_taken (Content.slug row) None table then raise IntegrityError
  else ret (row, (table ++ [row])%list).

(** [obj.save()] of an instance that has a primary key: an [UPDATE] of all
    columns with [updated_at] refreshed and, when no row has the key, an
    [INSERT]. *)
Definition Content_save (obj : Content.t) (table : list Content.t)
    : M (Content.t * list Content.t) :=
  updated_at <- timezone_now ;;
  let obj := Content.with_updated_at updated_at obj in
  let hit (r : Content.t) := Content.id r =? Content.id obj in
  if existsb hit table then
    if slug_taken (Content.slug obj) (Some (Content.id obj)) table
    then raise IntegrityError
    else ret (obj, map (fun r => if hit r then obj else r) table)
  else Content_insert (Some (Content.id obj)) obj table.

(** [ModelSerializer.update]: [setattr] for every validated field. *)
Definition set_validated (data : ContentData.t) (instance : Content.t) : Content.t :=
  {| Content.id := Content.id instance;
     Content.title := get_or (ContentData.title data) (Content.title instance);
     Content.slug := get_or (ContentData.slug data) (Content.slug instance);
     Content.content := get_or (ContentData.content data) (Content.content instance);
     Content.author_id := Content.author_id instance;
     Content.status := get_or (ContentData.status data) (Content.status instance);
     Content.created_at := Content.created_at instance;
     Content.updated_at := Content.updated_at instance;
     Content.published_at := Content.published_at instance;
     Content.meta_description :=
       get_or (ContentData.meta_description data) (Content.meta_description instance);
     Content.meta_keywords :=
       get_or (ContentData.meta_keywords data) (Content.meta_keywords instance) |}.

(** [x is not None], which is what [not x] tests on a datetime. *)
Definition is_set {A} (x : option A) : bool :=
  match x with Some _ => true | None => false end.

(** [BaseContentViewSet.perform_update]; [instance] is
    [serializer.instance], the row [get_object()] returned. *)
Definition BaseContentViewSet_perform_update (instance : Content.t)
    (validated_data : ContentData.t) (table : list Content.t)
    : M (Content.t * list Content.t) :=
  let new_status := get_or (ContentData.status validated_data) (Content.status instance) in
  if String.eqb new_status "published" && negb (is_set (Content.published_at instance))
  then
    now <- timezone_now ;;
    Content_save
      (Content.with_published_at (Some now) (set_validated validated_data instance))
      table
  else if negb (String.eqb new_status "published")
          && is_set (Content.published_at instance)
  then
    Content_save
      (Content.with_published_at None (set_validated validated_data instance)) table
  else Content_save (set_validated validated_data instance) table.

(** What [perform_create] ends with: the row it saved, or the
    [PermissionDenied] it raised. *)
Inductive creation (A : Type) :=
| Saved (row : A)
| PermissionDenied (detail : string).
Arguments Saved {A} row.
Arguments PermissionDenied {A} detail.

(** The instance [objects.create] builds from the validated data and
    [author=user]: a field the data leaves out takes the default of the
    model. *)
Definition new_content (data : ContentData.t) (author : Z) : Content.t :=
  {| Content.id := 0;
     Content.title := get_or (ContentData.title data) "";
     Content.slug := get_or (ContentData.slug data) "";
     Content.content := get_or (ContentData.content data) "";
     Content.author_id := Some author;
     Content.status := get_or (ContentData.status data) "draft";
     Content.created_at := 0;
     Content.updated_at := 0;
     Content.published_at := None;
     Content.meta_description := get_or (ContentData.meta_description data) "";
     Content.meta_keywords := get_or (ContentData.meta_keywords data) "" |}.

(** [BaseContentViewSet.perform_create]. [author] is read-only in the
    serializer, so [validated_data.get('author', request.user)] is
    [request.user]. *)
Definition BaseContentViewSet_perform_create (user : request_user)
    (validated_data : ContentData.t) (table : list Content.t)
    : M (creation Content.t * list Content.t) :=
  match user with
  | AuthenticatedUser pk _ =>
      saved <- Content_insert None (new_content validated_data pk) table ;;
      ret (Saved (fst saved), snd saved)
  | AnonymousUser =>
      ret (PermissionDenied "Authentication required to create content.", table)
  end.

(** A row is dated exactly when it is published. *)
Definition dated_iff_published (c : Content.t) : Prop :=
  Content.status c = "published"%string <-> Content.published_at c <> None.

(** The validated data of [PATCH {}] and of a body that only sets the
    status. *)
Definition no_data : ContentData.t :=
  {| ContentData.title := None; ContentData.slug := None;
     ContentData.content := None; ContentData.status := None;
     ContentData.meta_description := None; ContentData.meta_keywords := None |}.

Definition status_data (status : string) : ContentData.t :=
  {| ContentData.title := None; ContentData.slug := None;
     ContentData.content := None; ContentData.status := Some status;
     ContentData.meta_description := None; ContentData.meta_keywords := None |}.

(** The body of [test_create_blog_post_authenticated], with the status
    given. *)
Definition post_data (status : string) : ContentData.t :=
  {| ContentData.title := Some "User Created Post"%string;
     ContentData.slug := Some "user-created-post-api"%string;
     ContentData.content := Some "A post created via API by authenticated user."%string;
     ContentData.status := Some status;
     ContentData.meta_description := None; ContentData.meta_keywords := None |}.

(** A world whose clock reads 500, 501, 502, ... *)
Definition ticking (s : Store) : World :=
  {| db := s; clock := fun k => 500 + Z.of_nat k; reads := 0 |}.

(** ** [ContentAdmin] ([core/admin.py])

    [user] is the primary key of the staff user logged in to the admin
    site. The add view calls [save_model] with [change] false and an
    object without primary key, the change view with [change] true and the
    object it loaded, so that [obj.save()] inserts in the first case. *)

(** [not obj.author_id]: the key is null, or 0. *)
Definition author_missing (author_id : option Z) : bool :=
  match author_id with None => true | Some k => k =? 0 end.

Definition ContentAdmin_save_model (user : Z) (obj : Content.t) (change : bool)
    (table : list Content.t) : M (Content.t * list Content.t) :=
  let obj :=
    if author_missing (Content.author_id obj)
    then Content.with_author_id (Some user) obj else obj in
  let save (obj : Content.t) :=
    if change then Content_save obj table else Content_insert None obj table in
  if String.eqb (Content.status obj) "published"
     && negb (is_set (Content.published_at obj))
  then now <- timezone_now ;; save (Content.with_published_at (Some now) obj)
  else if negb (String.eqb (Content.status obj) "published")
          && is_set (Content.published_at obj)
  then save (Content.with_published_at None obj)
  else save obj.

(** [queryset.update(status=.., published_at=..)] on the selected rows:
    [updated_at] is not refreshed by [update()]. *)
Definition Content_queryset_update (selected : list Z) (status : string)
    (published_at : option Z) (table : list Content.t) : Z * list Content.t :=
  let hit (r : Content.t) := existsb (Z.eqb (Content.id r)) selected in
  (Z.of_nat (List.length (filter hit table)),
   map (fun r => if hit r
                 then Content.with_status status (Content.with_published_at published_at r)
                 else r)
       table).

Definition ContentAdmin_publish_selected (selected : list Z) (table : list Content.t)
    : M (string * list Content.t) :=
  now <- timezone_now ;;
  let (updated_count, table) :=
    Content_queryset_update selected "published" (Some now) table in
  ret ((str_of_int updated_count ++ " items were successfully published.")%string,
       table).

Definition ContentAdmin_unpublish_selected (selected : list Z) (table : list Content.t)
    : M (string * list Content.t) :=
  let (updated_count, table) :=
    Content_queryset_update selected "draft" None table in
  ret ((str_of_int updated_count
        ++ " items were successfully unpublished (set to draft).")%string,
       table).

(** What [save_model] needs of the table to save [obj]. *)
Definition can_save (obj : Content.t) (change : bool) (table : list Content.t) : bool :=
  if change
  then existsb (fun r => Content.id r =? Content.id obj) table
       && negb (slug_taken (Content.slug obj) (Some (Content.id obj)) table)
  else negb (slug_taken (Content.slug obj) None table).

(** A post published at 300 and last changed at 310, and a draft nobody
    has written. *)
Definition old_post : Content.t :=
  Content.with_updated_at 310
    (Content.with_published_at (Some 300)
       (post_of 7 "Old news" "old-news" 2 "published")).

Definition orphan_draft : Content.t :=
  Content.with_author_id None (post_of 8 "Orphan" "orphan" 1 "draft").

Definition desk : list Content.t := [old_post; orphan_draft].

(** ** Site maps ([core/sitemaps.py]) *)

(** [MarketingPageSitemap.items] and [BlogPostSitemap.items], on the table
    of their model. *)
Definition ContentSitemap_items (backend : Backend) (table : list Content.t)
    : list Content.t :=
  order_by (by_published (nulls_first backend)) (content_ties backend)
    (filter (fun c => String.eqb (Content.status c) "published") table).

(** [VideoSitemap.items] *)
Definition VideoSitemap_items (backend : Backend) (table : list Video.t)
    : list Video.t :=
  order_by by_uploaded (video_ties backend)
    (filter (fun v => String.eqb (Video.status v) "published") table).

(** Two choices a database can make, for the examples: the nulls first
    and, of rows with equal keys, the one with the larger primary key; or
    the nulls last and the one with the smaller primary key. *)
Definition backend_nulls_first : Backend :=
  {| nulls_first := true;
     content_ties := fun a b => Content.id a >? Content.id b;
     video_ties := fun a b => Video.id a >? Video.id b |}.

Definition backend_nulls_last : Backend :=
  {| nulls_first := false;
     content_ties := fun a b => Content.id a <? Content.id b;
     video_ties := fun a b => Video.id a <? Video.id b |}.

(** * Properties *)

(** ** The referral code generator *)

Section GenerateCode.

Lemma all_chars_take p n s :
  Py.all_chars p s = true -> Py.all_chars p (Py.take n s) = true.
Proof.
  revert n; induction s as [|c r IH]; intros [|n] H; simpl in *; auto.
  apply andb_true_iff in H as [Hc Hr]. now rewrite Hc, IH.
Qed.

Lemma all_chars_remove p q x s :
  (forall c, q c = true -> Ascii.eqb c x = false -> p c = true) ->
  Py.all_chars q s = true ->
  Py.all_chars p (Py.remove_char x s) = true.
Proof.
  intros Hpq; induction s as [|c r IH]; simpl; intros H; auto.
  apply andb_true_iff in H as [Hc Hr].
  destruct (Ascii.eqb c x) eqn:E; simpl; auto.
  now rewrite (Hpq c Hc E), IH.
Qed.

Lemma length_take n s : String.length (Py.take n s) = Nat.min n (String.length s).
Proof.
  revert n; induction s as [|c r IH]; intros [|n]; simpl; auto.
Qed.

Lemma length_remove_char x s :
  (String.length (Py.remove_char x s) + Py.count_char x s)%nat = String.length s.
Proof.
  induction s as [|c r IH]; simpl; auto.
  destruct (Ascii.eqb c x); simpl; lia.
Qed.

Lemma count_remove_other x y s :
  Ascii.eqb x y = false ->
  Py.count_char y (Py.remove_char x s) = Py.count_char y s.
Proof.
  intros Hxy; induction s as [|c r IH]; simpl; auto.
  destruct (Ascii.eqb c x) eqn:E; simpl.
  - apply Ascii.eqb_eq in E; subst c. now rewrite Hxy.
  - now rewrite IH.
Qed.

(** [upper] turns no character into a dash or an underscore and leaves
    these two alone. *)
Lemma upper_char_keeps c x :
  is_separator x -> Ascii.eqb (Py.upper_char c) x = Ascii.eqb c x.
Proof.
  intros [-> | ->]; destruct c as [[] [] [] [] [] [] [] []]; reflexivity.
Qed.

Lemma count_upper x s :
  is_separator x -> Py.count_char x (Py.upper s) = Py.count_char x s.
Proof.
  intros Hx; induction s as [|c r IH]; simpl; auto.
  now rewrite upper_char_keeps, IH.
Qed.

(** After [upper], a character of the URL-safe alphabet is an uppercase
    letter, a digit, a dash or an underscore. *)
Lemma b64_char_upper i : upper_alnum_or_sep (Py.upper_char (Secrets.b64_char i)) = true.
Proof.
  unfold Secrets.b64_char.
  assert (H : (N.to_nat (N.land i 63) < 64)%nat).
  { change 63%N with (N.ones 6). rewrite N.land_ones.
    pose proof (N.mod_upper_bound i (2 ^ 6)) as Hb.
    change (2 ^ 6)%N with 64%N in *. lia. }
  revert H. generalize (N.to_nat (N.land i 63)) as k. intros k Hk.
  do 64 (destruct k as [|k]; [reflexivity|]). lia.
Qed.

Lemma token_chars bs :
  Py.all_chars upper_alnum_or_sep (Py.upper (Secrets.urlsafe_b64encode_nopad bs)) = true.
Proof.
  assert (H : forall n (l : list byte), (List.length l <= n)%nat ->
    Py.all_chars upper_alnum_or_sep
      (Py.upper (Secrets.urlsafe_b64encode_nopad l)) = true).
  { induction n as [|n IH]; intros l Hl.
    - destruct l; [reflexivity | simpl in Hl; lia].
    - destruct l as [|a [|b [|c rest]]];
        cbn [Secrets.urlsafe_b64encode_nopad Py.upper Py.all_chars];
        unfold Secrets.sextet; rewrite ?b64_char_upper;
        cbn [andb]; auto.
      apply IH. cbn [List.length] in Hl. lia. }
  apply (H (List.length bs)). lia.
Qed.

Lemma token_length (b1 b2 b3 b4 b5 b6 b7 b8 : byte) :
  String.length (Secrets.token_urlsafe [b1; b2; b3; b4; b5; b6; b7; b8]) = 11%nat.
Proof. reflexivity. Qed.

End GenerateCode.

(** Whatever the random bytes, every character of a generated code is an
    uppercase letter or a digit. *)
Theorem generate_code_upper_alnum entropy :
  Py.all_chars Py.is_upper_alnum (generate_unique_referral_code entropy) = true.
Proof.
  unfold generate_unique_referral_code, Secrets.token_urlsafe.
  apply all_chars_take.
  apply all_chars_remove with (q := fun c => (Py.is_upper_alnum c || Ascii.eqb c "_")%bool).
  - intros c Hc E. rewrite E in Hc. now rewrite orb_false_r in Hc.
  - apply all_chars_remove with (q := upper_alnum_or_sep).
    + intros c Hc E. unfold upper_alnum_or_sep in Hc. rewrite E in Hc.
      now rewrite orb_false_r in Hc.
    + apply token_chars.
Qed.

(** The length of the code of eight random bytes: the eleven characters of
    the token less its dashes and underscores, cut at ten. *)
Theorem generate_code_length (b1 b2 b3 b4 b5 b6 b7 b8 : byte) :
  let token := Secrets.token_urlsafe [b1; b2; b3; b4; b5; b6; b7; b8] in
  String.length (generate_unique_referral_code [b1; b2; b3; b4; b5; b6; b7; b8])
  = Nat.min 10 (11 - Py.count_char "-" token - Py.count_char "_" token).
Proof.
  intros token. unfold generate_unique_referral_code. fold token.
  rewrite length_take. f_equal.
  pose proof (length_remove_char "_" (Py.remove_char "-" (Py.upper token))) as H1.
  pose proof (length_remove_char "-" (Py.upper token)) as H2.
  rewrite count_remove_other in H1 by reflexivity.
  rewrite !count_upper in * by (red; auto).
  assert (H3 : String.length (Py.upper token) = 11%nat).
  { assert (Hu : forall s, String.length (Py.upper s) = String.length s)
      by (induction s; simpl; congruence).
    rewrite Hu. apply token_length. }
  lia.
Qed.

(** C2, on the code: eight random bytes whose token holds ten underscores
    leave a code of one character, not ten. *)
Theorem generate_code_can_be_short :
  generate_unique_referral_code [xff; xff; xff; xff; xff; xff; xff; xff] = "8"
  /\ String.length
       (generate_unique_referral_code [xff; xff; xff; xff; xff; xff; xff; xff])
     <> 10%nat.
Proof. split; [reflexivity | vm_compute; discriminate]. Qed.

(** Two separators among the first ten characters are enough: this token
    is [-_AAAAAAAAA] and its code has nine characters. *)
Example generate_code_nine :
  Secrets.token_urlsafe [xfb; xf0; x00; x00; x00; x00; x00; x00] = "-_AAAAAAAAA"
  /\ generate_unique_referral_code [xfb; xf0; x00; x00; x00; x00; x00; x00]
     = "AAAAAAAAA".
Proof. split; reflexivity. Qed.

Example generate_code_of_text :
  Secrets.token_urlsafe (list_byte_of_string "any carn") = "YW55IGNhcm4"
  /\ generate_unique_referral_code (list_byte_of_string "any carn") = "YW55IGNHCM".
Proof. split; reflexivity. Qed.

(** ** Computations that only read *)

Section ReadOnly.

Lemma read_only_ret {A} (a : A) : read_only (ret a).
Proof. intros w; split; reflexivity. Qed.

Lemma read_only_raise {A} e : read_only (@raise A e).
Proof. intros w; split; reflexivity. Qed.

Lemma read_only_bind {A B} (m : M A) (k : A -> M B) :
  read_only m -> (forall a, read_only (k a)) -> read_only (bind m k).
Proof.
  intros Hm Hk w. unfold bind.
  destruct (Hm w) as [Hd Hc]. destruct (m w) as [[a|e] w']; simpl in *.
  - destruct (Hk a w') as [Hd' Hc']. split; congruence.
  - split; assumption.
Qed.

Lemma read_only_try_except {A} (m h : M A) handles :
  read_only m -> read_only h -> read_only (try_except m handles h).
Proof.
  intros Hm Hh w. unfold try_except.
  destruct (Hm w) as [Hd Hc]. destruct (m w) as [[a|e] w']; simpl in *.
  - split; assumption.
  - destruct (handles e); simpl.
    + destruct (Hh w') as [Hd' Hc']. split; congruence.
    + split; assumption.
Qed.

Lemma read_only_now : read_only timezone_now.
Proof. intros w; split; reflexivity. Qed.

Lemma read_only_queryset_get {A} (rows : World -> list A) :
  read_only (fun w => queryset_get (rows w) w).
Proof. intros w. destruct (rows w) as [|x [|y l]]; split; reflexivity. Qed.

End ReadOnly.

Create HintDb read_only.
#[local] Hint Resolve read_only_ret read_only_raise read_only_now
  read_only_try_except : read_only.

(** Walks down a computation made of [bind], conditionals and matches. *)
Ltac read_only_step :=
  match goal with
  | |- read_only (bind _ _) => apply read_only_bind; [ | intros ? ]
  | |- read_only (try_except _ _ _) => apply read_only_try_except
  | |- read_only (if ?b then _ else _) => destruct b
  | |- read_only (match ?x with _ => _ end) => destruct x
  | |- read_only _ => solve [ auto with read_only ]
  end.

Ltac read_only_tac := repeat read_only_step.

Lemma read_only_is_currently_active p : read_only (Promotion_is_currently_active p).
Proof. unfold Promotion_is_currently_active. read_only_tac. Qed.

Lemma read_only_is_currently_valid c u : read_only (CouponCode_is_currently_valid c u).
Proof.
  unfold CouponCode_is_currently_valid.
  apply read_only_bind.
  - destruct (negb (CouponCode.is_active c)); [apply read_only_ret|].
    apply read_only_bind; [apply read_only_is_currently_active | intros; apply read_only_ret].
  - intros a. read_only_tac.
Qed.

Lemma read_only_invalid_message c u : read_only (invalid_message c u).
Proof. unfold invalid_message. read_only_tac. Qed.

Lemma read_only_validation_response d : read_only (validation_response d).
Proof. unfold validation_response. read_only_tac. Qed.

Lemma read_only_get_code_iexact code_str : read_only (CouponCode_get_code_iexact code_str).
Proof.
  unfold CouponCode_get_code_iexact.
  apply (read_only_queryset_get (fun w => matching_coupons code_str (db w))).
Qed.

#[local] Hint Resolve read_only_is_currently_valid read_only_invalid_message
  read_only_validation_response read_only_get_code_iexact : read_only.

Lemma read_only_validate request : read_only (ValidateCouponView_post request).
Proof. unfold ValidateCouponView_post. read_only_tac. Qed.

(** ** The coupon validator *)

Section Validator.

Lemma get_code_single code_str w coupon :
  matching_coupons code_str (db w) = [coupon] ->
  CouponCode_get_code_iexact code_str w = (Return coupon, w).
Proof. intros H. unfold CouponCode_get_code_iexact. now rewrite H. Qed.

Lemma get_code_none code_str w :
  matching_coupons code_str (db w) = [] ->
  CouponCode_get_code_iexact code_str w = (Raise DoesNotExist, w).
Proof. intros H. unfold CouponCode_get_code_iexact. now rewrite H. Qed.

Lemma no_row_matches code_str s :
  (forall r, In r (coupons s) -> iexact (CouponCode.code r) code_str = false) ->
  matching_coupons code_str s = [].
Proof.
  unfold matching_coupons, CouponCode_select_related.
  induction (coupons s) as [|r rows IH]; intros H; [reflexivity|].
  cbn [flat_map]. rewrite filter_app, IH by (intros; apply H; now right).
  rewrite app_nil_r.
  destruct (find _ (promotions s)); [|reflexivity].
  cbn [filter CouponCode.fields CouponCode.code].
  now rewrite (H r (or_introl eq_refl)).
Qed.

Lemma validation_response_refusal msg (coupon : CouponCode.t) w :
  In msg invalid_messages ->
  validation_response
    {| valid := false; message := msg;
       discount_type := None; discount_value := None;
       coupon_id := Some (CouponCode.id coupon);
       promotion_id := Some (Promotion.id (CouponCode.promotion coupon)) |} w
  = (Return (refusal msg coupon), w).
Proof.
  intros H. unfold invalid_messages in H. cbn [In] in H.
  repeat (destruct H as [<- | H]; [reflexivity|]). contradiction.
Qed.

Lemma validation_response_ids d w d' :
  validation_of (fst (validation_response d w)) = Some d' ->
  coupon_id d' = coupon_id d /\ promotion_id d' = promotion_id d.
Proof.
  unfold validation_response, CouponValidationResponseSerializer.
  destruct (_ ++ _)%list; cbn; intros H; [|discriminate].
  injection H as <-. split; reflexivity.
Qed.

Lemma invalid_message_returns (coupon : CouponCode.t) user w :
  exists msg w',
    invalid_message coupon user w = (Return msg, w') /\ In msg invalid_messages.
Proof.
  unfold invalid_message, bind, ret, timezone_now, invalid_messages.
  repeat match goal with
         | |- context [if ?b then _ else _] => destruct b
         | |- context [match ?x with Some _ => _ | None => _ end] => destruct x
         end;
    do 2 eexists; (split; [reflexivity | cbn [In]; tauto]).
Qed.

Lemma is_currently_active_returns p w :
  exists b w', Promotion_is_currently_active p w = (Return b, w').
Proof.
  unfold Promotion_is_currently_active, bind, ret, timezone_now.
  repeat match goal with
         | |- context [if ?b then _ else _] => destruct b
         end; do 2 eexists; reflexivity.
Qed.

Lemma is_currently_valid_returns (coupon : CouponCode.t) user w :
  exists b w', CouponCode_is_currently_valid coupon user w = (Return b, w').
Proof.
  unfold CouponCode_is_currently_valid, bind at 1.
  destruct (negb (CouponCode.is_active coupon)).
  - do 2 eexists; reflexivity.
  - unfold bind at 1.
    destruct (is_currently_active_returns (CouponCode.promotion coupon) w)
      as (b & w' & ->).
    unfold ret at 1. unfold bind, ret, timezone_now.
    repeat match goal with
           | |- context [if ?b then _ else _] => destruct b
           end; do 2 eexists; reflexivity.
Qed.

(** The view, once the request is read and one coupon is found. *)
Lemma validate_found request w code_str (coupon : CouponCode.t) :
  CouponValidationRequestSerializer (Request.data request) = Valid code_str ->
  matching_coupons code_str (db w) = [coupon] ->
  ValidateCouponView_post request w
  = (ok <- CouponCode_is_currently_valid coupon (Some (Request.user request)) ;;
     if ok : bool then
       let promo := CouponCode.promotion coupon in
       validation_response
         {| valid := true; message := "Coupon is valid.";
            discount_type := Some (Promotion.discount_type promo);
            discount_value := Some (Promotion.discount_value promo);
            coupon_id := Some (CouponCode.id coupon);
            promotion_id := Some (Promotion.id promo) |}
     else
       msg <- invalid_message coupon (Request.user request) ;;
       validation_response
         {| valid := false; message := msg;
            discount_type := None; discount_value := None;
            coupon_id := Some (CouponCode.id coupon);
            promotion_id := Some (Promotion.id (CouponCode.promotion coupon)) |}) w.
Proof.
  intros Hs Hm. unfold ValidateCouponView_post. rewrite Hs.
  unfold bind at 1, try_except, bind at 1.
  rewrite (get_code_single _ _ _ Hm). reflexivity.
Qed.

Lemma validate_not_found request w code_str :
  CouponValidationRequestSerializer (Request.data request) = Valid code_str ->
  matching_coupons code_str (db w) = [] ->
  ValidateCouponView_post request w
  = (Return (no_match "Invalid coupon code."), w).
Proof.
  intros Hs Hm. unfold ValidateCouponView_post. rewrite Hs.
  unfold bind at 1, try_except, bind at 1.
  rewrite (get_code_none _ _ Hm). reflexivity.
Qed.

Lemma validate_ambiguous request w code_str c1 c2 rest :
  CouponValidationRequestSerializer (Request.data request) = Valid code_str ->
  matching_coupons code_str (db w) = c1 :: c2 :: rest ->
  ValidateCouponView_post request w = (Raise MultipleObjectsReturned, w).
Proof.
  intros Hs Hm. unfold ValidateCouponView_post. rewrite Hs.
  unfold bind at 1, try_except, bind at 1, CouponCode_get_code_iexact.
  rewrite Hm. reflexivity.
Qed.

End Validator.

(** ** What the request serializers accept *)

(** A [CharField] accepts a body exactly when the field is present, is
    not blank, and, with the whitespace at its two ends removed, has at
    most [max_length] characters and no null character; the value it
    gives is the trimmed one. *)
Lemma CharField_valid_iff max_length name data s :
  CharField max_length name data = Valid s
  <-> exists raw,
        dict_get name data = Some raw
        /\ s = Py.strip raw
        /\ s <> ""
        /\ (Py.len s <= max_length)%nat
        /\ Py.contains NUL s = false.
Proof.
  unfold CharField, CharField_validators, is_blank. split.
  - destruct (dict_get name data) as [raw|]; [|discriminate].
    destruct (String.eqb_spec (Py.strip raw) "") as [E|E]; [discriminate|].
    destruct (Nat.ltb_spec max_length (Py.len (Py.strip raw))) as [Hlong|Hfits];
      [discriminate|].
    destruct (Py.contains NUL (Py.strip raw)) eqn:Hnul; [discriminate|].
    cbn [app]. intros Hv. injection Hv as <-. exists raw.
    split; [reflexivity|]. split; [reflexivity|]. split; [exact E|].
    split; [exact Hfits | exact Hnul].
  - intros (raw & -> & -> & E & Hfits & Hnul).
    destruct (String.eqb_spec (Py.strip raw) "") as [E'|_]; [contradiction|].
    destruct (Nat.ltb_spec max_length (Py.len (Py.strip raw))) as [Hlong|_];
      [lia|].
    rewrite Hnul. reflexivity.
Qed.

Example CharField_trims :
  CharField 50 "code" [("code", "  save10 ")] = Valid "save10"
  /\ CharField 50 "code" [("code", "   ")]
     = Invalid [("code", "This field may not be blank.")]
  /\ CharField 50 "code" [] = Invalid [("code", "This field is required.")]
  /\ CharField 3 "code" [("code", String NUL "save10")]
     = Invalid [("code", "Ensure this field has no more than 3 characters.");
                ("code", "Null characters are not allowed.")]
  /\ CharField 1 "code" [("code", String "195" (String "169" ""))]
     = Valid (String "195" (String "169" ""))
  /\ CharField 50 "code"
       [("code", String "194" (String "160" ("save10" ++ String "226"
                   (String "128" (String "131" "")))))]
     = Valid "save10".
Proof. repeat split. Qed.

(** C5. Validation changes no stored entity, whatever the request and the
    state: the database after the call is the database before it, and the
    call repeated on it at the same clock gives the same result. *)
Theorem validate_performs_no_mutation request w :
  let after := snd (ValidateCouponView_post request w) in
  db after = db w
  /\ fst (ValidateCouponView_post request
            {| db := db after; clock := clock w; reads := reads w |})
     = fst (ValidateCouponView_post request w).
Proof.
  cbv zeta. destruct (read_only_validate request w) as [Hd _].
  split; [exact Hd|]. rewrite Hd. now destruct w.
Qed.

(** C3, as the code has it: a submitted code that, with the whitespace at
    its two ends removed, is not empty, has at most 50 characters and no
    null character, and that no stored coupon has up to case, is answered
    200 with [valid] false, the message "Invalid coupon code." (with its
    full stop), null discount fields and null ids; the world is left as it
    was. The comparison is made on the trimmed code. *)
Theorem validate_unknown_code request w raw :
  dict_get "code" (Request.data request) = Some raw ->
  Py.strip raw <> "" ->
  (Py.len (Py.strip raw) <= 50)%nat ->
  Py.contains NUL (Py.strip raw) = false ->
  (forall r, In r (coupons (db w)) ->
             iexact (CouponCode.code r) (Py.strip raw) = false) ->
  ValidateCouponView_post request w
  = (Return
       {| Response.data :=
            ValidationBody
              {| valid := false; message := "Invalid coupon code.";
                 discount_type := None; discount_value := None;
                 coupon_id := None; promotion_id := None |};
          Response.status := HTTP_200_OK |},
     w).
Proof.
  intros Hraw Hne Hlen Hnul Hn.
  assert (Hs : CouponValidationRequestSerializer (Request.data request)
               = Valid (Py.strip raw)).
  { apply CharField_valid_iff. exists raw. repeat split; assumption. }
  apply (validate_not_found request w (Py.strip raw) Hs).
  now apply no_row_matches.
Qed.

Lemma validate_unknown_code_witness :
  ValidateCouponView_post (validate_request 1 " nope ") (world_at 500 shop)
  = (Return (no_match "Invalid coupon code."), world_at 500 shop).
Proof.
  apply (validate_unknown_code (validate_request 1 " nope ") (world_at 500 shop)
           " nope ").
  - reflexivity.
  - discriminate.
  - cbn. lia.
  - reflexivity.
  - intros r Hr. cbn in Hr.
    destruct Hr as [<- | [<- | [<- | []]]]; reflexivity.
Defined.

(** C3 as the specification words it does not hold: the message of the
    view is not "Invalid coupon code" without the full stop. *)
Lemma validate_unknown_code_message_differs :
  ~ (forall request w code_str,
       CouponValidationRequestSerializer (Request.data request) = Valid code_str ->
       (forall r, In r (coupons (db w)) -> iexact (CouponCode.code r) code_str = false) ->
       fst (ValidateCouponView_post request w)
       = Return (no_match "Invalid coupon code")).
Proof.
  intros H.
  specialize (H (validate_request 1 "nope") (world_at 500 empty_store) "nope"
                eq_refl (fun r (Hr : In r []) => match Hr with end)).
  vm_compute in H. discriminate H.
Qed.

(** C4, as the code has it: when the code the serializer accepted selects
    one coupon and no other, and that coupon is switched off or its
    promotion is, the view answers 200 with [valid] false, the message
    "Coupon code is not active." and the two ids, whatever the other
    fields of the coupon and of its promotion, the user and the time; the
    world is left as it was. *)
Theorem validate_inactive_coupon request w code_str (coupon : CouponCode.t) :
  CouponValidationRequestSerializer (Request.data request) = Valid code_str ->
  matching_coupons code_str (db w) = [coupon] ->
  CouponCode.is_active coupon = false
  \/ Promotion.is_active (CouponCode.promotion coupon) = false ->
  ValidateCouponView_post request w
  = (Return (refusal "Coupon code is not active." coupon), w).
Proof.
  intros Hs Hm Hi. rewrite (validate_found _ _ _ _ Hs Hm).
  assert (Hv : CouponCode_is_currently_valid coupon (Some (Request.user request)) w
               = (Return false, w)).
  { unfold CouponCode_is_currently_valid, Promotion_is_currently_active, bind, ret.
    destruct (CouponCode.is_active coupon); [|reflexivity].
    destruct Hi as [Hi | Hi]; [discriminate | now rewrite Hi]. }
  assert (Hmsg : invalid_message coupon (Request.user request) w
                 = (Return "Coupon code is not active.", w)).
  { unfold invalid_message.
    destruct Hi as [-> | ->]; [reflexivity | now rewrite orb_true_r]. }
  unfold bind at 1. rewrite Hv. unfold bind. rewrite Hmsg.
  apply validation_response_refusal. cbn; auto.
Qed.

Lemma validate_inactive_coupon_witness :
  ValidateCouponView_post (validate_request 1 "off5") (world_at 500 shop)
  = (Return (refusal "Coupon code is not active." coupon_off5), world_at 500 shop).
Proof.
  apply (validate_inactive_coupon (validate_request 1 "off5") (world_at 500 shop)
           "off5" coupon_off5);
    [reflexivity | reflexivity | left; reflexivity].
Defined.

(** C4 as the specification words it does not hold of every coupon that
    is switched off: [code] is unique as stored, not up to case, and when
    a second coupon has the code in another case [get] raises
    [MultipleObjectsReturned], which the view does not catch. There is no
    answer then, for OFF5 as for its twin. *)
Lemma validate_inactive_twin_raises :
  CouponCode.is_active coupon_off5 = false
  /\ matching_coupons "off5" shop_with_twins = [coupon_off5; coupon_off5_twin]
  /\ ValidateCouponView_post (validate_request 1 "off5") (world_at 500 shop_with_twins)
     = (Raise MultipleObjectsReturned, world_at 500 shop_with_twins)
  /\ ~ (forall request w code_str (coupon : CouponCode.t),
          CouponValidationRequestSerializer (Request.data request) = Valid code_str ->
          In coupon (matching_coupons code_str (db w)) ->
          CouponCode.is_active coupon = false
          \/ Promotion.is_active (CouponCode.promotion coupon) = false ->
          fst (ValidateCouponView_post request w)
          = Return (refusal "Coupon code is not active." coupon)).
Proof.
  split; [reflexivity|]. split; [reflexivity|]. split; [reflexivity|].
  intros H.
  specialize (H (validate_request 1 "off5") (world_at 500 shop_with_twins) "off5"
                coupon_off5 eq_refl (or_introl eq_refl) (or_introl eq_refl)).
  vm_compute in H. discriminate H.
Qed.

(** C10, as the code has it: when the code the serializer accepted selects
    one coupon and no other, and the coupon fails [is_currently_valid],
    the view answers 200 with [valid] false and the ids of the coupon and
    of its promotion; and an answer in which either id is null is an
    answer to a code that selected no coupon. *)
Theorem validate_refusal_carries_ids request w code_str :
  CouponValidationRequestSerializer (Request.data request) = Valid code_str ->
  (forall coupon : CouponCode.t,
     matching_coupons code_str (db w) = [coupon] ->
     fst (CouponCode_is_currently_valid coupon (Some (Request.user request)) w)
     = Return false ->
     exists msg,
       fst (ValidateCouponView_post request w) = Return (refusal msg coupon))
  /\ (forall d,
        validation_of (fst (ValidateCouponView_post request w)) = Some d ->
        coupon_id d = None \/ promotion_id d = None ->
        matching_coupons code_str (db w) = []).
Proof.
  intros Hs. split.
  - intros coupon Hm Hv. rewrite (validate_found _ _ _ _ Hs Hm).
    unfold bind at 1.
    destruct (CouponCode_is_currently_valid coupon (Some (Request.user request)) w)
      as [[ok|e] w1]; cbn in Hv; [|discriminate].
    injection Hv as ->. unfold bind.
    destruct (invalid_message_returns coupon (Request.user request) w1)
      as (msg & w2 & -> & Hin).
    exists msg. now rewrite validation_response_refusal.
  - intros d Hd Hnull.
    destruct (matching_coupons code_str (db w)) as [|coupon [|c2 rest]] eqn:Hm;
      [reflexivity | exfalso | exfalso].
    + rewrite (validate_found _ _ _ _ Hs Hm) in Hd. unfold bind at 1 in Hd.
      destruct (is_currently_valid_returns coupon (Some (Request.user request)) w)
        as (ok & w1 & Hv).
      rewrite Hv in Hd. destruct ok.
      * apply validation_response_ids in Hd. cbn in Hd.
        destruct Hd as [Hc Hp], Hnull; congruence.
      * unfold bind in Hd.
        destruct (invalid_message_returns coupon (Request.user request) w1)
          as (msg & w2 & Hmsg & Hin).
        rewrite Hmsg, validation_response_refusal in Hd by assumption.
        cbn in Hd. injection Hd as <-. cbn in Hnull.
        destruct Hnull; discriminate.
    + rewrite (validate_ambiguous _ _ _ _ _ _ Hs Hm) in Hd. discriminate Hd.
Qed.

Lemma validate_refusal_carries_ids_witness :
  exists msg,
    fst (ValidateCouponView_post (validate_request 1 "used") (world_at 500 shop))
    = Return (refusal msg coupon_used).
Proof.
  apply (proj1 (validate_refusal_carries_ids (validate_request 1 "used")
                  (world_at 500 shop) "used" eq_refl) coupon_used);
    reflexivity.
Defined.

(** C10 as the specification words it does not hold of every code that
    matches a stored coupon: the code "used" matches USED and its twin,
    both at their cap, and [get] raises [MultipleObjectsReturned]; the
    request is answered with no body, hence with no ids. *)
Lemma validate_refusal_twin_raises :
  matching_coupons "used" shop_with_twins = [coupon_used; coupon_used_twin]
  /\ fst (CouponCode_is_currently_valid coupon_used (Some 1) (world_at 500 shop_with_twins))
     = Return false
  /\ ValidateCouponView_post (validate_request 1 "used") (world_at 500 shop_with_twins)
     = (Raise MultipleObjectsReturned, world_at 500 shop_with_twins)
  /\ ~ (forall request w code_str (coupon : CouponCode.t),
          CouponValidationRequestSerializer (Request.data request) = Valid code_str ->
          In coupon (matching_coupons code_str (db w)) ->
          fst (CouponCode_is_currently_valid coupon (Some (Request.user request)) w)
          = Return false ->
          exists msg,
            fst (ValidateCouponView_post request w) = Return (refusal msg coupon)).
Proof.
  split; [reflexivity|]. split; [reflexivity|]. split; [reflexivity|].
  intros H.
  destruct (H (validate_request 1 "used") (world_at 500 shop_with_twins) "used"
              coupon_used eq_refl (or_introl eq_refl) eq_refl) as [msg Hmsg].
  vm_compute in Hmsg. discriminate Hmsg.
Qed.

(** The scenario of the specification: "save10" selects the coupon
    SAVE10 of a ten percent promotion and is accepted. *)
Example validate_save10 :
  validation_of
    (fst (ValidateCouponView_post (validate_request 1 "save10") (world_at 500 shop)))
  = Some {| valid := true; message := "Coupon is valid.";
            discount_type := Some "percentage"; discount_value := Some 1000;
            coupon_id := Some 3; promotion_id := Some 7 |}.
Proof. reflexivity. Qed.

Example validate_used_message :
  fst (ValidateCouponView_post (validate_request 1 "used") (world_at 500 shop))
  = Return (refusal "Coupon has reached its usage limit." coupon_used).
Proof. reflexivity. Qed.

(** ** Tables with unique primary keys *)

Section Tables.

Context {A : Type} (key : A -> Z).

Lemma find_unique rows r :
  NoDup (map key rows) -> In r rows ->
  find (fun x => key x =? key r) rows = Some r.
Proof.
  induction rows as [|x rows IH]; intros Hnd Hin; [destruct Hin|].
  destruct Hin as [Hin | Hin]; cbn [find].
  - subst x. now rewrite Z.eqb_refl.
  - inversion Hnd as [|? ? Hx Hrest]; subst.
    destruct (key x =? key r) eqn:E; [|now apply IH].
    apply Z.eqb_eq in E. exfalso. apply Hx. rewrite E. now apply in_map.
Qed.

Lemma existsb_key rows r :
  In r rows -> existsb (fun x => key x =? key r) rows = true.
Proof.
  intros Hin. apply existsb_exists. exists r. split; [assumption | apply Z.eqb_refl].
Qed.

(** An [UPDATE .. WHERE pk = k] that keeps primary keys: the row with key
    [pk] afterwards is the updated row with key [pk] before. *)
Lemma find_update k (f : A -> A) rows pk :
  (forall r, key (f r) = key r) ->
  find (fun x => key x =? pk) (map (fun r => if key r =? k then f r else r) rows)
  = option_map (fun r => if key r =? k then f r else r)
      (find (fun x => key x =? pk) rows).
Proof.
  intros Hf. induction rows as [|x rows IH]; [reflexivity|].
  cbn [map find].
  assert (Hk : key (if key x =? k then f x else x) = key x)
    by (destruct (key x =? k); auto).
  rewrite Hk. destruct (key x =? pk); [reflexivity | exact IH].
Qed.

Lemma find_key rows pk r :
  find (fun x => key x =? pk) rows = Some r -> key r = pk.
Proof. intros H. apply find_some in H as [_ H]. now apply Z.eqb_eq. Qed.

End Tables.

(** An instance that a [select_related] query returns holds a row of the
    coupon table and the promotion its foreign key names. *)
Lemma select_related_sound (coupon : CouponCode.t) s :
  In coupon (CouponCode_select_related s) ->
  In (CouponCode.fields coupon) (coupons s)
  /\ In (CouponCode.promotion coupon) (promotions s)
  /\ Promotion.id (CouponCode.promotion coupon) = CouponCode.promotion_id coupon.
Proof.
  unfold CouponCode_select_related. intros H.
  apply in_flat_map in H as (r & Hr & Hc).
  destruct (find _ (promotions s)) as [p|] eqn:Hp; [|contradiction].
  destruct Hc as [<- | []]. cbn.
  apply find_some in Hp as [Hin Hid]. apply Z.eqb_eq in Hid. auto.
Qed.

Lemma matching_in_select_related code_str s coupon :
  In coupon (matching_coupons code_str s) -> In coupon (CouponCode_select_related s).
Proof. unfold matching_coupons. intros H. now apply filter_In in H. Qed.

(** ** Redemption *)

(** C6. One call of [increment_usage] on an instance just read from the
    database returns; the row of the coupon then holds [uses_count] one
    higher and the row of its promotion [total_uses_count] one higher,
    every other column of the two rows as before; no other row of the two
    tables and no other table changes. *)
Theorem increment_usage_once (coupon : CouponCode.t) w :
  pk_unique (db w) ->
  In coupon (CouponCode_select_related (db w)) ->
  let pk := CouponCode.id coupon in
  let promo := CouponCode.promotion coupon in
  exists w',
    CouponCode_increment_usage coupon w = (Return (incremented coupon), w')
    /\ coupon_row pk (db w) = Some (CouponCode.fields coupon)
    /\ promotion_row (Promotion.id promo) (db w) = Some promo
    /\ coupon_row pk (db w')
       = Some (CouponCode.with_uses_count (CouponCode.uses_count coupon + 1) coupon)
    /\ promotion_row (Promotion.id promo) (db w')
       = Some (Promotion.with_total_uses_count (Promotion.total_uses_count promo + 1) promo)
    /\ (forall k, k <> pk -> coupon_row k (db w') = coupon_row k (db w))
    /\ (forall k, k <> Promotion.id promo ->
                  promotion_row k (db w') = promotion_row k (db w))
    /\ affiliates (db w') = affiliates (db w)
    /\ referrals (db w') = referrals (db w)
    /\ events (db w') = events (db w).
Proof.
  intros [Hcu Hpu] Hin pk promo. subst pk promo.
  destruct (select_related_sound coupon (db w) Hin) as (Hrow & Hpromo & Hfk).
  pose proof (find_unique CouponCode.id _ _ Hcu Hrow) as Hfc.
  pose proof (find_unique Promotion.id _ _ Hpu Hpromo) as Hfp.
  unfold CouponCode_increment_usage, bind, ret.
  unfold CouponCode_save_uses_count at 1.
  cbn [CouponCode.fields CouponCode.id CouponCode.with_uses_count
       CouponCode.uses_count CouponCode.promotion].
  rewrite (existsb_key CouponCode.id _ _ Hrow).
  unfold Promotion_save_total_uses_count at 1.
  cbn [db with_db with_coupons promotions Promotion.id Promotion.with_total_uses_count
       Promotion.total_uses_count].
  rewrite (existsb_key Promotion.id _ _ Hpromo).
  eexists. split; [reflexivity|].
  cbn [db with_db with_coupons with_promotions promotions coupons affiliates
       referrals events].
  unfold coupon_row, promotion_row, with_promotions, with_coupons.
  cbn [coupons promotions affiliates referrals events].
  repeat split; try assumption.
  - rewrite (find_update CouponCode.id) by reflexivity.
    rewrite Hfc. cbn [option_map]. now rewrite Z.eqb_refl.
  - rewrite (find_update Promotion.id) by reflexivity.
    rewrite Hfp. cbn [option_map]. now rewrite Z.eqb_refl.
  - intros k Hk. rewrite (find_update CouponCode.id) by reflexivity.
    destruct (find (fun x => CouponCode.id x =? k) (coupons (db w)))
      as [r|] eqn:Hr; [|reflexivity].
    apply find_key in Hr. cbn [option_map].
    destruct (CouponCode.id r =? CouponCode.id coupon) eqn:E; [|reflexivity].
    apply Z.eqb_eq in E. congruence.
  - intros k Hk. rewrite (find_update Promotion.id) by reflexivity.
    destruct (find (fun x => Promotion.id x =? k) (promotions (db w)))
      as [r|] eqn:Hr; [|reflexivity].
    apply find_key in Hr. cbn [option_map].
    destruct (Promotion.id r =? Promotion.id (CouponCode.promotion coupon)) eqn:E;
      [|reflexivity].
    apply Z.eqb_eq in E. congruence.
Qed.

Lemma shop_pk_unique : pk_unique shop.
Proof.
  split; cbn; repeat constructor; cbn; intuition discriminate.
Qed.

Lemma increment_usage_once_witness :
  exists w',
    CouponCode_increment_usage coupon_save10 (world_at 500 shop)
    = (Return (incremented coupon_save10), w')
    /\ option_map CouponCode.uses_count (coupon_row 3 (db (world_at 500 shop))) = Some 0
    /\ option_map CouponCode.uses_count (coupon_row 3 (db w')) = Some 1
    /\ option_map Promotion.total_uses_count (promotion_row 7 (db w')) = Some 1.
Proof.
  destruct (increment_usage_once coupon_save10 (world_at 500 shop))
    as (w' & Hrun & _ & _ & Hc & Hp & _).
  - split; cbn; repeat constructor; cbn; intuition discriminate.
  - left; reflexivity.
  - exists w'. cbn in Hc, Hp. rewrite Hc, Hp. repeat split. exact Hrun.
Defined.

(** In a store with unique primary keys, an instance just read is the row
    its key names, and so is its promotion. *)
Lemma fresh_instance_rows (coupon : CouponCode.t) s :
  pk_unique s ->
  In coupon (CouponCode_select_related s) ->
  coupon_row (CouponCode.id coupon) s = Some (CouponCode.fields coupon)
  /\ promotion_row (Promotion.id (CouponCode.promotion coupon)) s
     = Some (CouponCode.promotion coupon).
Proof.
  intros [Hcu Hpu] Hin.
  destruct (select_related_sound coupon s Hin) as (Hrow & Hpromo & _).
  split.
  - apply (find_unique CouponCode.id _ _ Hcu Hrow).
  - apply (find_unique Promotion.id _ _ Hpu Hpromo).
Qed.

(** [increment_usage] writes the counters of the instance, whatever the
    rows hold by then: the stored [uses_count] becomes that of the
    instance plus one. *)
Lemma increment_usage_stores_instance_count (self : CouponCode.t) w r p :
  coupon_row (CouponCode.id self) (db w) = Some r ->
  promotion_row (Promotion.id (CouponCode.promotion self)) (db w) = Some p ->
  exists w',
    CouponCode_increment_usage self w = (Return (incremented self), w')
    /\ coupon_row (CouponCode.id self) (db w')
       = Some (CouponCode.with_uses_count (CouponCode.uses_count self + 1) r)
    /\ promotion_row (Promotion.id (CouponCode.promotion self)) (db w')
       = Some (Promotion.with_total_uses_count
                 (Promotion.total_uses_count (CouponCode.promotion self) + 1) p)
    /\ clock w' = clock w.
Proof.
  unfold coupon_row, promotion_row. intros Hr Hp.
  assert (Hec : existsb (fun x => CouponCode.id x =? CouponCode.id self)
                  (coupons (db w)) = true).
  { apply existsb_exists. exists r. apply find_some in Hr. exact Hr. }
  assert (Hep : existsb (fun x => Promotion.id x =? Promotion.id (CouponCode.promotion self))
                  (promotions (db w)) = true).
  { apply existsb_exists. exists p. apply find_some in Hp. exact Hp. }
  unfold CouponCode_increment_usage, bind, ret.
  unfold CouponCode_save_uses_count at 1.
  cbn [CouponCode.fields CouponCode.id CouponCode.with_uses_count
       CouponCode.uses_count CouponCode.promotion].
  rewrite Hec.
  unfold Promotion_save_total_uses_count at 1.
  cbn [db with_db with_coupons promotions Promotion.id Promotion.with_total_uses_count
       Promotion.total_uses_count].
  rewrite Hep.
  eexists. split; [reflexivity|].
  unfold with_db, with_promotions, with_coupons.
  cbn [db coupons promotions clock].
  rewrite (find_update CouponCode.id), (find_update Promotion.id) by reflexivity.
  rewrite Hr, Hp. cbn [option_map].
  rewrite (find_key CouponCode.id _ _ _ Hr), (find_key Promotion.id _ _ _ Hp).
  rewrite !Z.eqb_refl. repeat split.
Qed.

(** Two redemptions that both read the coupon before either writes: the
    stored [uses_count] ends one above what it was, not two. *)
Theorem overlapping_redemptions_count_once code_str w (coupon : CouponCode.t) :
  pk_unique (db w) ->
  matching_coupons code_str (db w) = [coupon] ->
  exists r w',
    redeem_twice_overlapping code_str w = (Return r, w')
    /\ coupon_row (CouponCode.id coupon) (db w) = Some (CouponCode.fields coupon)
    /\ coupon_row (CouponCode.id coupon) (db w')
       = Some (CouponCode.with_uses_count (CouponCode.uses_count coupon + 1) coupon).
Proof.
  intros Hu Hm.
  assert (Hin : In coupon (CouponCode_select_related (db w))).
  { apply (matching_in_select_related code_str). rewrite Hm. now left. }
  destruct (fresh_instance_rows coupon (db w) Hu Hin) as [Hc0 Hp0].
  destruct (increment_usage_stores_instance_count coupon w _ _ Hc0 Hp0)
    as (w1 & Hrun1 & Hc1 & Hp1 & _).
  destruct (increment_usage_stores_instance_count coupon w1 _ _ Hc1 Hp1)
    as (w2 & Hrun2 & Hc2 & _).
  unfold redeem_twice_overlapping, bind.
  rewrite (get_code_single _ _ _ Hm), (get_code_single _ _ _ Hm), Hrun1, Hrun2.
  do 2 eexists. split; [reflexivity|]. split; [exact Hc0|].
  rewrite Hc2. reflexivity.
Qed.

(** C7 as the specification words it does not hold: the coupon SAVE10 has
    been used 0 times; two redemptions that overlap, each reading the
    coupon before the other writes, leave its [uses_count] at 1 and the
    [total_uses_count] of its promotion at 1, where two redemptions were
    made. *)
Theorem overlapping_redemptions_lose_an_update :
  let before := world_at 500 shop in
  let after := snd (redeem_twice_overlapping "save10" before) in
  option_map CouponCode.uses_count (coupon_row 3 (db before)) = Some 0
  /\ option_map CouponCode.uses_count (coupon_row 3 (db after)) = Some 1
  /\ option_map Promotion.total_uses_count (promotion_row 7 (db after)) = Some 1
  /\ option_map CouponCode.uses_count (coupon_row 3 (db after)) <> Some 2.
Proof. cbv zeta. repeat split; try reflexivity. vm_compute. discriminate. Qed.

(** The same two redemptions, the second reading after the first wrote,
    are both counted. *)
Example redemptions_in_turn_count_twice :
  let after := snd (redeem_twice_in_turn "save10" (world_at 500 shop)) in
  option_map CouponCode.uses_count (coupon_row 3 (db after)) = Some 2
  /\ option_map Promotion.total_uses_count (promotion_row 7 (db after)) = Some 2.
Proof. split; reflexivity. Qed.

(** ** The referral registrar *)

Section Registrar.

Lemma returns_only_ret {A} (P : A -> Prop) a : P a -> returns_only P (ret a).
Proof. intros H w. exact H. Qed.

Lemma returns_only_bind {A B} (P : B -> Prop) (m : M A) (k : A -> M B) :
  (forall a, returns_only P (k a)) -> returns_only P (bind m k).
Proof.
  intros Hk w. unfold bind. destruct (m w) as [[a|e] w']; [apply Hk | exact I].
Qed.

Lemma returns_only_raises {A B} (P : B -> Prop) (m : M A) (k : A -> M B) :
  (forall w, exists e, fst (m w) = Raise e) -> returns_only P (bind m k).
Proof.
  intros Hm w. unfold bind. destruct (Hm w) as [e He].
  destruct (m w) as [[a|e'] w']; [discriminate He | exact I].
Qed.

Lemma unchanged_read_only P m : read_only m -> unchanged_unless P m.
Proof.
  intros Hm w. destruct (Hm w) as [Hd _].
  destruct (m w) as [[r|e] w']; [right; exact Hd | exact I].
Qed.

Lemma unchanged_returns_only P m : returns_only P m -> unchanged_unless P m.
Proof.
  intros Hm w. specialize (Hm w).
  destruct (m w) as [[r|e] w']; [left; exact Hm | exact I].
Qed.

Lemma unchanged_bind {A} P (m : M A) (k : A -> M Response.t) :
  read_only m -> (forall a, unchanged_unless P (k a)) ->
  unchanged_unless P (bind m k).
Proof.
  intros Hm Hk w. unfold bind. destruct (Hm w) as [Hd _].
  destruct (m w) as [[a|e] w1]; [|exact I]. cbn in Hd.
  specialize (Hk a w1). destruct (k a w1) as [[r|e] w2]; [|exact I].
  destruct Hk as [Hk | Hk]; [now left | right; congruence].
Qed.

Variable globals : list string.

Lemma read_only_global name : read_only (global globals name).
Proof. unfold global. destruct (existsb _ globals); auto with read_only. Qed.

Lemma read_only_exists_for user : read_only (Referral_exists_for user).
Proof. intros w; split; reflexivity. Qed.

Lemma read_only_get_affiliate code :
  read_only (AffiliateProfile_get_referral_code_iexact code).
Proof.
  unfold AffiliateProfile_get_referral_code_iexact.
  apply (read_only_queryset_get
           (fun w => filter (fun a => iexact (AffiliateProfile.referral_code a) code)
                            (affiliates (db w)))).
Qed.

Hint Resolve read_only_global read_only_exists_for read_only_get_affiliate
  : read_only.

Lemma read_only_error_response msg : read_only (error_response globals msg).
Proof. unfold error_response. read_only_tac. Qed.

Hint Resolve read_only_error_response : read_only.

Lemma unchanged_error_response P msg :
  unchanged_unless P (error_response globals msg).
Proof. apply unchanged_read_only, read_only_error_response. Qed.

(** The body of [post] either answers [201 Created] or has written
    nothing when it returns. *)
Lemma post_body_unchanged_unless_created settings request :
  unchanged_unless is_created (RegisterReferralView_post_body globals settings request).
Proof.
  unfold RegisterReferralView_post_body.
  apply unchanged_bind; [auto with read_only | intros _].
  apply unchanged_bind; [auto with read_only | intros already].
  destruct already; [apply unchanged_error_response|].
  apply unchanged_bind; [auto with read_only | intros _].
  destruct (CreateReferralSerializer (Request.data request)) as [code|errors].
  - apply unchanged_bind; [read_only_tac | intros found].
    destruct found as [affiliate_profile|]; [|apply unchanged_error_response].
    destruct (AffiliateProfile.user_id affiliate_profile =? Request.user request);
      [apply unchanged_error_response|].
    apply unchanged_returns_only.
    repeat (apply returns_only_bind; intros ?).
    match goal with a : (Referral.t * AffiliateProfile.t)%type |- _ => destruct a end.
    repeat (apply returns_only_bind; intros ?).
    apply returns_only_ret. reflexivity.
  - apply unchanged_read_only. read_only_tac.
Qed.

End Registrar.

(** C9. Whatever names the module binds and whatever the settings, a call
    of [post] that does not end in [201 Created] (it raised, before or
    after the insert of the referral, or it answered 400) leaves the
    database as it found it: no new Referral row, every balance and
    [total_earned] as before. *)
Theorem register_all_or_nothing globals settings request w :
  let result := RegisterReferralView_post_in globals settings request w in
  failed (fst result) = true ->
  db (snd result) = db w
  /\ referrals (db (snd result)) = referrals (db w)
  /\ affiliates (db (snd result)) = affiliates (db w).
Proof.
  cbv zeta. intros Hf.
  assert (H : db (snd (RegisterReferralView_post_in globals settings request w)) = db w).
  { revert Hf. unfold RegisterReferralView_post_in, atomic.
    pose proof (post_body_unchanged_unless_created globals settings request w) as Hb.
    destruct (RegisterReferralView_post_body globals settings request w)
      as [[r|e] w']; cbn; intros Hf; [|reflexivity].
    destruct Hb as [Hc | Hd]; [|exact Hd].
    unfold is_created in Hc. rewrite Hc in Hf. discriminate Hf. }
  rewrite H. repeat split.
Qed.

(** The request of the scenario fails after the insert: the body leaves a
    Referral row behind when it raises, and [post] leaves none. *)
Lemma register_all_or_nothing_witness :
  referrals (db (snd (RegisterReferralView_post_body views_globals commission_2_00
                        (register_request 20 "ref123xy")
                        (world_at 500 referral_store))))
  = [referral_of 20 None "pending"]
  /\ referrals (db (snd (RegisterReferralView_post_in views_globals commission_2_00
                           (register_request 20 "ref123xy")
                           (world_at 500 referral_store))))
     = []
  /\ affiliates (db (snd (RegisterReferralView_post_in views_globals commission_2_00
                            (register_request 20 "ref123xy")
                            (world_at 500 referral_store))))
     = [affiliate_a].
Proof.
  split; [reflexivity|].
  apply (register_all_or_nothing views_globals commission_2_00
           (register_request 20 "ref123xy") (world_at 500 referral_store)).
  reflexivity.
Defined.

(** C8. A user for whom a Referral exists is answered 400 with the
    already-processed error; the call changes nothing: no Referral is
    created and no balance or [total_earned] moves. *)
Theorem register_twice_rejected settings request w :
  (exists r, In r (referrals (db w))
             /\ Referral.referred_user_id r = Request.user request) ->
  RegisterReferralView_post settings request w = (Return already_referred, w).
Proof.
  intros (r & Hin & Hu).
  assert (He : existsb (fun r => Referral.referred_user_id r =? Request.user request)
                 (referrals (db w)) = true).
  { apply existsb_exists. exists r. split; [exact Hin | now apply Z.eqb_eq]. }
  unfold RegisterReferralView_post, RegisterReferralView_post_in, atomic,
    RegisterReferralView_post_body.
  change (global views_globals "Referral") with (@ret unit tt).
  unfold bind at 1, ret at 1. unfold bind at 1, Referral_exists_for, ret at 1.
  rewrite He. reflexivity.
Qed.

Lemma register_twice_rejected_witness :
  RegisterReferralView_post commission_2_00 (register_request 20 "ref123xy")
    (world_at 500 referred_store)
  = (Return already_referred, world_at 500 referred_store).
Proof.
  apply (register_twice_rejected commission_2_00 (register_request 20 "ref123xy")
           (world_at 500 referred_store)).
  exists (referral_of 20 None "pending"). split; [left; reflexivity | reflexivity].
Defined.

(** C1, on the code: in the scenario of the specification (affiliate code
    REF123XY with balance 0, a new user submitting "ref123xy", commission
    2.00) the request raises [NameError] for [settings], which
    [core/views.py] never imports, and the database is left as it was: no
    Referral, balance and [total_earned] still 0. *)
Theorem register_scenario_raises_NameError :
  let result := RegisterReferralView_post commission_2_00
                  (register_request 20 "ref123xy") (world_at 500 referral_store) in
  fst result = Raise (NameError "settings")
  /\ referrals (db (snd result)) = []
  /\ affiliates (db (snd result)) = [affiliate_a]
  /\ AffiliateProfile.balance affiliate_a = 0.
Proof. cbv zeta. repeat split. Qed.

(** No request is ever answered [201 Created] by [post] as the module
    stands. *)
Theorem register_never_creates settings request w :
  failed (fst (RegisterReferralView_post settings request w)) = true.
Proof.
  assert (H : returns_only is_bad_request
                (RegisterReferralView_post_body views_globals settings request)).
  { unfold RegisterReferralView_post_body, error_response.
    repeat match goal with
           | |- returns_only _ (bind (global views_globals "settings") _) =>
               apply returns_only_raises; intros ?; eexists; reflexivity
           | |- returns_only _ (bind _ _) => apply returns_only_bind; intros ?
           | |- returns_only _ (if ?b then _ else _) => destruct b
           | |- returns_only _ (match ?x with _ => _ end) => destruct x
           | |- returns_only _ (ret _) => apply returns_only_ret; reflexivity
           end. }
  specialize (H w).
  unfold RegisterReferralView_post, RegisterReferralView_post_in, atomic.
  destruct (RegisterReferralView_post_body views_globals settings request w)
    as [[r|e] w']; cbn in *; [|reflexivity].
  unfold is_bad_request in H. now rewrite H.
Qed.

(** *** The method with every name bound *)

Lemma global_bound G name :
  existsb (String.eqb name) G = true -> global G name = ret tt.
Proof. intros H. unfold global. now rewrite H. Qed.

Lemma next_id_fresh ids k : In k ids -> k < next_id ids.
Proof.
  unfold next_id. induction ids as [|x ids IH]; intros Hin; [destruct Hin|].
  cbn [fold_right]. destruct Hin as [-> | Hin]; [lia|]. specialize (IH Hin). lia.
Qed.

Lemma map_update_absent {A} (key : A -> Z) k (f : A -> A) rows :
  (forall r, In r rows -> key r <> k) ->
  map (fun r => if key r =? k then f r else r) rows = rows.
Proof.
  induction rows as [|x rows IH]; intros H; [reflexivity|].
  cbn [map]. rewrite IH by (intros; apply H; now right).
  destruct (key x =? k) eqn:E; [|reflexivity].
  apply Z.eqb_eq in E. exfalso. apply (H x); [now left | exact E].
Qed.


(** The insert of a Referral for a user who has none. *)
Lemma create_fresh user code (affiliate : AffiliateProfile.t) st w :
  existsb (fun r => Referral.referred_user_id r =? user) (referrals (db w)) = false ->
  exists referral w1,
    Referral_objects_create user code affiliate st w = (Return referral, w1)
    /\ Referral.referred_user_id referral = user
    /\ Referral.referral_code_used referral = code
    /\ Referral.affiliate_profile_id referral = Some (AffiliateProfile.id affiliate)
    /\ Referral.commission_earned referral = None
    /\ Referral.status referral = st
    /\ (forall r, In r (referrals (db w)) -> Referral.id r <> Referral.id referral)
    /\ referrals (db w1) = (referrals (db w) ++ [referral])%list
    /\ affiliates (db w1) = affiliates (db w).
Proof.
  intros Hnew.
  assert (Hsame : existsb
            (fun r => ((Referral.referred_user_id r =? user)
                       && set_and (Referral.affiliate_profile_id r)
                            (fun a => a =? AffiliateProfile.id affiliate))%bool)
            (referrals (db w)) = false).
  { induction (referrals (db w)) as [|r rows IH]; [reflexivity|].
    cbn [existsb] in *. apply orb_false_iff in Hnew as [Hr Hrows].
    now rewrite Hr, IH. }
  unfold Referral_objects_create, bind, timezone_now.
  cbn [db clock reads]. rewrite Hsame.
  do 2 eexists. split; [reflexivity|].
  cbn [Referral.referred_user_id Referral.referral_code_used
       Referral.affiliate_profile_id Referral.commission_earned Referral.status
       Referral.id db with_db with_referrals referrals affiliates].
  repeat split.
  intros r Hr. apply (in_map Referral.id) in Hr. apply next_id_fresh in Hr. lia.
Qed.

(** The commission block for a Decimal commission above zero, run right
    after the insert of [referral]. *)
Lemma award_decimal h (referral : Referral.t) (affiliate : AffiliateProfile.t) old w :
  0 < h ->
  In affiliate (affiliates (db w)) ->
  referrals (db w) = (old ++ [referral])%list ->
  (forall r, In r old -> Referral.id r <> Referral.id referral) ->
  let referral' :=
    Referral.with_commission (Some (Decimal h)) "commission_awarded" referral in
  let affiliate' :=
    AffiliateProfile.with_balances (AffiliateProfile.balance affiliate + h)
      (AffiliateProfile.total_earned affiliate + h) affiliate in
  exists w1,
    award_commission (Decimal h) referral affiliate w = (Return (referral', affiliate'), w1)
    /\ referrals (db w1) = (old ++ [referral'])%list
    /\ affiliates (db w1)
       = map (fun a => if AffiliateProfile.id a =? AffiliateProfile.id affiliate
                       then AffiliateProfile.with_balances
                              (AffiliateProfile.balance affiliate + h)
                              (AffiliateProfile.total_earned affiliate + h) a
                       else a)
           (affiliates (db w))
    /\ events (db w1) = events (db w).
Proof.
  intros Hh Hin Hrefs Hfresh referral' affiliate'.
  unfold award_commission. cbn [number_gt_zero].
  apply Z.ltb_lt in Hh. rewrite Hh.
  unfold Decimal_iadd, bind, ret.
  unfold AffiliateProfile_save_balances at 1.
  cbn [AffiliateProfile.id AffiliateProfile.with_balances AffiliateProfile.balance
       AffiliateProfile.total_earned].
  rewrite (existsb_key AffiliateProfile.id _ _ Hin).
  unfold Referral_save_commission at 1.
  cbn [db with_db with_affiliates referrals Referral.id Referral.with_commission
       Referral.commission_earned Referral.status].
  rewrite Hrefs.
  assert (He : existsb (fun r => Referral.id r =? Referral.id referral)
                 (old ++ [referral]) = true).
  { apply existsb_exists. exists referral. split; [|apply Z.eqb_refl].
    apply in_or_app. right. now left. }
  rewrite He.
  eexists. split; [reflexivity|].
  unfold with_db, with_referrals, with_affiliates.
  cbn [db referrals affiliates events].
  repeat split.
  rewrite map_app, (map_update_absent Referral.id) by assumption.
  cbn [map]. now rewrite Z.eqb_refl.
Qed.


(** What the method does once every name it evaluates is bound and the
    commission is a positive Decimal: for a user not referred before whose
    code selects one affiliate other than the user, it answers 201, stores
    one Referral with the code in upper case, the commission and the
    status [commission_awarded], and adds the commission to the balance
    and to [total_earned] of that affiliate and of no other. *)
Theorem register_awards_commission_when_bound
    G settings request w code (affiliate : AffiliateProfile.t) h :
  (forall n, In n register_names -> existsb (String.eqb n) G = true) ->
  AFFILIATE_SIGNUP_COMMISSION settings = Some (Decimal h) ->
  0 < h ->
  existsb (fun r => Referral.referred_user_id r =? Request.user request)
    (referrals (db w)) = false ->
  CreateReferralSerializer (Request.data request) = Valid code ->
  filter (fun a => iexact (AffiliateProfile.referral_code a) code) (affiliates (db w))
  = [affiliate] ->
  AffiliateProfile.user_id affiliate <> Request.user request ->
  NoDup (map AffiliateProfile.id (affiliates (db w))) ->
  let affiliate' :=
    AffiliateProfile.with_balances (AffiliateProfile.balance affiliate + h)
      (AffiliateProfile.total_earned affiliate + h) affiliate in
  exists referral w',
    RegisterReferralView_post_in G settings request w
    = (Return {| Response.data := ReferralBody referral affiliate';
                 Response.status := HTTP_201_CREATED |}, w')
    /\ Referral.referred_user_id referral = Request.user request
    /\ Referral.referral_code_used referral = Py.upper code
    /\ Referral.affiliate_profile_id referral = Some (AffiliateProfile.id affiliate)
    /\ Referral.commission_earned referral = Some (Decimal h)
    /\ Referral.status referral = "commission_awarded"
    /\ referrals (db w') = (referrals (db w) ++ [referral])%list
    /\ affiliate_row (AffiliateProfile.id affiliate) (db w') = Some affiliate'
    /\ (forall k, k <> AffiliateProfile.id affiliate ->
                  affiliate_row k (db w') = affiliate_row k (db w)).
Proof.
  intros HG Hset Hh Hnew Hser Haff Hself Hnd affiliate'.
  subst affiliate'.
  unfold RegisterReferralView_post_in, atomic, RegisterReferralView_post_body,
    error_response.
  rewrite !global_bound by (apply HG; cbn; tauto).
  rewrite Hser, Hset.
  unfold bind at 1, ret at 1. unfold bind at 1, Referral_exists_for, ret at 1.
  rewrite Hnew.
  unfold bind at 1, ret at 1.
  unfold bind at 1, try_except, bind at 1, ret at 1.
  unfold bind at 1, AffiliateProfile_get_referral_code_iexact.
  rewrite Haff. cbn [queryset_get]. unfold ret at 1, ret at 1.
  apply Z.eqb_neq in Hself. rewrite Hself.
  unfold bind at 1, ret at 1. unfold bind at 1.
  destruct (create_fresh (Request.user request) (Py.upper code) affiliate "pending" w Hnew)
    as (referral & w1 & -> & Hu & Hc & Ha & Hce & Hst & Hfresh & Hrefs & Haffs).
  unfold bind at 1, ret at 1. unfold bind at 1.
  assert (Hin0 : In affiliate (affiliates (db w))).
  { eapply proj1, filter_In. rewrite Haff. now left. }
  assert (Hin : In affiliate (affiliates (db w1))) by now rewrite Haffs.
  destruct (award_decimal h referral affiliate _ w1 Hh Hin Hrefs Hfresh)
    as (w2 & -> & Hrefs2 & Haffs2 & Hev).
  unfold bind at 1, ret at 1.
  unfold bind at 1, TrackedEvent_objects_create, bind at 1, timezone_now.
  unfold bind, ret. cbn [fst snd].
  unfold with_db, with_events. cbn [db referrals affiliates].
  do 2 eexists. split; [reflexivity|].
  cbn [Referral.with_commission Referral.referred_user_id Referral.referral_code_used
       Referral.affiliate_profile_id Referral.commission_earned Referral.status].
  unfold affiliate_row. cbn [db affiliates referrals].
  rewrite Hrefs2, Haffs2, Haffs.
  repeat split; try assumption.
  - rewrite (find_update AffiliateProfile.id) by reflexivity.
    rewrite (find_unique AffiliateProfile.id _ _ Hnd Hin0).
    cbn [option_map]. now rewrite Z.eqb_refl.
  - intros k Hk. rewrite (find_update AffiliateProfile.id) by reflexivity.
    destruct (find (fun x => AffiliateProfile.id x =? k) (affiliates (db w)))
      as [a|] eqn:Hf; [|reflexivity].
    apply find_key in Hf. cbn [option_map].
    destruct (AffiliateProfile.id a =? AffiliateProfile.id affiliate) eqn:E;
      [|reflexivity].
    apply Z.eqb_eq in E. congruence.
Qed.

(** With the two names imported, the scenario goes as the specification
    tells it: the Referral is stored with the code in upper case, the
    commission and the status [commission_awarded], and the balance and
    [total_earned] of the affiliate grow by the commission. *)
Example register_scenario_with_names_bound :
  let result := RegisterReferralView_post_in views_globals_completed commission_2_00
                  (register_request 20 "ref123xy") (world_at 500 referral_store) in
  let referral := referral_of 20 (Some (Decimal 200)) "commission_awarded" in
  let affiliate := AffiliateProfile.with_balances 200 200 affiliate_a in
  fst result = Return {| Response.data := ReferralBody referral affiliate;
                         Response.status := HTTP_201_CREATED |}
  /\ referrals (db (snd result)) = [referral]
  /\ affiliates (db (snd result)) = [affiliate].
Proof. cbv zeta. repeat split. Qed.

(** With the names imported and the commission left at its default, the
    float [1.00], the addition to the Decimal balance raises and nothing
    is stored. *)
Example register_default_commission_raises :
  let result := RegisterReferralView_post_in views_globals_completed commission_unset
                  (register_request 20 "ref123xy") (world_at 500 referral_store) in
  fst result
  = Raise (TypeError "unsupported operand type(s) for +=: 'decimal.Decimal' and 'float'")
  /\ db (snd result) = referral_store.
Proof. cbv zeta. split; reflexivity. Qed.

(** The scenario of the specification for a user's own code. *)
Example register_own_code_rejected :
  RegisterReferralView_post commission_2_00 (register_request 10 "ref123xy")
    (world_at 500 referral_store)
  = (Return {| Response.data := ErrorBody "Cannot refer yourself.";
               Response.status := HTTP_400_BAD_REQUEST |},
     world_at 500 referral_store).
Proof. reflexivity. Qed.

(** * Further properties *)

(** ** The validator at a clock that stands still *)

(** Settles the comparisons of a goal from the inequalities at hand. *)
Ltac settle_tests :=
  repeat match goal with
         | H : forall x, ?o = Some x -> _ |- _ =>
             destruct o; [specialize (H _ eq_refl) | clear H]
         | |- context [?a >? ?b] => destruct (Z.gtb_spec a b); try lia
         | |- context [?a <? ?b] => destruct (Z.ltb_spec a b); try lia
         | |- context [?a >=? ?b] => destruct (Z.geb_spec a b); try lia
         | |- context [?a =? ?b] => destruct (Z.eqb_spec a b); try lia
         end.

Lemma still_clock_after now w w' :
  still_clock now w -> clock w' = clock w -> still_clock now w'.
Proof. intros H Hc k. rewrite Hc. apply H. Qed.

Lemma is_currently_active_at now p w :
  still_clock now w ->
  exists w',
    Promotion_is_currently_active p w = (Return (Promotion_active_at now p), w')
    /\ db w' = db w /\ clock w' = clock w.
Proof.
  intros Hclock.
  unfold Promotion_is_currently_active, Promotion_active_at, bind, ret, timezone_now.
  destruct (Promotion.is_active p); cbn [negb andb]; [|eexists; repeat split].
  rewrite Hclock.
  destruct (Promotion.start_date p >? now); cbn [negb andb]; [eexists; repeat split|].
  destruct (set_and (Promotion.end_date p) _); cbn [negb andb];
    [eexists; repeat split|].
  destruct (set_and (Promotion.max_uses p) _); cbn [negb andb];
    eexists; repeat split.
Qed.

Lemma is_currently_valid_at now (coupon : CouponCode.t) user w :
  still_clock now w ->
  exists w',
    CouponCode_is_currently_valid coupon (Some user) w
    = (Return (CouponCode_valid_at now user coupon), w')
    /\ db w' = db w /\ clock w' = clock w.
Proof.
  intros Hclock.
  unfold CouponCode_is_currently_valid, CouponCode_valid_at.
  unfold bind at 1.
  destruct (CouponCode.is_active coupon); cbn [negb andb];
    [|eexists; repeat split].
  unfold bind at 1.
  destruct (is_currently_active_at now (CouponCode.promotion coupon) w Hclock)
    as (w1 & -> & Hd & Hc).
  unfold ret at 1.
  destruct (Promotion_active_at now (CouponCode.promotion coupon)); cbn [negb andb];
    [|eexists; repeat split; assumption].
  unfold bind, ret, timezone_now. rewrite Hc, Hclock.
  destruct (set_and (CouponCode.valid_from coupon) _); cbn [negb andb];
    [eexists; repeat split; assumption|].
  destruct (set_and (CouponCode.valid_to coupon) _); cbn [negb andb];
    [eexists; repeat split; assumption|].
  destruct (set_and (CouponCode.max_uses coupon) _); cbn [negb andb];
    [eexists; repeat split; assumption|].
  destruct (set_and (CouponCode.user_specific_id coupon) _); cbn [negb andb];
    eexists; repeat split; assumption.
Qed.

Lemma invalid_message_at now (coupon : CouponCode.t) user w :
  still_clock now w ->
  fst (invalid_message coupon user w) = Return (message_at now user coupon).
Proof.
  intros Hclock.
  unfold invalid_message, message_at, bind, ret, timezone_now.
  destruct (negb (CouponCode.is_active coupon) || _)%bool; [reflexivity|].
  rewrite Hclock.
  destruct (Promotion.start_date (CouponCode.promotion coupon) >? now);
    [reflexivity|].
  destruct (Promotion.end_date (CouponCode.promotion coupon)) as [e|];
    cbn [set_and clock reads].
  - rewrite Hclock. destruct (e <? now); [reflexivity|].
    destruct (CouponCode.valid_from coupon) as [f|]; cbn [set_and clock reads].
    + rewrite Hclock. destruct (f >? now); [reflexivity|].
      destruct (CouponCode.valid_to coupon) as [t|]; cbn [set_and clock reads].
      * rewrite Hclock. destruct (t <? now); [reflexivity|].
        repeat match goal with |- context [if ?b then _ else _] => destruct b end;
          reflexivity.
      * repeat match goal with |- context [if ?b then _ else _] => destruct b end;
          reflexivity.
    + destruct (CouponCode.valid_to coupon) as [t|]; cbn [set_and clock reads].
      * rewrite Hclock. destruct (t <? now); [reflexivity|].
        repeat match goal with |- context [if ?b then _ else _] => destruct b end;
          reflexivity.
      * repeat match goal with |- context [if ?b then _ else _] => destruct b end;
          reflexivity.
  - destruct (CouponCode.valid_from coupon) as [f|]; cbn [set_and clock reads].
    + rewrite Hclock. destruct (f >? now); [reflexivity|].
      destruct (CouponCode.valid_to coupon) as [t|]; cbn [set_and clock reads].
      * rewrite Hclock. destruct (t <? now); [reflexivity|].
        repeat match goal with |- context [if ?b then _ else _] => destruct b end;
          reflexivity.
      * repeat match goal with |- context [if ?b then _ else _] => destruct b end;
          reflexivity.
    + destruct (CouponCode.valid_to coupon) as [t|]; cbn [set_and clock reads].
      * rewrite Hclock. destruct (t <? now); [reflexivity|].
        repeat match goal with |- context [if ?b then _ else _] => destruct b end;
          reflexivity.
      * repeat match goal with |- context [if ?b then _ else _] => destruct b end;
          reflexivity.
Qed.

Lemma message_at_listed now user (coupon : CouponCode.t) :
  In (message_at now user coupon) invalid_messages.
Proof.
  unfold message_at, invalid_messages.
  repeat match goal with |- context [if ?b then _ else _] => destruct b end;
    cbn [In]; tauto.
Qed.

(** The view on a code that selects one coupon, at a still clock. *)
Lemma validate_found_at request w code_str (coupon : CouponCode.t) now :
  CouponValidationRequestSerializer (Request.data request) = Valid code_str ->
  matching_coupons code_str (db w) = [coupon] ->
  still_clock now w ->
  fst (ValidateCouponView_post request w)
  = if CouponCode_valid_at now (Request.user request) coupon
    then fst (validation_response
                {| valid := true; message := "Coupon is valid.";
                   discount_type :=
                     Some (Promotion.discount_type (CouponCode.promotion coupon));
                   discount_value :=
                     Some (Promotion.discount_value (CouponCode.promotion coupon));
                   coupon_id := Some (CouponCode.id coupon);
                   promotion_id := Some (Promotion.id (CouponCode.promotion coupon)) |}
                w)
    else Return (refusal (message_at now (Request.user request) coupon) coupon).
Proof.
  intros Hs Hm Hclock. rewrite (validate_found _ _ _ _ Hs Hm).
  unfold bind at 1.
  destruct (is_currently_valid_at now coupon (Request.user request) w Hclock)
    as (w1 & -> & Hd & Hc).
  destruct (CouponCode_valid_at now (Request.user request) coupon).
  - unfold validation_response.
    destruct (CouponValidationResponseSerializer _); reflexivity.
  - unfold bind.
    pose proof (invalid_message_at now coupon (Request.user request) w1
                  (still_clock_after now w w1 Hclock Hc)) as Hmsg.
    destruct (invalid_message coupon (Request.user request) w1) as [o w2].
    cbn [fst] in Hmsg. subst o.
    now rewrite (validation_response_refusal _ _ _ (message_at_listed _ _ _)).
Qed.

Lemma active_at_true now p :
  Promotion_running now p -> Promotion_has_uses_left p ->
  Promotion_active_at now p = true.
Proof.
  intros (Ha & Hs & He) Hu. unfold Promotion_has_uses_left in Hu.
  unfold Promotion_active_at, set_and. rewrite Ha.
  settle_tests; reflexivity.
Qed.

Lemma active_at_running now p :
  Promotion_active_at now p = true ->
  Promotion_running now p /\ Promotion_has_uses_left p.
Proof.
  unfold Promotion_active_at, Promotion_running, Promotion_has_uses_left, set_and.
  intros H. repeat (apply andb_true_iff in H as [H ?]).
  repeat split; try assumption.
  - destruct (Z.gtb_spec (Promotion.start_date p) now); [discriminate | lia].
  - intros e He. rewrite He in *.
    destruct (Z.ltb_spec e now); [discriminate | lia].
  - intros m Hm. rewrite Hm in *.
    destruct (Z.geb_spec (Promotion.total_uses_count p) m); [discriminate | lia].
Qed.

(** X1: When the serializer accepts the submitted code, the accepted code
    selects one coupon and no other, and every reading of the clock gives
    the same instant: a coupon that is switched on, inside its window and
    below its cap, for this user or for anyone, of a promotion that runs
    and has uses left, whose discount type is not blank and has no null
    character and whose discount value has at most ten digits, is
    accepted. The answer is 200 with [valid] true, the message
    "Coupon is valid.", the discount type and value of the promotion and
    both ids. [max_uses_per_user] plays no part. *)
Theorem validate_accepts request w code_str (coupon : CouponCode.t) now :
  CouponValidationRequestSerializer (Request.data request) = Valid code_str ->
  matching_coupons code_str (db w) = [coupon] ->
  still_clock now w ->
  Promotion_running now (CouponCode.promotion coupon) ->
  Promotion_has_uses_left (CouponCode.promotion coupon) ->
  CouponCode_in_window now coupon ->
  CouponCode_has_uses_left coupon ->
  CouponCode_open_to (Request.user request) coupon ->
  is_blank (Promotion.discount_type (CouponCode.promotion coupon)) = false ->
  Py.contains NUL (Py.strip (Promotion.discount_type (CouponCode.promotion coupon)))
  = false ->
  Z.abs (Promotion.discount_value (CouponCode.promotion coupon)) < 10 ^ 10 ->
  fst (ValidateCouponView_post request w) = Return (acceptance coupon).
Proof.
  intros Hs Hm Hclock Hrun Hleft (Hca & Hcf & Hct) Hcu Hco Hblank Hnul Hdigits.
  rewrite (validate_found_at _ _ _ _ now Hs Hm Hclock).
  assert (Hv : CouponCode_valid_at now (Request.user request) coupon = true).
  { unfold CouponCode_valid_at, set_and.
    unfold CouponCode_has_uses_left, CouponCode_open_to in *.
    rewrite Hca, (active_at_true _ _ Hrun Hleft).
    settle_tests; reflexivity. }
  rewrite Hv.
  unfold validation_response, CouponValidationResponseSerializer, set_and.
  cbn [message discount_type discount_value valid coupon_id promotion_id].
  rewrite Hblank. unfold CharField_validators. rewrite Hnul.
  change (is_blank "Coupon is valid.") with false.
  change (Py.contains NUL (Py.strip "Coupon is valid.")) with false.
  cbn [app].
  destruct (Z.leb_spec (10 ^ 10)
              (Z.abs (Promotion.discount_value (CouponCode.promotion coupon))));
    [lia | reflexivity].
Qed.

Lemma validate_accepts_witness :
  fst (ValidateCouponView_post (validate_request 1 "save10") (world_at 500 market))
  = Return (acceptance coupon_save10).
Proof.
  apply (validate_accepts (validate_request 1 "save10") (world_at 500 market)
           "save10" coupon_save10 500).
  all: try reflexivity.
  all: unfold Promotion_running, Promotion_has_uses_left, CouponCode_in_window,
         CouponCode_has_uses_left, CouponCode_open_to; cbn.
  all: repeat split; try lia; try discriminate.
Defined.

(** Discharges the conditions of a witness on closed data. *)
Ltac on_closed_data :=
  try reflexivity;
  unfold still_clock, Promotion_running, Promotion_has_uses_left,
    CouponCode_in_window, CouponCode_has_uses_left, CouponCode_open_to; cbn;
  repeat match goal with
         | |- _ /\ _ => split
         | |- forall _, _ => intro
         | H : Some _ = Some _ |- _ => injection H as H; subst
         | H : None = Some _ |- _ => discriminate H
         end;
  try reflexivity; try lia; try discriminate.

(** X2: At a still clock, an answer with [valid] true is given only for a
    coupon that is switched on, inside its window, below its cap and open
    to the user, of a promotion that runs and has uses left. *)
Theorem validate_accepts_only request w code_str (coupon : CouponCode.t) now d :
  CouponValidationRequestSerializer (Request.data request) = Valid code_str ->
  matching_coupons code_str (db w) = [coupon] ->
  still_clock now w ->
  validation_of (fst (ValidateCouponView_post request w)) = Some d ->
  valid d = true ->
  Promotion_running now (CouponCode.promotion coupon)
  /\ Promotion_has_uses_left (CouponCode.promotion coupon)
  /\ CouponCode_in_window now coupon
  /\ CouponCode_has_uses_left coupon
  /\ CouponCode_open_to (Request.user request) coupon.
Proof.
  intros Hs Hm Hclock Hd Hvalid.
  rewrite (validate_found_at _ _ _ _ now Hs Hm Hclock) in Hd.
  destruct (CouponCode_valid_at now (Request.user request) coupon) eqn:Hv.
  - clear Hd Hvalid. unfold CouponCode_valid_at, set_and in Hv.
    repeat (apply andb_true_iff in Hv as [Hv ?]).
    destruct (active_at_running now _ ltac:(eassumption)) as [Hrun Hleft].
    split; [exact Hrun|]. split; [exact Hleft|].
    unfold CouponCode_in_window, CouponCode_has_uses_left, CouponCode_open_to.
    repeat split; try assumption.
    + intros f Hf. rewrite Hf in *.
      destruct (Z.gtb_spec f now); [discriminate | lia].
    + intros t Ht. rewrite Ht in *.
      destruct (Z.ltb_spec t now); [discriminate | lia].
    + intros m Hmx. rewrite Hmx in *.
      destruct (Z.geb_spec (CouponCode.uses_count coupon) m); [discriminate | lia].
    + intros u Hu. rewrite Hu in *.
      destruct (Z.eqb_spec u (Request.user request)); [assumption | discriminate].
  - cbn in Hd. injection Hd as <-. discriminate Hvalid.
Qed.

Lemma validate_accepts_only_witness :
  Promotion_running 500 promo_summer
  /\ Promotion_has_uses_left promo_summer
  /\ CouponCode_in_window 500 coupon_save10
  /\ CouponCode_has_uses_left coupon_save10
  /\ CouponCode_open_to 1 coupon_save10.
Proof.
  apply (validate_accepts_only (validate_request 1 "save10") (world_at 500 market)
           "save10" coupon_save10 500
           {| valid := true; message := "Coupon is valid.";
              discount_type := Some "percentage"; discount_value := Some 1000;
              coupon_id := Some 3; promotion_id := Some 7 |});
    on_closed_data.
Defined.

(** The refusal of a coupon that is not valid at [now]. *)
Lemma validate_refuses_at request w code_str (coupon : CouponCode.t) now msg :
  CouponValidationRequestSerializer (Request.data request) = Valid code_str ->
  matching_coupons code_str (db w) = [coupon] ->
  still_clock now w ->
  CouponCode_valid_at now (Request.user request) coupon = false ->
  message_at now (Request.user request) coupon = msg ->
  fst (ValidateCouponView_post request w) = Return (refusal msg coupon).
Proof.
  intros Hs Hm Hclock Hv <-.
  now rewrite (validate_found_at _ _ _ _ now Hs Hm Hclock), Hv.
Qed.

(** X3: When the serializer accepts the submitted code, the accepted code
    selects one coupon and no other, and every reading of the clock gives
    the same instant: a coupon whose own cap is reached is refused with
    "Coupon has reached its usage limit." when nothing before the cap in
    the order of the checks fails, that is, when it is switched on and
    inside its window and its promotion runs and has uses left. *)
Theorem validate_usage_limit request w code_str (coupon : CouponCode.t) now m :
  CouponValidationRequestSerializer (Request.data request) = Valid code_str ->
  matching_coupons code_str (db w) = [coupon] ->
  still_clock now w ->
  Promotion_running now (CouponCode.promotion coupon) ->
  Promotion_has_uses_left (CouponCode.promotion coupon) ->
  CouponCode_in_window now coupon ->
  CouponCode.max_uses coupon = Some m ->
  m <= CouponCode.uses_count coupon ->
  fst (ValidateCouponView_post request w)
  = Return (refusal "Coupon has reached its usage limit." coupon).
Proof.
  intros Hs Hm Hclock Hrun Hleft (Hca & Hcf & Hct) Hmax Hcap.
  pose proof (active_at_true _ _ Hrun Hleft) as Hp.
  destruct Hrun as (Hpa & Hps & Hpe).
  apply (validate_refuses_at _ _ _ _ now _ Hs Hm Hclock).
  - unfold CouponCode_valid_at, set_and. rewrite Hca, Hp, Hmax.
    settle_tests; reflexivity.
  - unfold message_at, set_and. rewrite Hca, Hpa, Hmax. cbn [negb orb].
    settle_tests; reflexivity.
Qed.

Lemma validate_usage_limit_witness :
  fst (ValidateCouponView_post (validate_request 1 "used") (world_at 500 shop))
  = Return (refusal "Coupon has reached its usage limit." coupon_used).
Proof.
  apply (validate_usage_limit (validate_request 1 "used") (world_at 500 shop)
           "used" coupon_used 500 0); on_closed_data.
Defined.

(** X4: When the serializer accepts the submitted code, the accepted code
    selects one coupon and no other, and every reading of the clock gives
    the same instant: a coupon restricted to one user is refused to every
    other user with "Coupon is not valid for this user." when no earlier
    check fails, that is, when it is switched on, inside its window and
    below its cap and its promotion runs and has uses left. *)
Theorem validate_other_user request w code_str (coupon : CouponCode.t) now u :
  CouponValidationRequestSerializer (Request.data request) = Valid code_str ->
  matching_coupons code_str (db w) = [coupon] ->
  still_clock now w ->
  Promotion_running now (CouponCode.promotion coupon) ->
  Promotion_has_uses_left (CouponCode.promotion coupon) ->
  CouponCode_in_window now coupon ->
  CouponCode_has_uses_left coupon ->
  CouponCode.user_specific_id coupon = Some u ->
  u <> Request.user request ->
  fst (ValidateCouponView_post request w)
  = Return (refusal "Coupon is not valid for this user." coupon).
Proof.
  intros Hs Hm Hclock Hrun Hleft (Hca & Hcf & Hct) Hcu Huser Hother.
  pose proof (active_at_true _ _ Hrun Hleft) as Hp.
  destruct Hrun as (Hpa & Hps & Hpe).
  unfold CouponCode_has_uses_left in Hcu.
  apply (validate_refuses_at _ _ _ _ now _ Hs Hm Hclock).
  - unfold CouponCode_valid_at, set_and. rewrite Hca, Hp, Huser.
    settle_tests; try reflexivity; contradiction.
  - unfold message_at, set_and. rewrite Hca, Hpa, Huser. cbn [negb orb].
    settle_tests; try reflexivity; contradiction.
Qed.

Lemma validate_other_user_witness :
  fst (ValidateCouponView_post (validate_request 1 "forbob") (world_at 500 market))
  = Return (refusal "Coupon is not valid for this user." coupon_for_bob).
Proof.
  apply (validate_other_user (validate_request 1 "forbob") (world_at 500 market)
           "forbob" coupon_for_bob 500 2); on_closed_data.
Defined.

(** X5: When the serializer accepts the submitted code, the accepted code
    selects one coupon and no other, and every reading of the clock gives
    the same instant: when the cap of the promotion is reached and every
    check that has a message of its own passes (the promotion is switched
    on and inside its dates; the coupon is switched on, inside its window,
    below its cap and open to the user), the coupon is refused with the
    message the chain starts from, "Coupon code cannot be applied.": the
    chain of the view has no branch for the cap of the promotion. *)
Theorem validate_promotion_cap request w code_str (coupon : CouponCode.t) now m :
  CouponValidationRequestSerializer (Request.data request) = Valid code_str ->
  matching_coupons code_str (db w) = [coupon] ->
  still_clock now w ->
  Promotion_running now (CouponCode.promotion coupon) ->
  Promotion.max_uses (CouponCode.promotion coupon) = Some m ->
  m <= Promotion.total_uses_count (CouponCode.promotion coupon) ->
  CouponCode_in_window now coupon ->
  CouponCode_has_uses_left coupon ->
  CouponCode_open_to (Request.user request) coupon ->
  fst (ValidateCouponView_post request w)
  = Return (refusal "Coupon code cannot be applied." coupon).
Proof.
  intros Hs Hm Hclock (Hpa & Hps & Hpe) Hmax Hcap (Hca & Hcf & Hct) Hcu Hco.
  unfold CouponCode_has_uses_left, CouponCode_open_to in *.
  apply (validate_refuses_at _ _ _ _ now _ Hs Hm Hclock).
  - unfold CouponCode_valid_at, Promotion_active_at, set_and.
    rewrite Hca, Hpa, Hmax.
    destruct (Z.geb_spec (Promotion.total_uses_count (CouponCode.promotion coupon)) m);
      [|lia].
    now rewrite !andb_false_r.
  - unfold message_at, set_and. rewrite Hca, Hpa. cbn [negb orb].
    settle_tests; try reflexivity; contradiction.
Qed.

Lemma validate_promotion_cap_witness :
  fst (ValidateCouponView_post (validate_request 1 "launch") (world_at 500 market))
  = Return (refusal "Coupon code cannot be applied." coupon_capped).
Proof.
  apply (validate_promotion_cap (validate_request 1 "launch") (world_at 500 market)
           "launch" coupon_capped 500 100); on_closed_data.
Defined.

(** X6: When the serializer accepts the submitted code, the accepted code
    selects one coupon and no other, and every reading of the clock gives
    the same instant: a coupon that is switched on, of a promotion that is
    switched on, is refused with "Promotion has not started yet." before
    the start of the promotion and with "Promotion has expired." after its
    end, whatever the window, the counters and the user of the coupon. *)
Theorem validate_outside_promotion request w code_str (coupon : CouponCode.t) now :
  CouponValidationRequestSerializer (Request.data request) = Valid code_str ->
  matching_coupons code_str (db w) = [coupon] ->
  still_clock now w ->
  CouponCode.is_active coupon = true ->
  Promotion.is_active (CouponCode.promotion coupon) = true ->
  (now < Promotion.start_date (CouponCode.promotion coupon) ->
   fst (ValidateCouponView_post request w)
   = Return (refusal "Promotion has not started yet." coupon))
  /\ (forall e,
        Promotion.end_date (CouponCode.promotion coupon) = Some e ->
        Promotion.start_date (CouponCode.promotion coupon) <= now ->
        e < now ->
        fst (ValidateCouponView_post request w)
        = Return (refusal "Promotion has expired." coupon)).
Proof.
  intros Hs Hm Hclock Hca Hpa. split.
  - intros Hearly.
    apply (validate_refuses_at _ _ _ _ now _ Hs Hm Hclock).
    + unfold CouponCode_valid_at, Promotion_active_at. rewrite Hca, Hpa.
      destruct (Z.gtb_spec (Promotion.start_date (CouponCode.promotion coupon)) now);
        [reflexivity | lia].
    + unfold message_at. rewrite Hca, Hpa. cbn [negb orb].
      destruct (Z.gtb_spec (Promotion.start_date (CouponCode.promotion coupon)) now);
        [reflexivity | lia].
  - intros e He Hstarted Hlate.
    apply (validate_refuses_at _ _ _ _ now _ Hs Hm Hclock).
    + unfold CouponCode_valid_at, Promotion_active_at, set_and.
      rewrite Hca, Hpa, He.
      destruct (Z.gtb_spec (Promotion.start_date (CouponCode.promotion coupon)) now);
        [lia|].
      destruct (Z.ltb_spec e now); [reflexivity | lia].
    + unfold message_at, set_and. rewrite Hca, Hpa, He. cbn [negb orb].
      destruct (Z.gtb_spec (Promotion.start_date (CouponCode.promotion coupon)) now);
        [lia|].
      destruct (Z.ltb_spec e now); [reflexivity | lia].
Qed.

Lemma validate_outside_promotion_witness :
  fst (ValidateCouponView_post (validate_request 1 "soon") (world_at 500 market))
  = Return (refusal "Promotion has not started yet." coupon_soon)
  /\ fst (ValidateCouponView_post (validate_request 1 "late") (world_at 500 market))
     = Return (refusal "Promotion has expired." coupon_late).
Proof.
  split.
  - apply (validate_outside_promotion (validate_request 1 "soon")
             (world_at 500 market) "soon" coupon_soon 500);
      on_closed_data.
  - apply (proj2 (validate_outside_promotion (validate_request 1 "late")
                    (world_at 500 market) "late" coupon_late 500
                    eq_refl eq_refl (fun _ => eq_refl) eq_refl eq_refl) 400);
      on_closed_data.
Defined.

(** ** Redemption, then validation *)

Lemma select_related_after_update s k n pk' n' :
  CouponCode_select_related
    (with_promotions
       (map (fun p => if Promotion.id p =? pk'
                      then Promotion.with_total_uses_count n' p else p)
            (promotions s))
       (with_coupons
          (map (fun r => if CouponCode.id r =? k
                         then CouponCode.with_uses_count n r else r)
               (coupons s))
          s))
  = map (fun c : CouponCode.t =>
           {| CouponCode.fields :=
                if CouponCode.id c =? k
                then CouponCode.with_uses_count n c else CouponCode.fields c;
              CouponCode.promotion :=
                if Promotion.id (CouponCode.promotion c) =? pk'
                then Promotion.with_total_uses_count n' (CouponCode.promotion c)
                else CouponCode.promotion c |})
        (CouponCode_select_related s).
Proof.
  unfold CouponCode_select_related, with_promotions, with_coupons.
  cbn [promotions coupons].
  induction (coupons s) as [|r rows IH]; [reflexivity|].
  cbn [map flat_map]. rewrite map_app, IH. f_equal.
  assert (Hpid : CouponCode.promotion_id
                   (if CouponCode.id r =? k then CouponCode.with_uses_count n r else r)
                 = CouponCode.promotion_id r)
    by (destruct (CouponCode.id r =? k); reflexivity).
  rewrite Hpid, (find_update Promotion.id) by reflexivity.
  destruct (find _ (promotions s)) as [p|]; reflexivity.
Qed.

Lemma filter_code_after_update code_str k n pk' n' (l : list CouponCode.t) :
  let g (c : CouponCode.t) :=
    {| CouponCode.fields :=
         if CouponCode.id c =? k
         then CouponCode.with_uses_count n c else CouponCode.fields c;
       CouponCode.promotion :=
         if Promotion.id (CouponCode.promotion c) =? pk'
         then Promotion.with_total_uses_count n' (CouponCode.promotion c)
         else CouponCode.promotion c |} in
  filter (fun c : CouponCode.t => iexact (CouponCode.code c) code_str) (map g l)
  = map g (filter (fun c : CouponCode.t => iexact (CouponCode.code c) code_str) l).
Proof.
  cbv zeta. induction l as [|x l IHl]; [reflexivity|].
  cbn [map filter CouponCode.fields].
  assert (Hcode : CouponCode.code
                    (if CouponCode.id x =? k
                     then CouponCode.with_uses_count n x else CouponCode.fields x)
                  = CouponCode.code x)
    by (destruct (CouponCode.id x =? k); reflexivity).
  rewrite Hcode, IHl.
  destruct (iexact (CouponCode.code x) code_str); reflexivity.
Qed.

(** A coupon at its cap is not valid, whatever the clock and the user. *)
Lemma capped_is_not_valid (coupon : CouponCode.t) user m w :
  CouponCode.max_uses coupon = Some m ->
  m <= CouponCode.uses_count coupon ->
  exists w', CouponCode_is_currently_valid coupon user w = (Return false, w').
Proof.
  intros Hmax Hcap. unfold CouponCode_is_currently_valid, bind at 1.
  destruct (negb (CouponCode.is_active coupon)); [eexists; reflexivity|].
  unfold bind at 1.
  destruct (is_currently_active_returns (CouponCode.promotion coupon) w)
    as (b & w1 & ->).
  unfold ret at 1. destruct b; cbn [negb]; [|eexists; reflexivity].
  unfold bind, ret, timezone_now, set_and. rewrite Hmax.
  destruct (Z.geb_spec (CouponCode.uses_count coupon) m); [|lia].
  repeat match goal with |- context [if ?b then _ else _] => destruct b end;
    eexists; reflexivity.
Qed.

(** X7: The redemption that takes the last use of a coupon closes it: when
    the cap of the coupon is at most one above its [uses_count], after
    [increment_usage] on the instance just read the validator refuses the
    code, with the ids of the coupon and [valid] false. *)
Theorem last_use_closes_the_coupon
    request w code_str (coupon : CouponCode.t) m :
  CouponValidationRequestSerializer (Request.data request) = Valid code_str ->
  pk_unique (db w) ->
  matching_coupons code_str (db w) = [coupon] ->
  CouponCode.max_uses coupon = Some m ->
  m <= CouponCode.uses_count coupon + 1 ->
  exists w1 msg,
    CouponCode_increment_usage coupon w = (Return (incremented coupon), w1)
    /\ matching_coupons code_str (db w1) = [incremented coupon]
    /\ fst (ValidateCouponView_post request w1)
       = Return (refusal msg (incremented coupon)).
Proof.
  intros Hs Hu Hm Hmax Hcap.
  assert (Hin : In coupon (CouponCode_select_related (db w))).
  { apply (matching_in_select_related code_str). rewrite Hm. now left. }
  destruct (fresh_instance_rows coupon (db w) Hu Hin) as [Hc0 Hp0].
  assert (Hec : existsb (fun x => CouponCode.id x =? CouponCode.id coupon)
                  (coupons (db w)) = true).
  { apply existsb_exists. exists (CouponCode.fields coupon).
    apply find_some in Hc0. exact Hc0. }
  assert (Hep : existsb (fun x => Promotion.id x =? Promotion.id (CouponCode.promotion coupon))
                  (promotions (db w)) = true).
  { apply existsb_exists. exists (CouponCode.promotion coupon).
    apply find_some in Hp0. exact Hp0. }
  assert (Hrun : exists w1,
             CouponCode_increment_usage coupon w = (Return (incremented coupon), w1)
             /\ matching_coupons code_str (db w1) = [incremented coupon]).
  { unfold CouponCode_increment_usage, bind, ret.
    unfold CouponCode_save_uses_count at 1.
    cbn [CouponCode.fields CouponCode.id CouponCode.with_uses_count
         CouponCode.uses_count CouponCode.promotion].
    rewrite Hec.
    unfold Promotion_save_total_uses_count at 1.
    cbn [db with_db with_coupons promotions Promotion.id
         Promotion.with_total_uses_count Promotion.total_uses_count].
    rewrite Hep.
    eexists. split; [reflexivity|].
    cbn [db with_db]. unfold matching_coupons in *.
    rewrite select_related_after_update.
    rewrite filter_code_after_update, Hm.
    cbn [map]. rewrite !Z.eqb_refl. reflexivity. }
  destruct Hrun as (w1 & Hrun & Hm1).
  destruct (capped_is_not_valid (incremented coupon) (Some (Request.user request))
              m w1 Hmax ltac:(cbn; lia)) as (w2 & Hv).
  destruct (invalid_message_returns (incremented coupon) (Request.user request) w2)
    as (msg & w3 & Hmsg & Hlisted).
  exists w1, msg. split; [exact Hrun|]. split; [exact Hm1|].
  rewrite (validate_found _ _ _ _ Hs Hm1).
  unfold bind at 1. rewrite Hv. unfold bind. rewrite Hmsg.
  now rewrite (validation_response_refusal _ _ _ Hlisted).
Qed.

Lemma last_use_closes_the_coupon_witness :
  exists w1 msg,
    CouponCode_increment_usage coupon_last (world_at 500 market)
    = (Return (incremented coupon_last), w1)
    /\ matching_coupons "last" (db w1) = [incremented coupon_last]
    /\ fst (ValidateCouponView_post (validate_request 1 "last") w1)
       = Return (refusal msg (incremented coupon_last)).
Proof.
  apply (last_use_closes_the_coupon (validate_request 1 "last")
           (world_at 500 market) "last" coupon_last 5);
    [ reflexivity
    | split; cbn; repeat constructor; cbn; intuition discriminate
    | reflexivity
    | reflexivity
    | cbn; lia ].
Defined.

(** ** Redemptions in turn and redemptions that overlap *)

Lemma ids_after_update {A} (key : A -> Z) (f : A -> A) (hit : A -> bool) l :
  (forall x, key (f x) = key x) ->
  map key (map (fun x => if hit x then f x else x) l) = map key l.
Proof.
  intros Hk. induction l as [|x r IH]; cbn [map]; [reflexivity|].
  rewrite IH. now destruct (hit x); rewrite ?Hk.
Qed.

Lemma increment_usage_then_lookup code_str w (coupon : CouponCode.t) :
  pk_unique (db w) ->
  matching_coupons code_str (db w) = [coupon] ->
  exists w1,
    CouponCode_increment_usage coupon w = (Return (incremented coupon), w1)
    /\ matching_coupons code_str (db w1) = [incremented coupon]
    /\ pk_unique (db w1).
Proof.
  intros Hu Hm.
  assert (Hin : In coupon (CouponCode_select_related (db w))).
  { apply (matching_in_select_related code_str). rewrite Hm. now left. }
  destruct (fresh_instance_rows coupon (db w) Hu Hin) as [Hc0 Hp0].
  assert (Hec : existsb (fun x => CouponCode.id x =? CouponCode.id coupon)
                  (coupons (db w)) = true).
  { apply existsb_exists. exists (CouponCode.fields coupon).
    apply find_some in Hc0. exact Hc0. }
  assert (Hep : existsb (fun x => Promotion.id x =? Promotion.id (CouponCode.promotion coupon))
                  (promotions (db w)) = true).
  { apply existsb_exists. exists (CouponCode.promotion coupon).
    apply find_some in Hp0. exact Hp0. }
  unfold CouponCode_increment_usage, bind, ret.
  unfold CouponCode_save_uses_count at 1.
  cbn [CouponCode.fields CouponCode.id CouponCode.with_uses_count
       CouponCode.uses_count CouponCode.promotion].
  rewrite Hec.
  unfold Promotion_save_total_uses_count at 1.
  cbn [db with_db with_coupons promotions Promotion.id
       Promotion.with_total_uses_count Promotion.total_uses_count].
  rewrite Hep.
  eexists. split; [reflexivity|]. split.
  - cbn [db with_db]. unfold matching_coupons in *.
    rewrite select_related_after_update.
    rewrite filter_code_after_update, Hm.
    cbn [map]. rewrite !Z.eqb_refl. reflexivity.
  - destruct Hu as [Hc Hp]. unfold pk_unique.
    cbn [db with_db with_promotions with_coupons coupons promotions].
    rewrite (ids_after_update CouponCode.id), (ids_after_update Promotion.id);
      [now split | reflexivity | reflexivity].
Qed.

Lemma redeem_in_turn_counts n : forall code_str w (coupon : CouponCode.t),
  pk_unique (db w) ->
  matching_coupons code_str (db w) = [coupon] ->
  exists w',
    redeem_in_turn n code_str w = (Return tt, w')
    /\ coupon_row (CouponCode.id coupon) (db w')
       = Some (CouponCode.with_uses_count
                 (CouponCode.uses_count coupon + Z.of_nat n) coupon)
    /\ promotion_row (Promotion.id (CouponCode.promotion coupon)) (db w')
       = Some (Promotion.with_total_uses_count
                 (Promotion.total_uses_count (CouponCode.promotion coupon)
                  + Z.of_nat n)
                 (CouponCode.promotion coupon)).
Proof.
  induction n as [|n IH]; intros code_str w coupon Hu Hm.
  - exists w. split; [reflexivity|].
    assert (Hin : In coupon (CouponCode_select_related (db w))).
    { apply (matching_in_select_related code_str). rewrite Hm. now left. }
    destruct (fresh_instance_rows coupon (db w) Hu Hin) as [Hc0 Hp0].
    rewrite Hc0, Hp0. cbn [Z.of_nat]. rewrite !Z.add_0_r.
    destruct coupon as [[] []]. split; reflexivity.
  - destruct (increment_usage_then_lookup code_str w coupon Hu Hm)
      as (w1 & Hrun & Hm1 & Hu1).
    destruct (IH code_str w1 (incremented coupon) Hu1 Hm1) as (w' & Hrest & Hc & Hp).
    exists w'. split.
    + cbn [redeem_in_turn]. unfold bind at 1.
      rewrite (get_code_single _ _ _ Hm). unfold bind at 1. rewrite Hrun.
      exact Hrest.
    + cbn [incremented CouponCode.id CouponCode.fields CouponCode.promotion
           CouponCode.with_uses_count CouponCode.uses_count Promotion.id
           Promotion.with_total_uses_count Promotion.total_uses_count] in Hc, Hp.
      rewrite Hc, Hp. rewrite Nat2Z.inj_succ.
      unfold CouponCode.with_uses_count, Promotion.with_total_uses_count.
      cbn. split; do 2 f_equal; lia.
Qed.

Lemma read_instances_same n code_str w (coupon : CouponCode.t) :
  matching_coupons code_str (db w) = [coupon] ->
  read_instances n code_str w = (Return (repeat coupon n), w).
Proof.
  intros Hm. induction n as [|n IH]; [reflexivity|].
  cbn [read_instances repeat]. unfold bind at 1.
  rewrite (get_code_single _ _ _ Hm). unfold bind at 1. rewrite IH. reflexivity.
Qed.

Lemma increment_each_same (coupon : CouponCode.t) k : forall w r p,
  coupon_row (CouponCode.id coupon) (db w) = Some r ->
  promotion_row (Promotion.id (CouponCode.promotion coupon)) (db w) = Some p ->
  exists w',
    increment_each (repeat coupon (S k)) w = (Return tt, w')
    /\ coupon_row (CouponCode.id coupon) (db w')
       = Some (CouponCode.with_uses_count (CouponCode.uses_count coupon + 1) r)
    /\ promotion_row (Promotion.id (CouponCode.promotion coupon)) (db w')
       = Some (Promotion.with_total_uses_count
                 (Promotion.total_uses_count (CouponCode.promotion coupon) + 1) p).
Proof.
  induction k as [|k IH]; intros w r p Hr Hp;
    destruct (increment_usage_stores_instance_count coupon w r p Hr Hp)
      as (w1 & Hrun & Hr1 & Hp1 & _).
  - exists w1. split; [|split; assumption].
    cbn [repeat increment_each]. unfold bind at 1. now rewrite Hrun.
  - destruct (IH w1 _ _ Hr1 Hp1) as (w' & Hrest & Hr' & Hp').
    exists w'. split; [|split].
    + change (repeat coupon (S (S k))) with (coupon :: repeat coupon (S k)).
      cbn [increment_each]. unfold bind at 1. rewrite Hrun. exact Hrest.
    + rewrite Hr'. reflexivity.
    + rewrite Hp'. reflexivity.
Qed.

(** C7, as the code has it: [increment_usage] is a read-modify-write on
    the instance, which stores the [uses_count] of the instance plus one
    and the [total_uses_count] of its promotion plus one. In a store with
    unique primary keys, for a code that selects one coupon: [n]
    redemptions made in turn, each on an instance read after the one
    before wrote, leave both stored counters [n] higher; redemptions that
    overlap, all reading the coupon before any of them writes, leave both
    counters one higher, however many they are. *)
Theorem redemptions_count_by_instance code_str w (coupon : CouponCode.t) n :
  pk_unique (db w) ->
  matching_coupons code_str (db w) = [coupon] ->
  (exists w',
      redeem_in_turn n code_str w = (Return tt, w')
      /\ option_map CouponCode.uses_count (coupon_row (CouponCode.id coupon) (db w'))
         = Some (CouponCode.uses_count coupon + Z.of_nat n)
      /\ option_map Promotion.total_uses_count
           (promotion_row (Promotion.id (CouponCode.promotion coupon)) (db w'))
         = Some (Promotion.total_uses_count (CouponCode.promotion coupon) + Z.of_nat n))
  /\ (exists w',
         redeem_overlapping (S n) code_str w = (Return tt, w')
         /\ option_map CouponCode.uses_count (coupon_row (CouponCode.id coupon) (db w'))
            = Some (CouponCode.uses_count coupon + 1)
         /\ option_map Promotion.total_uses_count
              (promotion_row (Promotion.id (CouponCode.promotion coupon)) (db w'))
            = Some (Promotion.total_uses_count (CouponCode.promotion coupon) + 1)).
Proof.
  intros Hu Hm. split.
  - destruct (redeem_in_turn_counts n code_str w coupon Hu Hm) as (w' & Hrun & Hc & Hp).
    exists w'. split; [exact Hrun|]. rewrite Hc, Hp. split; reflexivity.
  - assert (Hin : In coupon (CouponCode_select_related (db w))).
    { apply (matching_in_select_related code_str). rewrite Hm. now left. }
    destruct (fresh_instance_rows coupon (db w) Hu Hin) as [Hc0 Hp0].
    destruct (increment_each_same coupon n w _ _ Hc0 Hp0) as (w' & Hrun & Hc & Hp).
    exists w'. split.
    + unfold redeem_overlapping, bind.
      rewrite (read_instances_same _ _ _ _ Hm). exact Hrun.
    + rewrite Hc, Hp. split; reflexivity.
Qed.

Lemma redemptions_count_by_instance_witness :
  (exists w',
      redeem_in_turn 3 "save10" (world_at 500 shop) = (Return tt, w')
      /\ option_map CouponCode.uses_count (coupon_row 3 (db w')) = Some 3
      /\ option_map Promotion.total_uses_count (promotion_row 7 (db w')) = Some 3)
  /\ (exists w',
         redeem_overlapping 4 "save10" (world_at 500 shop) = (Return tt, w')
         /\ option_map CouponCode.uses_count (coupon_row 3 (db w')) = Some 1
         /\ option_map Promotion.total_uses_count (promotion_row 7 (db w')) = Some 1).
Proof.
  apply (redemptions_count_by_instance "save10" (world_at 500 shop) coupon_save10 3).
  - split; repeat constructor; cbn; intuition discriminate.
  - reflexivity.
Defined.

(** The coupon LAST has one use left; after it the message is that of the
    usage limit. *)
Example last_use_message :
  let w1 := snd (CouponCode_increment_usage coupon_last (world_at 500 market)) in
  fst (ValidateCouponView_post (validate_request 1 "last") (world_at 500 market))
  = Return (acceptance coupon_last)
  /\ fst (ValidateCouponView_post (validate_request 1 "last") w1)
     = Return (refusal "Coupon has reached its usage limit." (incremented coupon_last)).
Proof. split; reflexivity. Qed.

Lemma overlapping_redemptions_count_once_witness :
  exists r w',
    redeem_twice_overlapping "save10" (world_at 500 shop) = (Return r, w')
    /\ coupon_row 3 (db (world_at 500 shop)) = Some (CouponCode.fields coupon_save10)
    /\ coupon_row 3 (db w')
       = Some (CouponCode.with_uses_count 1 coupon_save10).
Proof.
  apply (overlapping_redemptions_count_once "save10" (world_at 500 shop) coupon_save10).
  - split; cbn; repeat constructor; cbn; intuition discriminate.
  - reflexivity.
Defined.

(** ** The registrar: refused requests *)

Lemma not_yet_referred_exists user s :
  not_yet_referred user s ->
  existsb (fun r => Referral.referred_user_id r =? user) (referrals s) = false.
Proof.
  unfold not_yet_referred. induction (referrals s) as [|r rows IH]; intros H;
    [reflexivity|].
  cbn [existsb]. rewrite IH by (intros; apply H; now right).
  destruct (Z.eqb_spec (Referral.referred_user_id r) user) as [E|E]; [|reflexivity].
  exfalso. apply (H r); [now left | exact E].
Qed.

(** The method as [core/views.py] has it, up to the lookup of the code. *)
Ltac register_until_lookup Hnew Hser :=
  unfold RegisterReferralView_post, RegisterReferralView_post_in, atomic,
    RegisterReferralView_post_body, error_response;
  rewrite (global_bound views_globals "Referral"),
    (global_bound views_globals "CreateReferralSerializer"),
    (global_bound views_globals "AffiliateProfile"),
    (global_bound views_globals "Response"),
    (global_bound views_globals "status") by reflexivity;
  rewrite Hser;
  unfold bind at 1, ret at 1; unfold bind at 1, Referral_exists_for, ret at 1;
  rewrite (not_yet_referred_exists _ _ Hnew);
  unfold bind at 1, ret at 1.

(** X8: For a user who has no referral yet, when the serializer accepts
    the body and no affiliate profile has the accepted code (the submitted
    one without the whitespace at its ends) up to case, the answer is 400
    with "Invalid referral code."; nothing is written. *)
Theorem register_unknown_code settings request w code :
  not_yet_referred (Request.user request) (db w) ->
  CreateReferralSerializer (Request.data request) = Valid code ->
  matching_affiliates code (db w) = [] ->
  RegisterReferralView_post settings request w
  = (Return (bad_request "Invalid referral code."), w).
Proof.
  intros Hnew Hser Haff. register_until_lookup Hnew Hser.
  unfold bind at 1, try_except, bind at 1, ret at 1.
  unfold bind at 1, AffiliateProfile_get_referral_code_iexact.
  unfold matching_affiliates in Haff. rewrite Haff. reflexivity.
Qed.

Lemma register_unknown_code_witness :
  RegisterReferralView_post commission_2_00 (register_request 20 "nobody")
    (world_at 500 referral_store)
  = (Return (bad_request "Invalid referral code."), world_at 500 referral_store).
Proof.
  apply (register_unknown_code commission_2_00 (register_request 20 "nobody")
           (world_at 500 referral_store) "nobody");
    [ intros r [] | reflexivity | reflexivity ].
Defined.

(** X9: For a user who has no referral yet, when the serializer accepts
    the body and the accepted code selects one affiliate profile and no
    other, which is the user's own, the answer is 400 with
    "Cannot refer yourself."; no Referral is created and nothing else is
    written. *)
Theorem register_own_code settings request w code affiliate :
  not_yet_referred (Request.user request) (db w) ->
  CreateReferralSerializer (Request.data request) = Valid code ->
  matching_affiliates code (db w) = [affiliate] ->
  AffiliateProfile.user_id affiliate = Request.user request ->
  RegisterReferralView_post settings request w
  = (Return (bad_request "Cannot refer yourself."), w).
Proof.
  intros Hnew Hser Haff Hself. register_until_lookup Hnew Hser.
  unfold bind at 1, try_except, bind at 1, ret at 1.
  unfold bind at 1, AffiliateProfile_get_referral_code_iexact.
  unfold matching_affiliates in Haff. rewrite Haff.
  cbn [queryset_get]. unfold ret at 1, ret at 1.
  rewrite Hself, Z.eqb_refl. reflexivity.
Qed.

Lemma register_own_code_witness :
  RegisterReferralView_post commission_2_00 (register_request 10 "Ref123xy")
    (world_at 500 referral_store)
  = (Return (bad_request "Cannot refer yourself."), world_at 500 referral_store).
Proof.
  apply (register_own_code commission_2_00 (register_request 10 "Ref123xy")
           (world_at 500 referral_store) "Ref123xy" affiliate_a);
    [ intros r [] | reflexivity | reflexivity | reflexivity ].
Defined.

(** X10: For a user who has no referral yet, a body the serializer rejects
    ([referral_code] missing, blank, longer than 20 characters or with a
    null character) is answered 400 with the errors of the serializer;
    nothing is written. *)
Theorem register_bad_body settings request w errors :
  not_yet_referred (Request.user request) (db w) ->
  CreateReferralSerializer (Request.data request) = Invalid errors ->
  RegisterReferralView_post settings request w
  = (Return {| Response.data := FieldErrors errors;
               Response.status := HTTP_400_BAD_REQUEST |}, w).
Proof.
  intros Hnew Hser. register_until_lookup Hnew Hser. reflexivity.
Qed.

Lemma register_bad_body_witness :
  RegisterReferralView_post commission_2_00
    {| Request.user := 20; Request.data := [("code", "ref123xy")] |}
    (world_at 500 referral_store)
  = (Return {| Response.data :=
                 FieldErrors [("referral_code", "This field is required.")];
               Response.status := HTTP_400_BAD_REQUEST |},
     world_at 500 referral_store).
Proof.
  apply (register_bad_body commission_2_00
           {| Request.user := 20; Request.data := [("code", "ref123xy")] |}
           (world_at 500 referral_store)
           [("referral_code", "This field is required.")]);
    [ intros r [] | reflexivity ].
Defined.

(** X11: For a user who has no referral yet, when the serializer accepts
    the body and two or more affiliate profiles have the accepted code up
    to case, [get] raises [MultipleObjectsReturned], which the method does
    not catch: the request fails and the world is as before. *)
Theorem register_ambiguous_code settings request w code a1 a2 rest :
  not_yet_referred (Request.user request) (db w) ->
  CreateReferralSerializer (Request.data request) = Valid code ->
  matching_affiliates code (db w) = a1 :: a2 :: rest ->
  RegisterReferralView_post settings request w
  = (Raise MultipleObjectsReturned, w).
Proof.
  intros Hnew Hser Haff. register_until_lookup Hnew Hser.
  unfold bind at 1, try_except, bind at 1, ret at 1.
  unfold bind at 1, AffiliateProfile_get_referral_code_iexact.
  unfold matching_affiliates in Haff. rewrite Haff.
  cbn. now destruct w.
Qed.

Lemma register_ambiguous_code_witness :
  RegisterReferralView_post commission_2_00 (register_request 20 "REF123xy")
    (world_at 500 twin_store)
  = (Raise MultipleObjectsReturned, world_at 500 twin_store).
Proof.
  apply (register_ambiguous_code commission_2_00 (register_request 20 "REF123xy")
           (world_at 500 twin_store) "REF123xy" affiliate_a affiliate_b []);
    [ intros r [] | reflexivity | reflexivity ].
Defined.

(** ** The actions of [ReferralAdmin] *)

Lemma ticked_spec (selected : list Z) (k : Z) :
  existsb (Z.eqb k) selected = true <-> In k selected.
Proof.
  rewrite existsb_exists. split.
  - intros [x [Hin Hx]]. apply Z.eqb_eq in Hx. now subst x.
  - intros Hin. exists k. split; [exact Hin | apply Z.eqb_refl].
Qed.

Lemma update_status_only selected status label w :
  only_status_changed selected status label w
    (snd (Referral_queryset_update_status selected status w))
    (str_of_int (fst (match Referral_queryset_update_status selected status w with
                      | (Return n, _) => (n, tt)
                      | (Raise _, _) => (0, tt)
                      end)) ++ label).
Proof.
  unfold only_status_changed, Referral_queryset_update_status.
  cbn [snd fst db with_db with_referrals promotions coupons affiliates events
       referrals reads].
  split; [reflexivity|]. split; [reflexivity|]. split; [reflexivity|].
  split; [reflexivity|]. split; [reflexivity|].
  split.
  { induction (referrals (db w)) as [|r l IH]; cbn [map]; constructor; auto.
    destruct (existsb (Z.eqb (Referral.id r)) selected); [reflexivity|].
    now destruct r. }
  split.
  { intros r' Hin Ht. apply in_map_iff in Hin as [r [Hr Hin]].
    destruct (existsb (Z.eqb (Referral.id r)) selected) eqn:E.
    - now subst r'.
    - subst r'. apply ticked_spec in Ht. congruence. }
  split.
  { intros r Hin Ht. apply in_map_iff. exists r. split; [|exact Hin].
    destruct (existsb (Z.eqb (Referral.id r)) selected) eqn:E; [|reflexivity].
    apply ticked_spec in E. contradiction. }
  eexists. split; reflexivity.
Qed.

(** X12: Each of the four actions of [ReferralAdmin] sets the status of the
    selected referrals and reports how many it matched, and does nothing
    else: the commission of every referral, the balance and total of every
    affiliate profile, the referrals that were not selected and all other
    tables are as before. Cancelling a referral takes no commission
    back, and marking one as awarded or paid out moves no money. *)
Theorem ReferralAdmin_actions_only_set_status :
  Forall (fun '(action, status, label) =>
            forall (selected : list Z) (w : World),
            exists msg w',
              action selected w = (Return msg, w')
              /\ only_status_changed selected status label w w' msg)
    ReferralAdmin_actions.
Proof.
  unfold ReferralAdmin_actions.
  repeat constructor; intros selected w;
    (eexists; eexists; split;
     [ reflexivity | apply (update_status_only selected _ _ w) ]).
Qed.

(** Cancelling the referral whose commission was awarded: its status
    changes, its commission stays, and the affiliate keeps the money. *)
Example mark_cancelled_keeps_the_commission :
  let result := ReferralAdmin_mark_cancelled [1] (world_at 900 awarded_store) in
  fst result = Return "1 referrals marked as Cancelled."
  /\ referrals (db (snd result))
     = [ referral_of 20 (Some (Decimal 200)) "cancelled";
         nth 1 (referrals awarded_store) (referral_of 0 None "") ]
  /\ affiliates (db (snd result)) = [affiliate_paid]
  /\ AffiliateProfile.balance affiliate_paid = 200.
Proof. cbv zeta. repeat split. Qed.

(** ** [AffiliateProfileDetailView.get] *)

Lemma global_unbound G name :
  existsb (String.eqb name) G = false -> global G name = raise (NameError name).
Proof. intros H. unfold global. now rewrite H. Qed.

Lemma get_or_create_found user entropy w p :
  profiles_of user (db w) = [p] ->
  AffiliateProfile_get_or_create user entropy w = (Return (p, false), w).
Proof.
  intros H. unfold AffiliateProfile_get_or_create, try_except at 1.
  unfold bind at 1, AffiliateProfile_get_user.
  unfold profiles_of in H. rewrite H. reflexivity.
Qed.

Lemma profile_found entropy request w p :
  profiles_of (Request.user request) (db w) = [p] ->
  AffiliateProfileDetailView_get entropy request w
  = (Return {| ProfileResponse.data := p; ProfileResponse.status := 200 |}, w).
Proof.
  intros H. unfold AffiliateProfileDetailView_get, AffiliateProfileDetailView_get_in.
  rewrite (global_bound views_globals "AffiliateProfile"),
    (global_bound views_globals "AffiliateProfileSerializer"),
    (global_bound views_globals "Response"),
    (global_bound views_globals "status") by reflexivity.
  unfold bind at 1, ret at 1. unfold bind at 1.
  rewrite (get_or_create_found _ _ _ _ H). reflexivity.
Qed.

Lemma get_or_create_inserts user entropy w :
  profiles_of user (db w) = [] ->
  code_taken (generate_unique_referral_code entropy) (db w) = false ->
  let p := new_profile user entropy (clock w (reads w)) (clock w (S (reads w))) (db w) in
  AffiliateProfile_get_or_create user entropy w
  = (Return (p, true),
     {| db := with_affiliates (affiliates (db w) ++ [p]) (db w);
        clock := clock w; reads := S (S (reads w)) |}).
Proof.
  intros H Hc p. unfold AffiliateProfile_get_or_create, try_except at 1.
  unfold bind at 1, AffiliateProfile_get_user.
  unfold profiles_of in H. rewrite H. cbn [queryset_get raise is_DoesNotExist].
  unfold try_except at 1, atomic, bind at 1, AffiliateProfile_objects_create.
  unfold bind at 1, timezone_now at 1. unfold bind at 1, timezone_now.
  cbn [db clock reads].
  assert (E : existsb (fun a => (AffiliateProfile.user_id a =? user)
       || String.eqb (AffiliateProfile.referral_code a) (generate_unique_referral_code entropy))%bool
       (affiliates (db w)) = false).
  { unfold code_taken in Hc. revert H Hc.
    induction (affiliates (db w)) as [|a l IH]; cbn [filter existsb]; auto.
    intros Hf Hc. apply orb_false_iff in Hc as [Ha Hl].
    destruct (AffiliateProfile.user_id a =? user); [discriminate|].
    rewrite Ha. cbn [orb]. now apply IH. }
  rewrite E. reflexivity.
Qed.

Lemma profiles_of_new user entropy c u (s : Store) :
  profiles_of user s = [] ->
  profiles_of user (with_affiliates (affiliates s ++ [new_profile user entropy c u s]) s)
  = [new_profile user entropy c u s].
Proof.
  intros H. unfold profiles_of in *. cbn [affiliates with_affiliates].
  rewrite filter_app, H. cbn [filter new_profile AffiliateProfile.user_id app].
  now rewrite Z.eqb_refl.
Qed.

(** X13: The first [get] of a user who has no affiliate profile, when the
    generated code is free: the profile is inserted by [get_or_create],
    then the name [TrackedEvent], which [core/views.py] never imports,
    raises [NameError]; the method is not atomic, so the row stays. Every
    later [get] of the user is answered 200 with that row and writes
    nothing: the 201 of the source is never sent. *)
Theorem first_profile_get_raises_after_insert entropy request w :
  profiles_of (Request.user request) (db w) = [] ->
  code_taken (generate_unique_referral_code entropy) (db w) = false ->
  let p := new_profile (Request.user request) entropy
             (clock w (reads w)) (clock w (S (reads w))) (db w) in
  exists w',
    AffiliateProfileDetailView_get entropy request w
    = (Raise (NameError "TrackedEvent"), w')
    /\ db w' = with_affiliates (affiliates (db w) ++ [p]) (db w)
    /\ forall entropy',
         AffiliateProfileDetailView_get entropy' request w'
         = (Return {| ProfileResponse.data := p; ProfileResponse.status := 200 |}, w').
Proof.
  intros H Hc p. eexists. split; [|split].
  - unfold AffiliateProfileDetailView_get, AffiliateProfileDetailView_get_in.
    rewrite (global_bound views_globals "AffiliateProfile"),
      (global_bound views_globals "AffiliateProfileSerializer") by reflexivity.
    rewrite (global_unbound views_globals "TrackedEvent") by reflexivity.
    unfold bind at 1, ret at 1. unfold bind at 1.
    rewrite (get_or_create_inserts _ _ _ H Hc). reflexivity.
  - reflexivity.
  - intros entropy'. apply profile_found. cbn [db]. now apply profiles_of_new.
Qed.

Lemma first_profile_get_raises_after_insert_witness :
  exists w',
    AffiliateProfileDetailView_get entropy_zero (get_request 30)
      (world_at 500 referral_store)
    = (Raise (NameError "TrackedEvent"), w')
    /\ affiliates (db w')
       = [affiliate_a; new_profile 30 entropy_zero 500 500 referral_store].
Proof.
  destruct (first_profile_get_raises_after_insert entropy_zero (get_request 30)
              (world_at 500 referral_store)) as [w' [E [D _]]];
    [reflexivity | reflexivity |].
  exists w'. split; [exact E | now rewrite D].
Defined.

(** X14: When the code generated for a new profile is already the code of
    another profile, the request fails with [IntegrityError] and the
    database is as before: [get_or_create] does not draw a second code. *)
Theorem profile_code_collision entropy request w :
  profiles_of (Request.user request) (db w) = [] ->
  code_taken (generate_unique_referral_code entropy) (db w) = true ->
  exists w',
    AffiliateProfileDetailView_get entropy request w = (Raise IntegrityError, w')
    /\ db w' = db w.
Proof.
  intros H Hc. eexists. split.
  - unfold AffiliateProfileDetailView_get, AffiliateProfileDetailView_get_in.
    rewrite (global_bound views_globals "AffiliateProfile") by reflexivity.
    unfold bind at 1, ret at 1. unfold bind at 1.
    unfold AffiliateProfile_get_or_create, try_except at 1.
    unfold bind at 1, AffiliateProfile_get_user at 1.
    pose proof H as H'. unfold profiles_of in H'. rewrite H'.
    cbn [queryset_get raise is_DoesNotExist].
    unfold try_except at 1, atomic, bind at 1, AffiliateProfile_objects_create.
    unfold bind at 1, timezone_now at 1. unfold bind at 1, timezone_now.
    cbn [db clock reads].
    assert (E : existsb (fun a => (AffiliateProfile.user_id a =? Request.user request)
         || String.eqb (AffiliateProfile.referral_code a)
              (generate_unique_referral_code entropy))%bool
         (affiliates (db w)) = true).
    { unfold code_taken in Hc. apply existsb_exists in Hc as [a [Hin Ha]].
      apply existsb_exists. exists a. split; [exact Hin|].
      rewrite Ha. apply orb_true_r. }
    rewrite E. cbn [is_IntegrityError].
    unfold try_except, bind at 1, AffiliateProfile_get_user.
    cbn [db with_db]. rewrite H'. reflexivity.
  - reflexivity.
Qed.

Lemma profile_code_collision_witness :
  exists w',
    AffiliateProfileDetailView_get entropy_zero (get_request 30)
      (world_at 500 taken_store)
    = (Raise IntegrityError, w')
    /\ db w' = taken_store.
Proof.
  apply (profile_code_collision entropy_zero (get_request 30) (world_at 500 taken_store));
    reflexivity.
Defined.

(** X15: A user who has an affiliate profile is answered 200 with it; the
    request writes nothing, reads no clock and draws no code. *)
Theorem profile_get_existing entropy request w p :
  profiles_of (Request.user request) (db w) = [p] ->
  AffiliateProfileDetailView_get entropy request w
  = (Return {| ProfileResponse.data := p; ProfileResponse.status := 200 |}, w).
Proof. exact (profile_found entropy request w p). Qed.

Lemma profile_get_existing_witness :
  AffiliateProfileDetailView_get entropy_zero (get_request 10)
    (world_at 500 referral_store)
  = (Return {| ProfileResponse.data := affiliate_a; ProfileResponse.status := 200 |},
     world_at 500 referral_store).
Proof.
  apply (profile_get_existing entropy_zero (get_request 10)
           (world_at 500 referral_store) affiliate_a).
  reflexivity.
Defined.

(** ** Who sees and who writes content and videos *)

Lemma insert_row_In {A} (before ties : A -> A -> bool) x l a :
  In a (insert_row before ties x l) <-> a = x \/ In a l.
Proof.
  induction l as [|y r IH]; cbn [insert_row].
  - cbn. intuition.
  - destruct (before y x || _); cbn [In]; [rewrite IH|]; intuition.
Qed.

Lemma order_by_In {A} (before ties : A -> A -> bool) l a :
  In a (order_by before ties l) <-> In a l.
Proof.
  unfold order_by. induction l as [|x r IH]; cbn [fold_right]; [reflexivity|].
  rewrite insert_row_In, IH. cbn. intuition.
Qed.

Lemma insert_row_length {A} (before ties : A -> A -> bool) x l :
  List.length (insert_row before ties x l) = S (List.length l).
Proof.
  induction l as [|y r IH]; cbn [insert_row]; [reflexivity|].
  destruct (before y x || _); cbn [List.length]; [now rewrite IH | reflexivity].
Qed.

Lemma order_by_length {A} (before ties : A -> A -> bool) l :
  List.length (order_by before ties l) = List.length l.
Proof.
  unfold order_by. induction l as [|x r IH]; cbn [fold_right]; [reflexivity|].
  now rewrite insert_row_length, IH.
Qed.

Lemma safe_method_cases method :
  method_in method SAFE_METHODS = true ->
  method = "GET"%string \/ method = "HEAD"%string \/ method = "OPTIONS"%string.
Proof.
  unfold method_in, SAFE_METHODS. cbn [existsb].
  destruct (String.eqb_spec method "GET"); [auto|].
  destruct (String.eqb_spec method "HEAD"); [auto|].
  destruct (String.eqb_spec method "OPTIONS"); [auto|]. discriminate.
Qed.

Lemma content_listed_spec backend user table c :
  In c (BaseContentViewSet_get_queryset backend user table)
  <-> In c table
      /\ IsAuthorOrAdminOrReadOnly_has_object_permission "GET" user c = true.
Proof.
  unfold IsAuthorOrAdminOrReadOnly_has_object_permission.
  change (method_in "GET" SAFE_METHODS) with true. cbn iota.
  unfold BaseContentViewSet_get_queryset.
  destruct user as [|pk [|]]; cbn [is_authenticated is_staff andb];
    rewrite order_by_In, ?filter_In; cbn [is_user].
  - destruct (String.eqb (Content.status c) "published"); intuition.
  - destruct (String.eqb (Content.status c) "published");
      rewrite ?orb_true_r; intuition.
  - destruct (String.eqb (Content.status c) "published");
      destruct (Content.author_id c) as [k|]; cbn [is_user andb orb negb];
      rewrite ?orb_false_r.
    all: try (destruct (k =? pk)); cbn [andb orb negb].
    all: intuition.
Qed.

Lemma safe_methods_alike method user c :
  method_in method SAFE_METHODS = true ->
  IsAuthorOrAdminOrReadOnly_has_object_permission method user c
  = IsAuthorOrAdminOrReadOnly_has_object_permission "GET" user c.
Proof.
  intros Hm. unfold IsAuthorOrAdminOrReadOnly_has_object_permission.
  rewrite Hm. reflexivity.
Qed.

(** X16: The list of a content view set shows a user exactly the rows that
    [IsAuthorOrAdminOrReadOnly] lets the user read: for every safe method
    a row is in [get_queryset()] if and only if it is in the table and
    [has_object_permission] is true for it. Anonymous users get the
    published rows, a user those and their own, staff all; the order and
    the place of the nulls play no part. *)
Theorem content_listed_iff_readable backend method user table c :
  method_in method SAFE_METHODS = true ->
  In c (BaseContentViewSet_get_queryset backend user table)
  <-> In c table
      /\ IsAuthorOrAdminOrReadOnly_has_object_permission method user c = true.
Proof.
  intros Hm. rewrite (safe_methods_alike _ _ _ Hm). apply content_listed_spec.
Qed.

Lemma content_listed_iff_readable_witness :
  In draft_post_by_user (BaseContentViewSet_get_queryset backend_nulls_first api_user blog)
  <-> In draft_post_by_user blog
      /\ IsAuthorOrAdminOrReadOnly_has_object_permission "HEAD" api_user
           draft_post_by_user = true.
Proof.
  apply (content_listed_iff_readable backend_nulls_first "HEAD" api_user blog draft_post_by_user).
  reflexivity.
Defined.

(** X17: Whoever [IsAuthorOrAdminOrReadOnly] lets write a row (any method
    that is not safe) is logged in, passes [IsAuthenticatedOrReadOnly], may
    read the row and finds it in [get_queryset()]: no row is hidden from
    its author or from staff. *)
Theorem content_writer_can_reach backend method user table c :
  method_in method SAFE_METHODS = false ->
  IsAuthorOrAdminOrReadOnly_has_object_permission method user c = true ->
  is_authenticated user = true
  /\ IsAuthenticatedOrReadOnly_has_permission method user = true
  /\ IsAuthorOrAdminOrReadOnly_has_object_permission "GET" user c = true
  /\ (In c table -> In c (BaseContentViewSet_get_queryset backend user table)).
Proof.
  intros Hm Hp.
  assert (Ha : is_authenticated user = true).
  { unfold IsAuthorOrAdminOrReadOnly_has_object_permission in Hp. rewrite Hm in Hp.
    destruct (is_authenticated user); [reflexivity | discriminate]. }
  assert (Hr : IsAuthorOrAdminOrReadOnly_has_object_permission "GET" user c = true).
  { unfold IsAuthorOrAdminOrReadOnly_has_object_permission in *. rewrite Hm in Hp.
    rewrite Ha in *. cbn [negb andb] in *.
    change (method_in "GET" SAFE_METHODS) with true. cbn iota.
    destruct (String.eqb (Content.status c) "published"); [reflexivity | exact Hp]. }
  split; [exact Ha|]. split.
  { unfold IsAuthenticatedOrReadOnly_has_permission. rewrite Ha. apply orb_true_r. }
  split; [exact Hr|].
  intros Hin. apply content_listed_spec. split; assumption.
Qed.

Lemma content_writer_can_reach_witness :
  is_authenticated staff_user = true
  /\ IsAuthenticatedOrReadOnly_has_permission "PATCH" staff_user = true
  /\ IsAuthorOrAdminOrReadOnly_has_object_permission "GET" staff_user
       draft_post_by_user = true
  /\ (In draft_post_by_user blog ->
      In draft_post_by_user (BaseContentViewSet_get_queryset backend_nulls_last staff_user blog)).
Proof.
  apply (content_writer_can_reach backend_nulls_last "PATCH" staff_user blog draft_post_by_user);
    reflexivity.
Defined.

Lemma video_listed_spec backend user table v :
  In v (VideoViewSet_get_queryset backend user table)
  <-> In v table
      /\ (Video.status v = "published"%string
          \/ is_user (Video.uploader_id v) user = true).
Proof.
  unfold VideoViewSet_get_queryset.
  destruct (is_authenticated user) eqn:Ha; rewrite order_by_In, filter_In.
  - destruct (String.eqb_spec (Video.status v) "published") as [E|E];
      destruct (is_user (Video.uploader_id v) user); cbn [andb orb negb];
      intuition congruence.
  - assert (Hu : is_user (Video.uploader_id v) user = false).
    { destruct user; [|discriminate]. now destruct (Video.uploader_id v). }
    rewrite Hu.
    destruct (String.eqb_spec (Video.status v) "published") as [E|E];
      intuition congruence.
Qed.

(** X18: [VideoViewSet.get_queryset] shows a user the published videos and
    their own, whatever the status, and nothing else; staff get no more
    than anyone, and a published video without an uploader is shown. The
    union of the two queries lists no row twice. *)
Theorem video_listed_iff_published_or_own backend user table v :
  (In v (VideoViewSet_get_queryset backend user table)
   <-> In v table
       /\ (Video.status v = "published"%string
           \/ is_user (Video.uploader_id v) user = true))
  /\ (List.length (VideoViewSet_get_queryset backend user table) <= List.length table)%nat.
Proof.
  split; [apply video_listed_spec|].
  unfold VideoViewSet_get_queryset.
  destruct (is_authenticated user); rewrite order_by_length.
  all: induction table as [|x r IH]; cbn [filter List.length]; [lia|].
  all: match goal with |- context [if ?b then _ else _] => destruct b end.
  all: cbn [List.length]; lia.
Qed.

(** X19: [IsUploaderOrReadOnly] lets only the uploader write a video, staff
    or not: the user is logged in and is the row's uploader, so a video
    whose uploader is null can be written by nobody; and the uploader
    finds the video in [get_queryset()] whatever its status. *)
Theorem video_writer_is_uploader backend method user table v :
  method_in method SAFE_METHODS = false ->
  IsUploaderOrReadOnly_has_object_permission method user v = true ->
  (exists pk staff,
      user = AuthenticatedUser pk staff /\ Video.uploader_id v = Some pk)
  /\ (In v table -> In v (VideoViewSet_get_queryset backend user table)).
Proof.
  intros Hm Hp. unfold IsUploaderOrReadOnly_has_object_permission in Hp.
  rewrite Hm in Hp. split.
  - destruct (Video.uploader_id v) as [k|]; [|discriminate].
    destruct user as [|pk staff]; [discriminate|].
    cbn [is_user] in Hp. apply Z.eqb_eq in Hp. subst k. now exists pk, staff.
  - intros Hin. apply video_listed_spec. auto.
Qed.

Lemma video_writer_is_uploader_witness :
  (exists pk staff,
      api_user = AuthenticatedUser pk staff
      /\ Video.uploader_id (video_of 2 (Some 1) "pending") = Some pk)
  /\ (In (video_of 2 (Some 1) "pending") videos ->
      In (video_of 2 (Some 1) "pending") (VideoViewSet_get_queryset backend_nulls_last api_user videos)).
Proof.
  apply (video_writer_is_uploader backend_nulls_last "DELETE" api_user videos
           (video_of 2 (Some 1) "pending")); reflexivity.
Defined.

(** The listings [BlogPostAPITests] expects: one post for an anonymous
    user, two for [api_user], three for staff; [api_user] may not change
    the draft of the staff user. *)
Example blog_listings_of_the_tests :
  map Content.slug (BaseContentViewSet_get_queryset backend_nulls_last AnonymousUser blog)
  = ["published-api-post"%string]
  /\ map Content.slug (BaseContentViewSet_get_queryset backend_nulls_last api_user blog)
     = ["published-api-post"; "draft-api-post-user"]%string
  /\ List.length (BaseContentViewSet_get_queryset backend_nulls_last staff_user blog) = 3%nat
  /\ IsAuthorOrAdminOrReadOnly_has_object_permission "PATCH" api_user
       draft_post_by_staff = false.
Proof. repeat split. Qed.

(** Videos, newest first: staff see the pending video of nobody else and
    may not write another user's video. *)
Example video_listings :
  map Video.id (VideoViewSet_get_queryset backend_nulls_last AnonymousUser videos) = [4; 1]
  /\ map Video.id (VideoViewSet_get_queryset backend_nulls_last api_user videos) = [4; 2; 1]
  /\ map Video.id (VideoViewSet_get_queryset backend_nulls_last staff_user videos) = [4; 3; 1]
  /\ IsUploaderOrReadOnly_has_object_permission "PUT" staff_user
       (video_of 2 (Some 1) "pending") = false
  /\ IsUploaderOrReadOnly_has_object_permission "PUT" AnonymousUser
       (video_of 4 None "published") = false.
Proof. repeat split. Qed.

(** ** Creating and updating content *)

Lemma Content_save_updates obj table w :
  existsb (fun r => Content.id r =? Content.id obj) table = true ->
  slug_taken (Content.slug obj) (Some (Content.id obj)) table = false ->
  let row := Content.with_updated_at (clock w (reads w)) obj in
  Content_save obj table w
  = (Return (row, map (fun r => if Content.id r =? Content.id obj then row else r) table),
     {| db := db w; clock := clock w; reads := S (reads w) |}).
Proof.
  intros Hin Hs row. unfold Content_save, bind at 1, timezone_now.
  cbn [Content.with_updated_at Content.id Content.slug].
  rewrite Hin, Hs. reflexivity.
Qed.

(** X20: [perform_update] of a row of the table whose new slug no other
    row has returns, replaces that row only, and leaves it dated exactly
    when it is published: its status is the submitted one, or the old one
    if none was submitted; a published row keeps the date it had, or
    takes the reading of the clock when it had none, and a row that is
    not published has no date. Author, key and [created_at] stay. *)
Theorem perform_update_dates_publication instance data table w :
  existsb (fun r => Content.id r =? Content.id instance) table = true ->
  slug_taken (get_or (ContentData.slug data) (Content.slug instance))
    (Some (Content.id instance)) table = false ->
  exists row w',
    BaseContentViewSet_perform_update instance data table w
    = (Return (row, map (fun r => if Content.id r =? Content.id instance
                                  then row else r) table), w')
    /\ db w' = db w
    /\ dated_iff_published row
    /\ Content.status row = get_or (ContentData.status data) (Content.status instance)
    /\ (Content.status row = "published"%string ->
        Content.published_at row
        = Some (get_or (Content.published_at instance) (clock w (reads w))))
    /\ Content.id row = Content.id instance
    /\ Content.author_id row = Content.author_id instance
    /\ Content.created_at row = Content.created_at instance.
Proof.
  intros Hin Hs. unfold BaseContentViewSet_perform_update, dated_iff_published.
  destruct (String.eqb_spec (get_or (ContentData.status data) (Content.status instance))
              "published") as [E|E];
    destruct (Content.published_at instance) as [p|] eqn:Ep; cbn [is_set negb andb].
  - rewrite Content_save_updates by assumption.
    eexists; eexists; split; [reflexivity|]. cbn. rewrite Ep.
    repeat split; auto; try congruence.
  - unfold bind at 1, timezone_now at 1.
    rewrite Content_save_updates by assumption.
    eexists; eexists; split; [reflexivity|]. cbn.
    repeat split; auto; try congruence.
  - rewrite Content_save_updates by assumption.
    eexists; eexists; split; [reflexivity|]. cbn.
    repeat split; auto; try congruence.
  - rewrite Content_save_updates by assumption.
    eexists; eexists; split; [reflexivity|]. cbn. rewrite Ep.
    repeat split; auto; try congruence.
Qed.

Lemma perform_update_dates_publication_witness :
  exists row w',
    BaseContentViewSet_perform_update draft_post_by_user (status_data "published")
      blog (ticking empty_store)
    = (Return (row, [published_post; row; draft_post_by_staff]), w')
    /\ Content.status row = "published"%string
    /\ Content.published_at row = Some 500
    /\ Content.updated_at row = 501.
Proof.
  destruct (perform_update_dates_publication draft_post_by_user
              (status_data "published") blog (ticking empty_store))
    as [row [w' [E [_ [_ [Hs [Hp _]]]]]]]; [reflexivity | reflexivity |].
  exists row, w'. split; [exact E|]. split; [exact Hs|]. split; [exact (Hp Hs)|].
  vm_compute in E. injection E as E _. now subst row.
Defined.

Lemma slug_free_insert pk obj table w :
  slug_taken (Content.slug obj) None table = false ->
  let row :=
    Content.with_id (get_or pk (next_id (map Content.id table)))
      (Content.with_created_at (clock w (reads w))
         (Content.with_updated_at (clock w (S (reads w))) obj)) in
  Content_insert pk obj table w
  = (Return (row, (table ++ [row])%list),
     {| db := db w; clock := clock w; reads := S (S (reads w)) |}).
Proof.
  intros Hs row. unfold Content_insert, bind at 1, timezone_now at 1.
  unfold bind at 1, timezone_now. cbn [db clock reads].
  cbn [Content.with_id Content.with_created_at Content.with_updated_at Content.slug].
  rewrite Hs. reflexivity.
Qed.

Lemma next_id_not_in ids : ~ In (next_id ids) ids.
Proof. intros H. apply next_id_fresh in H. lia. Qed.

(** X21: [perform_create] for a logged-in user, when the slug is free,
    appends one row with a new key whose author is that user and whose
    [published_at] is null whatever the status, so a row created as
    published has no date; the status defaults to draft. For an anonymous
    user it ends in [PermissionDenied] without a write or a reading of the
    clock. *)
Theorem perform_create_sets_author_not_date user data table w :
  slug_taken (get_or (ContentData.slug data) "") None table = false ->
  match user with
  | AnonymousUser =>
      BaseContentViewSet_perform_create user data table w
      = (Return (PermissionDenied "Authentication required to create content.", table), w)
  | AuthenticatedUser pk _ =>
      exists row w',
        BaseContentViewSet_perform_create user data table w
        = (Return (Saved row, (table ++ [row])%list), w')
        /\ db w' = db w
        /\ Content.author_id row = Some pk
        /\ Content.published_at row = None
        /\ Content.status row = get_or (ContentData.status data) "draft"
        /\ ~ In (Content.id row) (map Content.id table)
        /\ Content.created_at row = clock w (reads w)
        /\ Content.updated_at row = clock w (S (reads w))
  end.
Proof.
  intros Hs. destruct user as [|pk staff]; [reflexivity|].
  unfold BaseContentViewSet_perform_create, bind at 1.
  rewrite slug_free_insert by exact Hs.
  eexists; eexists; split; [reflexivity|]. cbn.
  repeat split; auto. apply next_id_not_in.
Qed.

Lemma perform_create_sets_author_not_date_witness :
  exists row w',
    BaseContentViewSet_perform_create api_user (post_data "published") blog
      (ticking empty_store)
    = (Return (Saved row, (blog ++ [row])%list), w')
    /\ Content.author_id row = Some 1
    /\ Content.published_at row = None
    /\ Content.status row = "published"%string.
Proof.
  destruct (perform_create_sets_author_not_date api_user (post_data "published") blog
              (ticking empty_store))
    as [row [w' [E [_ [Ha [Hp [Hs _]]]]]]]; [reflexivity|].
  exists row, w'. auto.
Defined.

Lemma slug_taken_own slug pk table row :
  slug_taken slug None table = false ->
  Content.id row = pk ->
  slug_taken slug (Some pk) (table ++ [row]) = false.
Proof.
  intros Hs Hid. unfold slug_taken in *. rewrite existsb_app.
  apply orb_false_iff. split.
  - revert Hs. induction table as [|r l IH]; cbn [existsb]; [reflexivity|].
    intros H. apply orb_false_iff in H as [Hr Hl].
    cbn [set_and negb andb] in Hr. rewrite andb_true_r in Hr. rewrite Hr.
    cbn [andb orb]. now apply IH.
  - cbn [existsb set_and]. rewrite Hid, Z.eqb_refl. cbn [negb].
    now rewrite andb_false_r.
Qed.

Lemma perform_update_publishes instance data table w :
  get_or (ContentData.status data) (Content.status instance) = "published"%string ->
  Content.published_at instance = None ->
  existsb (fun r => Content.id r =? Content.id instance) table = true ->
  slug_taken (get_or (ContentData.slug data) (Content.slug instance))
    (Some (Content.id instance)) table = false ->
  let row :=
    Content.with_updated_at (clock w (S (reads w)))
      (Content.with_published_at (Some (clock w (reads w)))
         (set_validated data instance)) in
  BaseContentViewSet_perform_update instance data table w
  = (Return (row, map (fun r => if Content.id r =? Content.id instance
                                then row else r) table),
     {| db := db w; clock := clock w; reads := S (S (reads w)) |}).
Proof.
  intros Hst Hp Hin Hs row. unfold BaseContentViewSet_perform_update.
  rewrite Hst, Hp. change (String.eqb "published" "published") with true.
  cbn [is_set negb andb]. unfold bind at 1, timezone_now at 1.
  rewrite Content_save_updates by assumption. reflexivity.
Qed.

(** X22: A row created as published is listed to anonymous users without a
    publication date; the first [perform_update] of it, even with no
    field submitted, dates it with that moment's reading of the clock,
    not with the time it was created. *)
Theorem published_on_create_is_dated_by_first_update
    backend pk staff data table w :
  ContentData.status data = Some "published"%string ->
  slug_taken (get_or (ContentData.slug data) "") None table = false ->
  exists row table1 w1 row2 table2 w2,
    BaseContentViewSet_perform_create (AuthenticatedUser pk staff) data table w
    = (Return (Saved row, table1), w1)
    /\ Content.status row = "published"%string
    /\ Content.published_at row = None
    /\ In row (BaseContentViewSet_get_queryset backend AnonymousUser table1)
    /\ BaseContentViewSet_perform_update row no_data table1 w1
       = (Return (row2, table2), w2)
    /\ Content.status row2 = "published"%string
    /\ Content.published_at row2 = Some (clock w (S (S (reads w))))
    /\ In row2 table2.
Proof.
  intros Hst Hs.
  pose (row := Content.with_id (next_id (map Content.id table))
      (Content.with_created_at (clock w (reads w))
         (Content.with_updated_at (clock w (S (reads w))) (new_content data pk)))).
  assert (Hrs : Content.status row = "published"%string)
    by (cbn; now rewrite Hst).
  assert (Hrp : Content.published_at row = None) by reflexivity.
  pose (w1 := {| db := db w; clock := clock w; reads := S (S (reads w)) |}).
  assert (Hup := perform_update_publishes row no_data (table ++ [row]) w1).
  cbv zeta in Hup.
  exists row, (table ++ [row])%list, w1.
  eexists. eexists. eexists.
  split.
  { unfold BaseContentViewSet_perform_create, bind at 1.
    rewrite slug_free_insert by exact Hs. reflexivity. }
  split; [exact Hrs|]. split; [exact Hrp|]. split.
  { apply content_listed_spec. split.
    - apply in_or_app. right. now left.
    - unfold IsAuthorOrAdminOrReadOnly_has_object_permission.
      change (method_in "GET" SAFE_METHODS) with true. cbn iota.
      now rewrite Hrs. }
  split.
  { apply Hup.
    - exact Hrs.
    - exact Hrp.
    - rewrite existsb_app. cbn [existsb]. rewrite Z.eqb_refl.
      now rewrite orb_true_r.
    - apply slug_taken_own; [exact Hs | reflexivity]. }
  split; [exact Hrs|]. split; [reflexivity|].
  rewrite map_app. apply in_or_app. right. cbn [map]. rewrite Z.eqb_refl. now left.
Qed.

Lemma published_on_create_is_dated_by_first_update_witness :
  exists row table1 w1 row2 table2 w2,
    BaseContentViewSet_perform_create api_user (post_data "published") blog
      (ticking empty_store)
    = (Return (Saved row, table1), w1)
    /\ Content.status row = "published"%string
    /\ Content.published_at row = None
    /\ In row (BaseContentViewSet_get_queryset backend_nulls_first AnonymousUser table1)
    /\ BaseContentViewSet_perform_update row no_data table1 w1
       = (Return (row2, table2), w2)
    /\ Content.status row2 = "published"%string
    /\ Content.published_at row2 = Some 502
    /\ In row2 table2.
Proof.
  apply (published_on_create_is_dated_by_first_update backend_nulls_first 1 false
           (post_data "published") blog (ticking empty_store)); reflexivity.
Defined.

(** ** [ContentAdmin] *)

Lemma admin_save_returns obj change table w :
  can_save obj change table = true ->
  exists row table' w',
    (if change then Content_save obj table else Content_insert None obj table) w
    = (Return (row, table'), w')
    /\ db w' = db w
    /\ In row table'
    /\ Content.status row = Content.status obj
    /\ Content.published_at row = Content.published_at obj
    /\ Content.author_id row = Content.author_id obj.
Proof.
  unfold can_save. destruct change; intros H.
  - apply andb_true_iff in H as [Hin Hs]. apply negb_true_iff in Hs.
    rewrite Content_save_updates by assumption.
    eexists; eexists; eexists; split; [reflexivity|].
    split; [reflexivity|]. split; [|repeat split].
    apply existsb_exists in Hin as [r [Hr Hid]].
    apply in_map_iff. exists r. split; [|exact Hr].
    cbn [Content.id Content.with_updated_at] in *. now rewrite Hid.
  - apply negb_true_iff in H.
    rewrite slug_free_insert by assumption.
    eexists; eexists; eexists; split; [reflexivity|].
    split; [reflexivity|]. split; [|repeat split].
    apply in_or_app. right. now left.
Qed.

(** X23: [ContentAdmin.save_model], for an object the table can take (on a
    change its row exists and no other row has its slug, on an addition
    the slug is free), saves it dated exactly when it is published: a
    published object keeps its date or takes the reading of the clock, any
    other loses its date. An object without author, or with the author
    key 0, gets the logged-in user as author; another author is kept. *)
Theorem save_model_dates_publication user obj change table w :
  can_save obj change table = true ->
  exists row table' w',
    ContentAdmin_save_model user obj change table w = (Return (row, table'), w')
    /\ db w' = db w
    /\ In row table'
    /\ dated_iff_published row
    /\ Content.status row = Content.status obj
    /\ (Content.status row = "published"%string ->
        Content.published_at row
        = Some (get_or (Content.published_at obj) (clock w (reads w))))
    /\ Content.author_id row
       = (if author_missing (Content.author_id obj) then Some user
          else Content.author_id obj).
Proof.
  intros Hc. unfold ContentAdmin_save_model, dated_iff_published.
  set (obj' := if author_missing (Content.author_id obj) then _ else obj).
  assert (Hst : Content.status obj' = Content.status obj)
    by (subst obj'; now destruct (author_missing _)).
  assert (Hpa : Content.published_at obj' = Content.published_at obj)
    by (subst obj'; now destruct (author_missing _)).
  assert (Hau : Content.author_id obj'
                = if author_missing (Content.author_id obj) then Some user
                  else Content.author_id obj)
    by (subst obj'; now destruct (author_missing _)).
  assert (Hc' : forall p, can_save (Content.with_published_at p obj') change table = true).
  { intros p. subst obj'. now destruct (author_missing _). }
  assert (Hc'' : can_save obj' change table = true).
  { subst obj'. now destruct (author_missing _). }
  rewrite Hst, Hpa. clearbody obj'.
  destruct (String.eqb_spec (Content.status obj) "published") as [E|E];
    destruct (Content.published_at obj) as [p|] eqn:Ep; cbn [is_set negb andb].
  - destruct (admin_save_returns obj' change table w Hc'')
      as [row [t' [w' [Er [Hd [Hin [Hs [Hp Ha]]]]]]]].
    exists row, t', w'. rewrite Hs, Hp, Ha. cbn in *. rewrite ?Hst, ?Hpa, ?Hau, ?Ep.
    repeat split; auto; try congruence.
  - unfold bind at 1, timezone_now at 1.
    destruct (admin_save_returns (Content.with_published_at (Some (clock w (reads w))) obj')
                change table {| db := db w; clock := clock w; reads := S (reads w) |}
                (Hc' _))
      as [row [t' [w' [Er [Hd [Hin [Hs [Hp Ha]]]]]]]].
    exists row, t', w'. rewrite Hs, Hp, Ha. cbn in *. rewrite ?Hst, ?Hpa, ?Hau, ?Ep.
    repeat split; auto; try congruence.
  - destruct (admin_save_returns (Content.with_published_at None obj') change table w (Hc' _))
      as [row [t' [w' [Er [Hd [Hin [Hs [Hp Ha]]]]]]]].
    exists row, t', w'. rewrite Hs, Hp, Ha. cbn in *. rewrite ?Hst, ?Hpa, ?Hau, ?Ep.
    repeat split; auto; try congruence.
  - destruct (admin_save_returns obj' change table w Hc'')
      as [row [t' [w' [Er [Hd [Hin [Hs [Hp Ha]]]]]]]].
    exists row, t', w'. rewrite Hs, Hp, Ha. cbn in *. rewrite ?Hst, ?Hpa, ?Hau, ?Ep.
    repeat split; auto; try congruence.
Qed.

Lemma save_model_dates_publication_witness :
  exists row table' w',
    ContentAdmin_save_model 2 (Content.with_status "published" orphan_draft) true desk
      (ticking empty_store)
    = (Return (row, table'), w')
    /\ Content.status row = "published"%string
    /\ Content.published_at row = Some 500
    /\ Content.author_id row = Some 2.
Proof.
  destruct (save_model_dates_publication 2 (Content.with_status "published" orphan_draft)
              true desk (ticking empty_store))
    as [row [t' [w' [E [_ [_ [_ [Hs [Hp Ha]]]]]]]]]; [reflexivity|].
  exists row, t', w'. split; [exact E|]. split; [exact Hs|].
  split; [exact (Hp Hs) | exact Ha].
Defined.

Lemma queryset_update_spec selected status published_at table :
  let table' := snd (Content_queryset_update selected status published_at table) in
  Forall2 (fun r r' =>
             if existsb (Z.eqb (Content.id r)) selected
             then r' = Content.with_status status
                         (Content.with_published_at published_at r)
             else r' = r)
    table table'.
Proof.
  cbn [Content_queryset_update snd].
  induction table as [|r l IH]; cbn [map]; constructor; auto.
  now destruct (existsb (Z.eqb (Content.id r)) selected).
Qed.

(** X24: [publish_selected] gives every selected row the status published
    and the one reading of the clock as [published_at], also to a row that
    was published before, whose earlier date is lost; [unpublish_selected]
    makes every selected row a draft without date. Neither refreshes
    [updated_at] nor touches the author or a row that was not selected,
    and each reports the number of rows it matched. *)
Theorem admin_actions_date_the_selected selected table w :
  (exists msg table',
      ContentAdmin_publish_selected selected table w
      = (Return (msg, table'), {| db := db w; clock := clock w; reads := S (reads w) |})
      /\ msg = (str_of_int
                  (Z.of_nat (List.length
                     (filter (fun r => existsb (Z.eqb (Content.id r)) selected) table)))
                ++ " items were successfully published.")%string
      /\ Forall2 (fun r r' =>
                    Content.updated_at r' = Content.updated_at r
                    /\ Content.author_id r' = Content.author_id r
                    /\ if existsb (Z.eqb (Content.id r)) selected
                       then Content.status r' = "published"%string
                            /\ Content.published_at r' = Some (clock w (reads w))
                       else r' = r)
           table table')
  /\ (exists msg table',
         ContentAdmin_unpublish_selected selected table w = (Return (msg, table'), w)
         /\ msg = (str_of_int
                     (Z.of_nat (List.length
                        (filter (fun r => existsb (Z.eqb (Content.id r)) selected) table)))
                   ++ " items were successfully unpublished (set to draft).")%string
         /\ Forall2 (fun r r' =>
                       Content.updated_at r' = Content.updated_at r
                       /\ Content.author_id r' = Content.author_id r
                       /\ if existsb (Z.eqb (Content.id r)) selected
                          then Content.status r' = "draft"%string
                               /\ Content.published_at r' = None
                          else r' = r)
              table table').
Proof.
  split.
  - unfold ContentAdmin_publish_selected, bind at 1, timezone_now.
    eexists; eexists; split; [reflexivity|]. split; [reflexivity|].
    pose proof (queryset_update_spec selected "published" (Some (clock w (reads w))) table)
      as H. cbv zeta in H. cbn [Content_queryset_update snd] in H.
    induction H as [|r r' l l' Hr _ IH]; constructor; auto.
    destruct (existsb (Z.eqb (Content.id r)) selected); subst r'; repeat split.
  - unfold ContentAdmin_unpublish_selected.
    eexists; eexists; split; [reflexivity|]. split; [reflexivity|].
    pose proof (queryset_update_spec selected "draft" None table) as H.
    cbv zeta in H. cbn [Content_queryset_update snd] in H.
    induction H as [|r r' l l' Hr _ IH]; constructor; auto.
    destruct (existsb (Z.eqb (Content.id r)) selected); subst r'; repeat split.
Qed.

(** Publishing a post that was published at 300 again at 500 moves its
    date to 500 and leaves [updated_at] at 310. *)
Example publish_selected_restamps :
  let result := ContentAdmin_publish_selected [7; 8] desk (ticking empty_store) in
  fst result
  = Return ("2 items were successfully published."%string,
            [ Content.with_published_at (Some 500) old_post;
              Content.with_status "published"
                (Content.with_published_at (Some 500) orphan_draft) ])
  /\ Content.published_at old_post = Some 300
  /\ Content.updated_at (Content.with_published_at (Some 500) old_post) = 310.
Proof. cbv zeta. repeat split. Qed.

(** ** The shape of a generated referral code *)

Lemma b64_char_mod i : Secrets.b64_char i = Secrets.b64_char (i mod 64)%N.
Proof.
  unfold Secrets.b64_char. change 63%N with (N.ones 6).
  rewrite !N.land_ones. change (2 ^ 6)%N with 64%N.
  now rewrite N.Div0.mod_mod.
Qed.

Lemma last_sextet (a b : byte) :
  Secrets.sextet (Byte.to_N a * 65536 + Byte.to_N b * 256)%N 6
  = Secrets.b64_char (Byte.to_N b * 4)%N.
Proof.
  unfold Secrets.sextet. rewrite N.shiftr_div_pow2. change (2 ^ 6)%N with 64%N.
  replace (Byte.to_N a * 65536 + Byte.to_N b * 256)%N
    with ((Byte.to_N a * 1024 + Byte.to_N b * 4) * 64)%N by lia.
  rewrite N.div_mul by discriminate.
  rewrite b64_char_mod.
  replace (Byte.to_N a * 1024 + Byte.to_N b * 4)%N
    with (Byte.to_N b * 4 + (Byte.to_N a * 16) * 64)%N by lia.
  rewrite N.Div0.mod_add. now rewrite <- b64_char_mod.
Qed.

Lemma last_char_alnum (b : byte) :
  Py.is_upper_alnum (Py.upper_char (Secrets.b64_char (Byte.to_N b * 4)%N)) = true.
Proof. destruct b; reflexivity. Qed.

Lemma length_remove_cons x c r :
  (String.length (Py.remove_char x r) <= String.length (Py.remove_char x (String c r)))%nat.
Proof. cbn [Py.remove_char]. destruct (Ascii.eqb c x); cbn [String.length]; lia. Qed.

Lemma separators_removed_cons c r :
  (String.length (Py.remove_char "_" (Py.remove_char "-" r))
   <= String.length (Py.remove_char "_" (Py.remove_char "-" (String c r))))%nat.
Proof.
  cbn [Py.remove_char]. destruct (Ascii.eqb c "-"); [lia|].
  apply length_remove_cons.
Qed.

Lemma alnum_is_kept c :
  Py.is_upper_alnum c = true ->
  Py.remove_char "_" (Py.remove_char "-" (String c EmptyString)) = String c EmptyString.
Proof.
  destruct c as [[] [] [] [] [] [] [] []]; intros H; try discriminate H; reflexivity.
Qed.

(** X25: Whatever the eight random bytes, the generated referral code has
    between one and ten characters, each an uppercase letter or a digit:
    the last character of the token encodes four bits and is never a dash
    or an underscore, so the code is never empty, and it fits the column
    of twenty characters. *)
Theorem generated_code_is_never_empty (b1 b2 b3 b4 b5 b6 b7 b8 : byte) :
  let code := generate_unique_referral_code [b1; b2; b3; b4; b5; b6; b7; b8] in
  (1 <= String.length code <= 10)%nat
  /\ Py.all_chars Py.is_upper_alnum code = true.
Proof.
  cbv zeta. split; [|apply generate_code_upper_alnum].
  unfold generate_unique_referral_code. rewrite length_take.
  split; [|lia].
  apply Nat.min_glb; [lia|].
  unfold Secrets.token_urlsafe.
  cbn [Secrets.urlsafe_b64encode_nopad Py.upper].
  do 10 (etransitivity; [|apply separators_removed_cons]).
  rewrite last_sextet, alnum_is_kept by apply last_char_alnum.
  cbn [String.length]. lia.
Qed.

(** ** Site maps *)

(** X26: The site maps list the published rows of their table and nothing
    else, so no draft reaches a site map; every entry is in the list of
    the matching view set for every user, anonymous or not, and may be
    read by them; and the entries are the rows, as many of them, that the
    view set lists for an anonymous user. Nothing is said of their order,
    which the database may choose anew for every query. *)
Theorem sitemap_entries_are_public backend backend' (pages : list Content.t)
    (clips : list Video.t) :
  (forall c, In c (ContentSitemap_items backend pages) <->
             In c pages /\ Content.status c = "published"%string)
  /\ (forall v, In v (VideoSitemap_items backend clips) <->
                In v clips /\ Video.status v = "published"%string)
  /\ (forall user c,
         In c (ContentSitemap_items backend pages) ->
         In c (BaseContentViewSet_get_queryset backend' user pages)
         /\ IsAuthorOrAdminOrReadOnly_has_object_permission "GET" user c = true)
  /\ (forall user v,
         In v (VideoSitemap_items backend clips) ->
         In v (VideoViewSet_get_queryset backend' user clips)
         /\ IsUploaderOrReadOnly_has_object_permission "GET" user v = true)
  /\ (forall c, In c (ContentSitemap_items backend pages) <->
                In c (BaseContentViewSet_get_queryset backend' AnonymousUser pages))
  /\ (forall v, In v (VideoSitemap_items backend clips) <->
                In v (VideoViewSet_get_queryset backend' AnonymousUser clips))
  /\ List.length (ContentSitemap_items backend pages)
     = List.length (BaseContentViewSet_get_queryset backend' AnonymousUser pages)
  /\ List.length (VideoSitemap_items backend clips)
     = List.length (VideoViewSet_get_queryset backend' AnonymousUser clips).
Proof.
  assert (Hc : forall c, In c (ContentSitemap_items backend pages) <->
                         In c pages /\ Content.status c = "published"%string).
  { intros c. unfold ContentSitemap_items. rewrite order_by_In, filter_In.
    now rewrite String.eqb_eq. }
  assert (Hv : forall v, In v (VideoSitemap_items backend clips) <->
                         In v clips /\ Video.status v = "published"%string).
  { intros v. unfold VideoSitemap_items. rewrite order_by_In, filter_In.
    now rewrite String.eqb_eq. }
  split; [exact Hc|]. split; [exact Hv|].
  split; [|split; [|split; [|split; [|split]]]].
  - intros user c Hin. apply Hc in Hin as [Hin Hs].
    assert (Hp : IsAuthorOrAdminOrReadOnly_has_object_permission "GET" user c = true).
    { unfold IsAuthorOrAdminOrReadOnly_has_object_permission.
      change (method_in "GET" SAFE_METHODS) with true. cbn iota.
      apply String.eqb_eq in Hs. now rewrite Hs. }
    split; [|exact Hp]. apply content_listed_spec. now split.
  - intros user v Hin. apply Hv in Hin as [Hin Hs].
    split; [|reflexivity]. apply video_listed_spec. auto.
  - intros c. unfold ContentSitemap_items, BaseContentViewSet_get_queryset.
    cbn [is_authenticated andb]. now rewrite !order_by_In.
  - intros v. unfold VideoSitemap_items, VideoViewSet_get_queryset.
    cbn [is_authenticated]. now rewrite !order_by_In.
  - unfold ContentSitemap_items, BaseContentViewSet_get_queryset.
    cbn [is_authenticated andb]. now rewrite !order_by_length.
  - unfold VideoSitemap_items, VideoViewSet_get_queryset.
    cbn [is_authenticated]. now rewrite !order_by_length.
Qed.
